(** * Overhead perception system: camera-to-world calibration

    A shallow embedding of [world_frame_calibration.py] (class
    [WorldFrameCalibrator]) and of [xy_transform/coordinate_transform.py]
    (class [CoordinateTransformer]), with the properties of the calibration
    engine proved against it.

    Conventions of the embedding:
    - a Python [float] (and a NumPy [float64]) is a real number of [R]; the
      arithmetic is the exact one, so rounding is not part of the model;
    - a one-dimensional NumPy array is a [list R], a two-dimensional one a
      list of rows;
    - a method of an object takes the object's state and gives the new state
      back; a call that can raise returns an [outcome];
    - a Python dictionary built by the code and written to JSON is a [value]
      (an association list keeps the insertion order of the keys). *)

From Stdlib Require Import Reals Lra Lia ZArith String Bool List.
Import ListNotations.
Local Open Scope R_scope.
Set Warnings "-register-all".

(** ** Python values, exceptions and [range] *)

Module Py.

Inductive exn : Type :=
| ValueError (msg : string)
| TypeError (msg : string)
| KeyError (key : string)
| AttributeError (msg : string)
| IndexError (msg : string).

Inductive outcome (A : Type) : Type :=
| Returned (a : A)
| Raised (e : exn).

Arguments Returned {A} a.
Arguments Raised {A} e.

Definition bind {A B : Type} (o : outcome A) (k : A -> outcome B) : outcome B :=
  match o with
  | Returned a => k a
  | Raised e => Raised e
  end.

(** The values that flow through [json.dump] and [json.load]. *)
Inductive value : Type :=
| VNone
| VInt (n : Z)
| VFloat (x : R)
| VStr (s : string)
| VList (items : list value)
| VTuple (items : list value)
| VDict (entries : list (string * value)).

Fixpoint assoc (k : string) (entries : list (string * value)) : option value :=
  match entries with
  | [] => None
  | (k', v) :: rest => if String.eqb k k' then Some v else assoc k rest
  end.

(** [d[k]] *)
Definition getitem (d : value) (k : string) : outcome value :=
  match d with
  | VDict entries =>
      match assoc k entries with
      | Some v => Returned v
      | None => Raised (KeyError k)
      end
  | _ => Raised (TypeError "indices must be integers or slices, not str")
  end.

(** What [json.load] reads back from what [json.dump] wrote: a tuple is
    written as an array and comes back as a list; numbers, strings, [None]
    and the order of the keys are kept ([float.__repr__] prints the shortest
    text that reads back as the same float). *)
Fixpoint json_roundtrip (v : value) : value :=
  match v with
  | VNone => VNone
  | VInt n => VInt n
  | VFloat x => VFloat x
  | VStr s => VStr s
  | VList items => VList (map json_roundtrip items)
  | VTuple items => VList (map json_roundtrip items)
  | VDict entries =>
      VDict (map (fun kv => match kv with (k, x) => (k, json_roundtrip x) end) entries)
  end.

Fixpoint range_up (fuel : nat) (cur stop step : Z) : list Z :=
  match fuel with
  | O => []
  | S fuel' =>
      if (cur <? stop)%Z then cur :: range_up fuel' (cur + step) stop step else []
  end.

Fixpoint range_down (fuel : nat) (cur stop step : Z) : list Z :=
  match fuel with
  | O => []
  | S fuel' =>
      if (stop <? cur)%Z then cur :: range_down fuel' (cur + step) stop step else []
  end.

(** [range(start, stop, step)]; the fuel bounds the number of elements by
    the distance between the two ends. *)
Definition range (start stop step : Z) : outcome (list Z) :=
  if (step =? 0)%Z then Raised (ValueError "range() arg 3 must not be zero")
  else if (0 <? step)%Z then
    Returned (range_up (Z.to_nat (stop - start)) start stop step)
  else
    Returned (range_down (Z.to_nat (start - stop)) start stop step).

End Py.

Import Py.

Notation "x <- c ;; k" := (Py.bind c (fun x => k))
  (at level 61, c at next level, right associativity).

(** ** The NumPy operations the code uses *)

Module Np.

Definition vector := list R.
Definition matrix := list (list R).

Definition sum (xs : vector) : R := fold_right Rplus 0 xs.

Definition dot (a b : vector) : R :=
  sum (map (fun p => fst p * snd p) (combine a b)).

Definition column (j : nat) (B : matrix) : vector :=
  map (fun row => nth j row 0) B.

Definition ncols (B : matrix) : nat := length (hd [] B).

(** [A @ B] on two-dimensional arrays of matching shapes. *)
Definition matmul (A B : matrix) : matrix :=
  map (fun row => map (fun j => dot row (column j B)) (seq 0 (ncols B))) A.

(** A list of rows is a two-dimensional array when it has a row and all
    its rows have one length (without a row, [np.array] builds a
    one-dimensional array). *)
Definition is_2d (M : matrix) : bool :=
  match M with
  | [] => false
  | row :: rest => forallb (fun r => Nat.eqb (length r) (length row)) rest
  end.

(** [M @ v] for a two-dimensional [M] and a one-dimensional [v]; NumPy
    refuses a [v] whose length is not the number of columns of [M]. *)
Definition matvec (M : matrix) (v : vector) : outcome vector :=
  if is_2d M && Nat.eqb (ncols M) (length v)
  then Returned (map (fun row => dot row v) M)
  else Raised (ValueError "matmul: input operand has a mismatch in its core dimension").

Definition eye (n : nat) : matrix :=
  map (fun i => map (fun j => if Nat.eqb i j then 1 else 0) (seq 0 n)) (seq 0 n).

Definition enumerate {A : Type} (l : list A) : list (nat * A) :=
  combine (seq 0 (length l)) l.

(** [T[:k, :k] = M] *)
Definition set_block (k : nat) (T M : matrix) : matrix :=
  map (fun ir => match ir with
                 | (i, row) => if Nat.ltb i k then firstn k (nth i M []) ++ skipn k row else row
                 end)
      (enumerate T).

(** [T[:k, j] = v] *)
Definition set_column (k j : nat) (T : matrix) (v : vector) : matrix :=
  map (fun ir => match ir with
                 | (i, row) =>
                     if Nat.ltb i k then firstn j row ++ nth i v 0 :: skipn (S j) row else row
                 end)
      (enumerate T).

(** [v.reshape(n, 1)] *)
Definition reshape_column (v : vector) : matrix := map (fun x => [x]) v.

Definition scale (v : vector) (c : R) : vector := map (fun x => x * c) v.

Definition radians (deg : R) : R := deg * PI / 180.

Definition mean (xs : vector) : R := sum xs / INR (length xs).

(** [np.std]: the population standard deviation (ddof = 0). *)
Definition std (xs : vector) : R :=
  let m := mean xs in
  sqrt (mean (map (fun x => (x - m) * (x - m)) xs)).

Definition amax (xs : vector) : R :=
  match xs with
  | [] => 0
  | x :: rest => fold_left Rmax rest x
  end.

Definition amin (xs : vector) : R :=
  match xs with
  | [] => 0
  | x :: rest => fold_left Rmin rest x
  end.

(** [xs ** 2] *)
Definition square (xs : vector) : vector := map (fun x => x * x) xs.

(** [np.linalg.norm] of a one-dimensional array. *)
Definition norm (xs : vector) : R := sqrt (sum (square xs)).

(** [a - b] on one-dimensional arrays, with NumPy's broadcasting of a
    one-element operand. *)
Definition subtract (a b : vector) : outcome vector :=
  if Nat.eqb (length a) (length b) then
    Returned (map (fun p => fst p - snd p) (combine a b))
  else if Nat.eqb (length a) 1 then
    Returned (map (fun y => nth 0 a 0 - y) b)
  else if Nat.eqb (length b) 1 then
    Returned (map (fun x => x - nth 0 b 0) a)
  else Raised (ValueError "operands could not be broadcast together").

End Np.

(** ** The part of [pyrealsense2] the calibrator calls *)

Module Rs.

Record intrinsics : Type := {
  width : Z;
  height : Z;
  fx : R;
  fy : R;
  ppx : R;
  ppy : R
}.

(** Modelled from the spec: [rs2_deproject_pixel_to_point] belongs to the
    camera vendor's library, which is not part of the repository; the
    inverse pinhole projection of section 4.1 stands for it, without lens
    distortion. *)
Definition rs2_deproject_pixel_to_point (i : intrinsics) (u v depth : R) : Np.vector :=
  [(u - ppx i) / fx i * depth; (v - ppy i) / fy i * depth; depth].

(** A depth frame as [np.asanyarray(depth_frame.get_data())] shows it: a
    [rows] by [cols] array of the sensor's unsigned 16-bit depth units. *)
Record depth_frame : Type := {
  rows : Z;
  cols : Z;
  pixel : Z -> Z -> Z
}.

End Rs.

(** ** [WorldFrameCalibrator] *)

Module WorldFrameCalibrator.

Record t : Type := {
  camera_intrinsics : option Rs.intrinsics;
  depth_scale : option R;
  camera_height_cm : option R;
  camera_position_world : option Np.vector;
  rotation_matrix : option Np.matrix;
  translation_vector : option Np.matrix;
  T_world_camera : option Np.matrix;
  calibration_error_cm : option R;
  calibration_points : list value
}.

(** [__init__] *)
Definition init : t := {|
  camera_intrinsics := None;
  depth_scale := None;
  camera_height_cm := None;
  camera_position_world := None;
  rotation_matrix := None;
  translation_vector := None;
  T_world_camera := None;
  calibration_error_cm := None;
  calibration_points := []
|}.

(** [setup_camera]: the scale and the intrinsics come from the running
    pipeline, here the two arguments. *)
Definition setup_camera (self : t) (scale : R) (intr : Rs.intrinsics) : t := {|
  camera_intrinsics := Some intr;
  depth_scale := Some scale;
  camera_height_cm := camera_height_cm self;
  camera_position_world := camera_position_world self;
  rotation_matrix := rotation_matrix self;
  translation_vector := translation_vector self;
  T_world_camera := T_world_camera self;
  calibration_error_cm := calibration_error_cm self;
  calibration_points := calibration_points self
|}.

Definition Rx (tilt : R) : Np.matrix :=
  [[1; 0; 0];
   [0; cos tilt; - sin tilt];
   [0; sin tilt; cos tilt]].

Definition Ry (pan : R) : Np.matrix :=
  [[cos pan; 0; sin pan];
   [0; 1; 0];
   [- sin pan; 0; cos pan]].

Definition Rz (roll : R) : Np.matrix :=
  [[cos roll; - sin roll; 0];
   [sin roll; cos roll; 0];
   [0; 0; 1]].

Definition R_camera_to_world : Np.matrix :=
  [[1; 0; 0];
   [0; -1; 0];
   [0; 0; -1]].

Definition define_simple_overhead_calibration (self : t)
    (height_cm camera_x_world camera_y_world : R)
    (camera_tilt_deg camera_pan_deg camera_roll_deg : R) : t :=
  let position := [camera_x_world / 100; camera_y_world / 100; height_cm / 100] in
  let tilt := Np.radians camera_tilt_deg in
  let pan := Np.radians camera_pan_deg in
  let roll := Np.radians camera_roll_deg in
  let rotation := Np.matmul (Np.matmul (Rz roll) (Ry pan)) (Rx tilt) in
  let rotation := Np.matmul rotation R_camera_to_world in
  let T := Np.eye 4 in
  let T := Np.set_block 3 T rotation in
  let T := Np.set_column 3 3 T position in
  {| camera_intrinsics := camera_intrinsics self;
     depth_scale := depth_scale self;
     camera_height_cm := Some height_cm;
     camera_position_world := Some position;
     rotation_matrix := Some rotation;
     translation_vector := Some (Np.reshape_column position);
     T_world_camera := Some T;
     calibration_error_cm := calibration_error_cm self;
     calibration_points := calibration_points self |}.

Definition pixel_to_camera_coordinates (self : t) (u v depth_meters : R)
  : outcome Np.vector :=
  match camera_intrinsics self with
  | None => Raised (ValueError "Camera intrinsics not set. Call setup_camera() first.")
  | Some intr => Returned (Rs.rs2_deproject_pixel_to_point intr u v depth_meters)
  end.

Definition camera_to_world_coordinates (self : t) (point_camera : Np.vector)
    (return_cm : bool) : outcome Np.vector :=
  match T_world_camera self with
  | None =>
      Raised (ValueError "Calibration not set. Call define_simple_overhead_calibration() first.")
  | Some T =>
      let point_camera_h := point_camera ++ [1] in
      point_world_h <- Np.matvec T point_camera_h ;;
      let point_world := firstn 3 point_world_h in
      Returned (if return_cm then Np.scale point_world 100 else point_world)
  end.

(** Python sequences and scalars as JSON-ready values. *)
Definition floats (xs : Np.vector) : value := VList (map VFloat xs).

Definition floats2 (m : Np.matrix) : value := VList (map floats m).

Definition optional_float (x : option R) : value :=
  match x with
  | Some r => VFloat r
  | None => VNone
  end.

(** The dictionary [add_calibration_point] builds. *)
Definition calibration_point (label : string) (pixel_coords : Z * Z) (depth_meters : R)
    (world_coords : R * R * R) (predicted : Np.vector) (error : R) : value :=
  match pixel_coords, world_coords with
  | (u, v), (x, y, z) =>
      VDict [("label"%string, VStr label);
             ("pixel_coords"%string, VTuple [VInt u; VInt v]);
             ("depth_meters"%string, VFloat depth_meters);
             ("world_coords_true"%string, VTuple [VFloat x; VFloat y; VFloat z]);
             ("world_coords_predicted"%string, floats predicted);
             ("error_cm"%string, VFloat error)]
  end.

Definition with_calibration_points (self : t) (pts : list value) : t := {|
  camera_intrinsics := camera_intrinsics self;
  depth_scale := depth_scale self;
  camera_height_cm := camera_height_cm self;
  camera_position_world := camera_position_world self;
  rotation_matrix := rotation_matrix self;
  translation_vector := translation_vector self;
  T_world_camera := T_world_camera self;
  calibration_error_cm := calibration_error_cm self;
  calibration_points := pts
|}.

(** The [print] that follows the append formats
    [point_world_predicted[0]], [[1]] and [[2]], in this order. *)
Definition print_predicted (predicted : Np.vector) : outcome unit :=
  match predicted with
  | [] => Raised (IndexError "index 0 is out of bounds for axis 0 with size 0")
  | [_] => Raised (IndexError "index 1 is out of bounds for axis 0 with size 1")
  | [_; _] => Raised (IndexError "index 2 is out of bounds for axis 0 with size 2")
  | _ => Returned tt
  end.

(** [add_calibration_point]: a step that raises before the append leaves
    the state as it was; the report printed after the append can still
    raise, and then the point is already in the history. *)
Definition add_calibration_point (self : t) (pixel_coords : Z * Z) (depth_meters : R)
    (world_coords : R * R * R) (label : string) : t * outcome R :=
  match pixel_coords, world_coords with
  | (u, v), (x, y, z) =>
      let computed :=
        point_camera <- pixel_to_camera_coordinates self (IZR u) (IZR v) depth_meters ;;
        predicted <- camera_to_world_coordinates self point_camera true ;;
        difference <- Np.subtract predicted [x; y; z] ;;
        Returned (predicted, Np.norm difference) in
      match computed with
      | Raised e => (self, Raised e)
      | Returned (predicted, error) =>
          let point :=
            calibration_point label pixel_coords depth_meters world_coords predicted error in
          (with_calibration_points self (calibration_points self ++ [point]),
           _ <- print_predicted predicted ;; Returned error)
      end
  end.

Record metrics : Type := {
  num_points : nat;
  mean_error_cm : R;
  std_error_cm : R;
  max_error_cm : R;
  min_error_cm : R;
  rmse_cm : R
}.

(** [[pt['error_cm'] for pt in self.calibration_points]] *)
Fixpoint error_entries (pts : list value) : outcome (list value) :=
  match pts with
  | [] => Returned []
  | pt :: rest =>
      e <- getitem pt "error_cm" ;;
      es <- error_entries rest ;;
      Returned (e :: es)
  end.

Definition as_float (v : value) : option R :=
  match v with
  | VFloat x => Some x
  | VInt n => Some (IZR n)
  | _ => None
  end.

(** The array NumPy (1.24 or later) builds from a Python object. A list or
    a tuple is a sequence and adds a dimension; a number, a string, a
    dictionary and [None] are scalars. The shape is that of the nested
    sequences, which must all agree at every level. *)
Fixpoint shape_eqb (a b : list nat) : bool :=
  match a, b with
  | [], [] => true
  | m :: a', n :: b' => Nat.eqb m n && shape_eqb a' b'
  | _, _ => false
  end.

Definition sequence_shape (shapes : list (option (list nat))) : option (list nat) :=
  match shapes with
  | [] => Some [0%nat]
  | None :: _ => None
  | Some s :: rest =>
      if forallb (fun s' => match s' with Some s' => shape_eqb s s' | None => false end) rest
      then Some (length shapes :: s)
      else None
  end.

Fixpoint array_shape (v : value) : option (list nat) :=
  match v with
  | VList items | VTuple items => sequence_shape (map array_shape items)
  | _ => Some []
  end.

(** The elements of the array, in row-major order. *)
Fixpoint array_items (v : value) : list value :=
  match v with
  | VList items | VTuple items => flat_map array_items items
  | _ => [v]
  end.

Fixpoint numbers (vs : list value) : option Np.vector :=
  match vs with
  | [] => Some []
  | v :: rest =>
      match as_float v, numbers rest with
      | Some x, Some xs => Some (x :: xs)
      | _, _ => None
      end
  end.

(** The largest number of dimensions of an array (NumPy 2). *)
Definition NPY_MAXDIMS : nat := 64.

(** What the reductions [np.mean], [np.std], [np.max] and [np.min] see of
    the list [vs]: its elements as floats, whatever the shape. Building the
    array fails on ragged sequences and on too deep a nesting; adding up
    elements that are not all numbers fails next. *)
Definition as_array (vs : list value) : outcome Np.vector :=
  match array_shape (VList vs) with
  | None =>
      Raised (ValueError "setting an array element with a sequence. The requested array has an inhomogeneous shape")
  | Some shape =>
      if Nat.ltb NPY_MAXDIMS (length shape)
      then Raised (ValueError "setting an array element with a sequence. The requested array would exceed the maximum number of dimension")
      else
        match numbers (array_items (VList vs)) with
        | Some xs => Returned xs
        | None => Raised (TypeError "unsupported operand type(s) for +")
        end
  end.

Definition with_calibration_error_cm (self : t) (e : option R) : t := {|
  camera_intrinsics := camera_intrinsics self;
  depth_scale := depth_scale self;
  camera_height_cm := camera_height_cm self;
  camera_position_world := camera_position_world self;
  rotation_matrix := rotation_matrix self;
  translation_vector := translation_vector self;
  T_world_camera := T_world_camera self;
  calibration_error_cm := e;
  calibration_points := calibration_points self
|}.

(** The dictionary of metrics. [errors] is the Python list, [array] its
    elements; the mean and the standard deviation of an array without
    elements are only warned about, its maximum is refused. *)
Definition error_metrics (errors : list value) : outcome metrics :=
  array <- as_array errors ;;
  match array with
  | [] =>
      Raised (ValueError "zero-size array to reduction operation maximum which has no identity")
  | _ =>
      Returned {| num_points := length errors;
                  mean_error_cm := Np.mean array;
                  std_error_cm := Np.std array;
                  max_error_cm := Np.amax array;
                  min_error_cm := Np.amin array;
                  rmse_cm := sqrt (Np.mean (Np.square array)) |}
  end.

(** [validate_calibration]: [Returned None] is Python's [return None]. *)
Definition validate_calibration (self : t) : t * outcome (option metrics) :=
  if Nat.eqb (length (calibration_points self)) 0 then (self, Returned None)
  else
    match (errors <- error_entries (calibration_points self) ;; error_metrics errors) with
    | Raised e => (self, Raised e)
    | Returned m =>
        (with_calibration_error_cm self (Some (mean_error_cm m)), Returned (Some m))
    end.

(** The batch conversion. [visited] is a ghost log of the pixel positions
    whose depth the loop reads, as (row, column); the code keeps only
    [points]. *)
Record scan : Type := {
  visited : list (Z * Z);
  points : list Np.vector
}.

Fixpoint for_each {S : Type} (xs : list Z) (body : Z -> S -> outcome S) (s : S)
  : outcome S :=
  match xs with
  | [] => Returned s
  | x :: rest => s' <- body x s ;; for_each rest body s'
  end.

(** The body of the inner loop at row [v], column [u]. *)
Definition pixel_step (self : t) (frame : Rs.depth_frame) (max_distance_cm : R)
    (v u : Z) (acc : scan) : outcome scan :=
  let seen := visited acc ++ [(v, u)] in
  let depth_value := Rs.pixel frame v u in
  if (depth_value =? 0)%Z then Returned {| visited := seen; points := points acc |}
  else
    match depth_scale self with
    | None => Raised (TypeError "unsupported operand type(s) for *: 'int' and 'NoneType'")
    | Some scale =>
        let depth_meters := IZR depth_value * scale in
        let depth_cm := depth_meters * 100 in
        if Rgt_dec depth_cm max_distance_cm
        then Returned {| visited := seen; points := points acc |}
        else
          point_camera <- pixel_to_camera_coordinates self (IZR u) (IZR v) depth_meters ;;
          point_world <- camera_to_world_coordinates self point_camera true ;;
          Returned {| visited := seen; points := points acc ++ [point_world] |}
    end.

Definition depth_image_scan (self : t) (frame : Rs.depth_frame) (subsample : Z)
    (max_distance_cm : R) : outcome scan :=
  vs <- Py.range 0 (Rs.rows frame) subsample ;;
  for_each vs
    (fun v acc =>
       us <- Py.range 0 (Rs.cols frame) subsample ;;
       for_each us (fun u acc' => pixel_step self frame max_distance_cm v u acc') acc)
    {| visited := []; points := [] |}.

Definition depth_image_to_world_points (self : t) (frame : Rs.depth_frame)
    (subsample : Z) (max_distance_cm : R) : outcome (list Np.vector) :=
  s <- depth_image_scan self frame subsample max_distance_cm ;;
  Returned (points s).

Definition intrinsics_snapshot (i : Rs.intrinsics) : value :=
  VDict [("width"%string, VInt (Rs.width i));
         ("height"%string, VInt (Rs.height i));
         ("fx"%string, VFloat (Rs.fx i));
         ("fy"%string, VFloat (Rs.fy i));
         ("ppx"%string, VFloat (Rs.ppx i));
         ("ppy"%string, VFloat (Rs.ppy i))].

(** [x.tolist()] where [x] may still be [None]. *)
Definition tolist {A : Type} (x : option A) (encode : A -> value) : outcome value :=
  match x with
  | Some a => Returned (encode a)
  | None => Raised (AttributeError "'NoneType' object has no attribute 'tolist'")
  end.

(** [save_calibration]: the dictionary handed to [json.dump]; [now] is
    [datetime.now().isoformat()]. *)
Definition save_calibration (self : t) (now : string) : outcome value :=
  position <- tolist (camera_position_world self) floats ;;
  rotation <- tolist (rotation_matrix self) floats2 ;;
  translation <- tolist (translation_vector self) floats2 ;;
  transformation <- tolist (T_world_camera self) floats2 ;;
  Returned
    (VDict [("timestamp"%string, VStr now);
            ("camera_height_cm"%string, optional_float (camera_height_cm self));
            ("camera_position_world"%string, position);
            ("rotation_matrix"%string, rotation);
            ("translation_vector"%string, translation);
            ("transformation_matrix"%string, transformation);
            ("calibration_error_cm"%string, optional_float (calibration_error_cm self));
            ("calibration_points"%string, VList (calibration_points self));
            ("camera_intrinsics"%string,
              match camera_intrinsics self with
              | Some i => intrinsics_snapshot i
              | None => VNone
              end);
            ("depth_scale"%string, optional_float (depth_scale self))]).

(** Reading the entries back. The state of the embedding is typed, so an
    entry is decoded into the type of its field: a number or [None] for a
    scalar, a list of numbers for [np.array] of a vector, a list of lists
    of numbers, all of one length, for [np.array] of a matrix. A scalar
    field holds a float: [save_calibration] writes floats, and an integer
    of a record written by hand is read as the float of the same value
    (Python would keep the [int]). *)
Definition as_scalar (v : value) : option (option R) :=
  match v with
  | VNone => Some None
  | _ => option_map Some (as_float v)
  end.

Fixpoint as_vector_items (vs : list value) : option Np.vector :=
  match vs with
  | [] => Some []
  | v :: rest =>
      match as_float v, as_vector_items rest with
      | Some x, Some xs => Some (x :: xs)
      | _, _ => None
      end
  end.

Definition as_vector (v : value) : option Np.vector :=
  match v with
  | VList items => as_vector_items items
  | _ => None
  end.

Fixpoint as_matrix_rows (vs : list value) : option Np.matrix :=
  match vs with
  | [] => Some []
  | v :: rest =>
      match as_vector v, as_matrix_rows rest with
      | Some r, Some rs => Some (r :: rs)
      | _, _ => None
      end
  end.

Definition as_matrix (v : value) : option Np.matrix :=
  match v with
  | VList items =>
      match as_matrix_rows items with
      | Some m => if Np.is_2d m then Some m else None
      | None => None
      end
  | _ => None
  end.

Definition as_list (v : value) : option (list value) :=
  match v with
  | VList items => Some items
  | _ => None
  end.

Definition with_camera_height_cm (self : t) (h : option R) : t := {|
  camera_intrinsics := camera_intrinsics self;
  depth_scale := depth_scale self;
  camera_height_cm := h;
  camera_position_world := camera_position_world self;
  rotation_matrix := rotation_matrix self;
  translation_vector := translation_vector self;
  T_world_camera := T_world_camera self;
  calibration_error_cm := calibration_error_cm self;
  calibration_points := calibration_points self
|}.

Definition with_camera_position_world (self : t) (p : Np.vector) : t := {|
  camera_intrinsics := camera_intrinsics self;
  depth_scale := depth_scale self;
  camera_height_cm := camera_height_cm self;
  camera_position_world := Some p;
  rotation_matrix := rotation_matrix self;
  translation_vector := translation_vector self;
  T_world_camera := T_world_camera self;
  calibration_error_cm := calibration_error_cm self;
  calibration_points := calibration_points self
|}.

Definition with_rotation_matrix (self : t) (m : Np.matrix) : t := {|
  camera_intrinsics := camera_intrinsics self;
  depth_scale := depth_scale self;
  camera_height_cm := camera_height_cm self;
  camera_position_world := camera_position_world self;
  rotation_matrix := Some m;
  translation_vector := translation_vector self;
  T_world_camera := T_world_camera self;
  calibration_error_cm := calibration_error_cm self;
  calibration_points := calibration_points self
|}.

Definition with_translation_vector (self : t) (m : Np.matrix) : t := {|
  camera_intrinsics := camera_intrinsics self;
  depth_scale := depth_scale self;
  camera_height_cm := camera_height_cm self;
  camera_position_world := camera_position_world self;
  rotation_matrix := rotation_matrix self;
  translation_vector := Some m;
  T_world_camera := T_world_camera self;
  calibration_error_cm := calibration_error_cm self;
  calibration_points := calibration_points self
|}.

Definition with_T_world_camera (self : t) (m : Np.matrix) : t := {|
  camera_intrinsics := camera_intrinsics self;
  depth_scale := depth_scale self;
  camera_height_cm := camera_height_cm self;
  camera_position_world := camera_position_world self;
  rotation_matrix := rotation_matrix self;
  translation_vector := translation_vector self;
  T_world_camera := Some m;
  calibration_error_cm := calibration_error_cm self;
  calibration_points := calibration_points self
|}.

Definition with_depth_scale (self : t) (s : option R) : t := {|
  camera_intrinsics := camera_intrinsics self;
  depth_scale := s;
  camera_height_cm := camera_height_cm self;
  camera_position_world := camera_position_world self;
  rotation_matrix := rotation_matrix self;
  translation_vector := translation_vector self;
  T_world_camera := T_world_camera self;
  calibration_error_cm := calibration_error_cm self;
  calibration_points := calibration_points self
|}.

(** One assignment [self.field = convert(calibration_data[key])] of
    [load_calibration], followed by the rest of the method. A missing key
    raises [KeyError] and leaves the fields assigned so far in place; the
    result is [None] when the entry has a type the typed state cannot
    hold, which no file written by [save_calibration] contains. *)
Definition load_entry {A : Type} (data : value) (key : string)
    (decode : value -> option A) (self : t)
    (rest : A -> option (t * outcome unit)) : option (t * outcome unit) :=
  match getitem data key with
  | Raised e => Some (self, Raised e)
  | Returned v =>
      match decode v with
      | Some a => rest a
      | None => None
      end
  end.

(** The format specification [:.2f] of the last [print] applies to a
    number only. *)
Definition format_2f (x : option R) : outcome unit :=
  match x with
  | Some _ => Returned tt
  | None => Raised (TypeError "unsupported format string passed to NoneType.__format__")
  end.

(** [load_calibration]: [data] is what [json.load] returned. *)
Definition load_calibration (self : t) (data : value) : option (t * outcome unit) :=
  load_entry data "camera_height_cm" as_scalar self (fun h =>
  let self := with_camera_height_cm self h in
  load_entry data "camera_position_world" as_vector self (fun p =>
  let self := with_camera_position_world self p in
  load_entry data "rotation_matrix" as_matrix self (fun r =>
  let self := with_rotation_matrix self r in
  load_entry data "translation_vector" as_matrix self (fun tv =>
  let self := with_translation_vector self tv in
  load_entry data "transformation_matrix" as_matrix self (fun T =>
  let self := with_T_world_camera self T in
  load_entry data "calibration_error_cm" as_scalar self (fun e =>
  let self := with_calibration_error_cm self e in
  load_entry data "calibration_points" as_list self (fun pts =>
  let self := with_calibration_points self pts in
  load_entry data "depth_scale" as_scalar self (fun s =>
  let self := with_depth_scale self s in
  Some (self, format_2f (calibration_error_cm self)))))))))).

End WorldFrameCalibrator.

(** ** [CoordinateTransformer] *)

Module CoordinateTransformer.

Record t : Type := {
  camera_height : R;
  pitch_deg : R;
  roll_deg : R;
  yaw_deg : R;
  intrinsics : option Rs.intrinsics;
  R_cam_to_world : Np.matrix
}.

Definition R_flip : Np.matrix :=
  [[1; 0; 0];
   [0; -1; 0];
   [0; 0; -1]].

(** [_build_rotation_matrix], as a function of the three angles. *)
Definition build_rotation_matrix (pitch_deg roll_deg yaw_deg : R) : Np.matrix :=
  let pitch := Np.radians pitch_deg in
  let roll := Np.radians roll_deg in
  let yaw := Np.radians yaw_deg in
  let Rx := [[1; 0; 0];
             [0; cos pitch; - sin pitch];
             [0; sin pitch; cos pitch]] in
  let Ry := [[cos yaw; 0; sin yaw];
             [0; 1; 0];
             [- sin yaw; 0; cos yaw]] in
  let Rz := [[cos roll; - sin roll; 0];
             [sin roll; cos roll; 0];
             [0; 0; 1]] in
  Np.matmul (Np.matmul (Np.matmul Rz Ry) Rx) R_flip.

(** [__init__] *)
Definition init (camera_height_m pitch roll yaw : R) : t := {|
  camera_height := camera_height_m;
  pitch_deg := pitch;
  roll_deg := roll;
  yaw_deg := yaw;
  intrinsics := None;
  R_cam_to_world := build_rotation_matrix pitch roll yaw
|}.

(** [world_coords[2] += h]; index 2 must exist. *)
Definition add_at_2 (w : Np.vector) (h : R) : outcome Np.vector :=
  match w with
  | x :: y :: z :: rest => Returned (x :: y :: (z + h) :: rest)
  | _ => Raised (IndexError "index 2 is out of bounds for axis 0")
  end.

Definition camera_to_world_coords (self : t) (camera_coords : Np.vector)
  : outcome Np.vector :=
  world_coords <- Np.matvec (R_cam_to_world self) camera_coords ;;
  add_at_2 world_coords (camera_height self).

(** [set_intrinsics] *)
Definition set_intrinsics (self : t) (i : Rs.intrinsics) : t := {|
  camera_height := camera_height self;
  pitch_deg := pitch_deg self;
  roll_deg := roll_deg self;
  yaw_deg := yaw_deg self;
  intrinsics := Some i;
  R_cam_to_world := R_cam_to_world self
|}.

Definition pixel_to_camera_coords (self : t) (pixel_x pixel_y depth_m : R)
  : outcome Np.vector :=
  match intrinsics self with
  | None => Raised (ValueError "Camera intrinsics not set! Call set_intrinsics() first.")
  | Some i => Returned (Rs.rs2_deproject_pixel_to_point i pixel_x pixel_y depth_m)
  end.

(** The dictionary [pixel_to_world_coords] returns, its keys as fields. *)
Record world_result : Type := {
  camera_coords : Np.vector;
  world_coords : Np.vector;
  world_coords_2d : Np.vector;
  pixel : R * R;
  depth_m : R
}.

Definition pixel_to_world_coords (self : t) (pixel_x pixel_y depth : R)
  : outcome world_result :=
  cam_coords <- pixel_to_camera_coords self pixel_x pixel_y depth ;;
  world <- camera_to_world_coords self cam_coords ;;
  Returned {| camera_coords := cam_coords;
              world_coords := world;
              world_coords_2d := firstn 2 world;
              pixel := (pixel_x, pixel_y);
              depth_m := depth |}.

(** [update_tilt]: an argument left at [None] keeps the current angle; the
    rotation matrix is rebuilt from the three angles. *)
Definition update_tilt (self : t) (pitch roll yaw : option R) : t :=
  let pitch' := match pitch with Some a => a | None => pitch_deg self end in
  let roll' := match roll with Some a => a | None => roll_deg self end in
  let yaw' := match yaw with Some a => a | None => yaw_deg self end in
  {| camera_height := camera_height self;
     pitch_deg := pitch';
     roll_deg := roll';
     yaw_deg := yaw';
     intrinsics := intrinsics self;
     R_cam_to_world := build_rotation_matrix pitch' roll' yaw' |}.

End CoordinateTransformer.

(** ** [CalibrationClickTool] *)

Module CalibrationClickTool.

(** The tool's state as far as the clicked points go: the transformer, the
    depth scale of the sensor, the points clicked so far (each a
    dictionary) and the depth image of the current frame, if any. The
    camera pipeline and the colour image the markers are drawn on are not
    part of the embedding. *)
Record t : Type := {
  transformer : CoordinateTransformer.t;
  depth_scale : R;
  clicked_points : list (list (string * value));
  current_depth : option Rs.depth_frame
}.

(** What a call of the tool can raise: an index out of range, or what the
    transformer or a dictionary raised. *)
Inductive failure : Type :=
| IndexError (msg : string)
| Propagated (e : exn).

Inductive result (A : Type) : Type :=
| Done (a : A)
| Failed (f : failure).

Arguments Done {A} a.
Arguments Failed {A} f.

(** An index into an axis of length [n]: a negative index counts from the
    end, an index outside [-n, n) is out of range. *)
Definition axis_index (n i : Z) : option Z :=
  if ((0 <=? i) && (i <? n))%Z then Some i
  else if ((- n <=? i) && (i <? 0))%Z then Some (i + n)%Z
  else None.

(** [depth[y, x]] *)
Definition depth_at (depth : Rs.depth_frame) (y x : Z) : option Z :=
  match axis_index (Rs.rows depth) y, axis_index (Rs.cols depth) x with
  | Some r, Some c => Some (Rs.pixel depth r c)
  | _, _ => None
  end.

(** [d[k] = v]: an existing key keeps its place, a new key goes last. *)
Fixpoint setitem (entries : list (string * value)) (k : string) (v : value)
  : list (string * value) :=
  match entries with
  | [] => [(k, v)]
  | (k', v') :: rest =>
      if String.eqb k k' then (k, v) :: rest else (k', v') :: setitem rest k v
  end.

Definition with_clicked_points (self : t) (pts : list (list (string * value))) : t := {|
  transformer := transformer self;
  depth_scale := depth_scale self;
  clicked_points := pts;
  current_depth := current_depth self
|}.

(** The dictionary [_process_click] stores for a click; the world point has
    at least three coordinates once [camera_to_world_coords] returned. *)
Definition point_data (pixel_x pixel_y : Z) (depth_m : R)
    (r : CoordinateTransformer.world_result) (now : string) : list (string * value) :=
  [("pixel_x"%string, VInt pixel_x);
   ("pixel_y"%string, VInt pixel_y);
   ("depth_m"%string, VFloat depth_m);
   ("camera_coords_m"%string,
     WorldFrameCalibrator.floats (CoordinateTransformer.camera_coords r));
   ("world_coords_m"%string,
     WorldFrameCalibrator.floats (CoordinateTransformer.world_coords r));
   ("world_xy_cm"%string,
     VList [VFloat (nth 0 (CoordinateTransformer.world_coords_2d r) 0 * 100);
            VFloat (nth 1 (CoordinateTransformer.world_coords_2d r) 0 * 100)]);
   ("timestamp"%string, VStr now)].

(** [_process_click]; [now] is [datetime.now().isoformat()]. *)
Definition process_click (self : t) (pixel_x pixel_y : Z) (now : string)
  : t * result unit :=
  match current_depth self with
  | None => (self, Done tt)
  | Some depth =>
      match depth_at depth pixel_y pixel_x with
      | None => (self, Failed (IndexError "index is out of bounds"))
      | Some depth_value =>
          let depth_m := IZR depth_value * depth_scale self in
          if Req_dec_T depth_m 0 then (self, Done tt)
          else if Rgt_dec depth_m 10 then (self, Done tt)
          else
            match CoordinateTransformer.pixel_to_world_coords (transformer self)
                    (IZR pixel_x) (IZR pixel_y) depth_m with
            | Raised e => (self, Failed (Propagated e))
            | Returned r =>
                (with_clicked_points self
                   (clicked_points self ++ [point_data pixel_x pixel_y depth_m r now]),
                 Done tt)
            end
      end
  end.

(** [v[i]] for a constant position [i]. *)
Definition subscript (v : value) (i : nat) : result value :=
  match v with
  | VList items | VTuple items =>
      match nth_error items i with
      | Some x => Done x
      | None => Failed (IndexError "list index out of range")
      end
  | VStr s =>
      match String.get i s with
      | Some c => Done (VStr (String c EmptyString))
      | None => Failed (IndexError "string index out of range")
      end
  | VDict _ => Failed (Propagated (KeyError "0"))
  | _ => Failed (Propagated (TypeError "object is not subscriptable"))
  end.

(** [point['world_xy_cm'][i]] *)
Definition measured (point : list (string * value)) (i : nat) : result value :=
  match assoc "world_xy_cm" point with
  | None => Failed (Propagated (KeyError "world_xy_cm"))
  | Some v => subscript v i
  end.

(** [m - physical] for a measured entry [m]. *)
Definition minus_physical (m : value) (physical : R) : result R :=
  match WorldFrameCalibrator.as_float m with
  | Some x => Done (x - physical)
  | None => Failed (Propagated (TypeError "unsupported operand type(s) for -"))
  end.

(** The point of [add_ground_truth] after its assignments, or the failure
    that stopped it; the two physical coordinates are assigned first. *)
Definition with_ground_truth (point : list (string * value))
    (physical_x_cm physical_y_cm : R) : list (string * value) * result unit :=
  let point := setitem point "physical_x_cm" (VFloat physical_x_cm) in
  let point := setitem point "physical_y_cm" (VFloat physical_y_cm) in
  match measured point 0 with
  | Failed f => (point, Failed f)
  | Done measured_x =>
      match measured point 1 with
      | Failed f => (point, Failed f)
      | Done measured_y =>
          match minus_physical measured_x physical_x_cm with
          | Failed f => (point, Failed f)
          | Done error_x =>
              match minus_physical measured_y physical_y_cm with
              | Failed f => (point, Failed f)
              | Done error_y =>
                  let error_total := sqrt (error_x * error_x + error_y * error_y) in
                  let point := setitem point "error_x_cm" (VFloat error_x) in
                  let point := setitem point "error_y_cm" (VFloat error_y) in
                  let point := setitem point "error_total_cm" (VFloat error_total) in
                  (point, Done tt)
              end
          end
      end
  end.

(** [l[i] = x] for a valid position [i]. *)
Fixpoint replace_nth {A : Type} (l : list A) (i : nat) (x : A) : list A :=
  match l, i with
  | [], _ => []
  | _ :: rest, O => x :: rest
  | y :: rest, S i' => y :: replace_nth rest i' x
  end.

(** [add_ground_truth]: the point is the dictionary held in the list, so
    its assignments show in the list, also when a later step fails. *)
Definition add_ground_truth (self : t) (point_index : Z)
    (physical_x_cm physical_y_cm : R) : t * result unit :=
  let n := Z.of_nat (length (clicked_points self)) in
  if (n <=? point_index)%Z then (self, Done tt)
  else
    match axis_index n point_index with
    | None => (self, Failed (IndexError "list index out of range"))
    | Some i =>
        match nth_error (clicked_points self) (Z.to_nat i) with
        | None => (self, Failed (IndexError "list index out of range"))
        | Some point =>
            match with_ground_truth point physical_x_cm physical_y_cm with
            | (point', out) =>
                (with_clicked_points self
                   (replace_nth (clicked_points self) (Z.to_nat i) point'),
                 out)
            end
        end
    end.

End CalibrationClickTool.

(** ** Vocabulary of the statements *)

(** [T[:k, :k]] and [T[:k, j]] *)
Definition top_left (k : nat) (T : Np.matrix) : Np.matrix := map (firstn k) (firstn k T).

Definition top_right (k j : nat) (T : Np.matrix) : Np.vector := firstn k (Np.column j T).

(** The product [Rz(roll) Ry(pan) Rx(tilt) diag(1,-1,-1)] written out,
    angles in radians. *)
Definition euler_flip (tilt pan roll : R) : Np.matrix :=
  [[cos roll * cos pan;
    - (cos roll * sin pan * sin tilt - sin roll * cos tilt);
    - (cos roll * sin pan * cos tilt + sin roll * sin tilt)];
   [sin roll * cos pan;
    - (sin roll * sin pan * sin tilt + cos roll * cos tilt);
    - (sin roll * sin pan * cos tilt - cos roll * sin tilt)];
   [- sin pan;
    - (cos pan * sin tilt);
    - (cos pan * cos tilt)]].

(** Two coordinates agree in sign when they are positive together and
    negative together (hence zero together). *)
Definition same_sign (a b : R) : Prop := (0 < a <-> 0 < b) /\ (a < 0 <-> b < 0).

(** [ceil(n / step)] for a positive [step], as a count. *)
Definition ceil_div (n step : Z) : nat := Z.to_nat ((n + step - 1) / step).

(** The pixel positions of a row-major scan that keeps every [step]-th row
    and every [step]-th column of a [rows] by [cols] image. *)
Definition scan_positions (rows cols step : Z) : list (Z * Z) :=
  flat_map (fun i => map (fun j => (Z.of_nat i * step, Z.of_nat j * step)%Z)
                         (seq 0 (ceil_div cols step)))
           (seq 0 (ceil_div rows step)).

(** The depth reading at a pixel, in centimetres. *)
Definition depth_cm (scale : R) (frame : Rs.depth_frame) (vu : Z * Z) : R :=
  IZR (Rs.pixel frame (fst vu) (snd vu)) * scale * 100.

(** The camera-frame point of a pixel, in metres. *)
Definition camera_point (intr : Rs.intrinsics) (scale : R) (frame : Rs.depth_frame)
    (vu : Z * Z) : Np.vector :=
  Rs.rs2_deproject_pixel_to_point intr (IZR (snd vu)) (IZR (fst vu))
    (IZR (Rs.pixel frame (fst vu) (snd vu)) * scale).

(** The world point of a pixel, in centimetres, under the transform [T]. *)
Definition world_point (intr : Rs.intrinsics) (scale : R) (T : Np.matrix)
    (frame : Rs.depth_frame) (vu : Z * Z) : Np.vector :=
  Np.scale (firstn 3 (map (fun row => Np.dot row (camera_point intr scale frame vu ++ [1])) T))
           100.

(** The batch keeps a pixel when it has a depth reading and the reading is
    at most the threshold. *)
Definition kept (scale : R) (frame : Rs.depth_frame) (max_distance_cm : R)
    (vu : Z * Z) : bool :=
  negb (Rs.pixel frame (fst vu) (snd vu) =? 0)%Z
  && (if Rgt_dec (depth_cm scale frame vu) max_distance_cm then false else true).

(** A calibrator on which a conversion cannot raise: the camera is set up
    and the transform is a two-dimensional array with four columns. *)
Definition ready (self : WorldFrameCalibrator.t) (intr : Rs.intrinsics) (scale : R)
    (T : Np.matrix) : Prop :=
  WorldFrameCalibrator.camera_intrinsics self = Some intr /\
  WorldFrameCalibrator.depth_scale self = Some scale /\
  WorldFrameCalibrator.T_world_camera self = Some T /\
  Np.is_2d T = true /\
  Np.ncols T = 4%nat.

(** A camera, a frame of constant depth and an overhead calibrator, used
    to instantiate the statements. *)
Definition example_intrinsics : Rs.intrinsics :=
  {| Rs.width := 1280; Rs.height := 720;
     Rs.fx := 900; Rs.fy := 900; Rs.ppx := 640; Rs.ppy := 360 |}.

Definition constant_frame (side depth : Z) : Rs.depth_frame :=
  {| Rs.rows := side; Rs.cols := side; Rs.pixel := fun _ _ => depth |}.

Definition example_calibrator : WorldFrameCalibrator.t :=
  WorldFrameCalibrator.define_simple_overhead_calibration
    (WorldFrameCalibrator.setup_camera WorldFrameCalibrator.init (1 / 1000) example_intrinsics)
    220 0 0 0 0 0.

Definition example_T : Np.matrix :=
  match WorldFrameCalibrator.T_world_camera example_calibrator with
  | Some T => T
  | None => []
  end.

(** The Euclidean (L2) distance between two points with the same number
    of coordinates. *)
Definition euclidean_distance (a b : Np.vector) : R :=
  sqrt (Np.sum (map (fun p => (fst p - snd p) * (fst p - snd p)) (combine a b))).

(** What a calibration point of the history records about its error: the
    predicted and the true world point (centimetres) and a non-negative
    error that is the norm of their difference, which is their Euclidean
    distance when the prediction has three coordinates. The true point is
    the tuple [add_calibration_point] stored, or the list that [json.load]
    reads back for it. *)
Definition point_ok (p : value) : Prop :=
  exists predicted x y z e,
    getitem p "world_coords_predicted" = Returned (WorldFrameCalibrator.floats predicted) /\
    (getitem p "world_coords_true" = Returned (VTuple [VFloat x; VFloat y; VFloat z]) \/
     getitem p "world_coords_true" = Returned (VList [VFloat x; VFloat y; VFloat z])) /\
    getitem p "error_cm" = Returned (VFloat e) /\
    0 <= e /\
    (exists difference,
       Np.subtract predicted [x; y; z] = Returned difference /\ e = Np.norm difference) /\
    (length predicted = 3%nat -> e = euclidean_distance predicted [x; y; z]).

Definition history_ok (self : WorldFrameCalibrator.t) : Prop :=
  Forall point_ok (WorldFrameCalibrator.calibration_points self).

(** The example calibrator after one validation point has been added, and
    after the calibration has then been validated. *)
Definition example_one_point : WorldFrameCalibrator.t :=
  fst (WorldFrameCalibrator.add_calibration_point example_calibrator
         (640, 360)%Z 2 (0, 0, 20) "centre").

Definition example_validated : WorldFrameCalibrator.t :=
  fst (WorldFrameCalibrator.validate_calibration example_one_point).

Definition or_empty {A : Type} (x : option (list A)) : list A :=
  match x with
  | Some l => l
  | None => []
  end.

(** A history of three points whose errors are 1, 2 and 3 centimetres. *)
Definition example_history : list value :=
  [WorldFrameCalibrator.calibration_point "a" (100, 100)%Z 2 (0, 0, 0) [1; 0; 0] 1;
   WorldFrameCalibrator.calibration_point "b" (200, 100)%Z 2 (0, 0, 0) [0; 2; 0] 2;
   WorldFrameCalibrator.calibration_point "c" (300, 100)%Z 2 (0, 0, 0) [0; 0; 3] 3].

Definition example_three_points : WorldFrameCalibrator.t :=
  WorldFrameCalibrator.with_calibration_points example_calibrator example_history.

(** A calibrator that holds a pose: position, rotation, translation and
    transform are set, the three matrices being two-dimensional arrays. *)
Definition pose_defined (self : WorldFrameCalibrator.t) (p : Np.vector)
    (r tv T : Np.matrix) : Prop :=
  WorldFrameCalibrator.camera_position_world self = Some p /\
  (WorldFrameCalibrator.rotation_matrix self = Some r /\ Np.is_2d r = true) /\
  (WorldFrameCalibrator.translation_vector self = Some tv /\ Np.is_2d tv = true) /\
  (WorldFrameCalibrator.T_world_camera self = Some T /\ Np.is_2d T = true).

(** [del d[k]] on a record. *)
Fixpoint remove_key (k : string) (entries : list (string * value)) : list (string * value) :=
  match entries with
  | [] => []
  | (k', v) :: rest =>
      if String.eqb k k' then remove_key k rest else (k', v) :: remove_key k rest
  end.

Definition delitem (d : value) (k : string) : value :=
  match d with
  | VDict entries => VDict (remove_key k entries)
  | _ => d
  end.

(** The transformers a program can build: constructed, then given
    intrinsics or new angles any number of times. *)
Inductive transformer_reachable : CoordinateTransformer.t -> Prop :=
| reachable_init : forall height pitch roll yaw,
    transformer_reachable (CoordinateTransformer.init height pitch roll yaw)
| reachable_set_intrinsics : forall tr i,
    transformer_reachable tr ->
    transformer_reachable (CoordinateTransformer.set_intrinsics tr i)
| reachable_update_tilt : forall tr pitch roll yaw,
    transformer_reachable tr ->
    transformer_reachable (CoordinateTransformer.update_tilt tr pitch roll yaw).

(** A click tool whose current frame is a constant depth image and whose
    transformer looks straight down from 2.21 m. *)
Definition example_transformer : CoordinateTransformer.t :=
  CoordinateTransformer.set_intrinsics (CoordinateTransformer.init (221 / 100) 0 0 0)
    example_intrinsics.

Definition example_tool (depth : Z) : CalibrationClickTool.t :=
  {| CalibrationClickTool.transformer := example_transformer;
     CalibrationClickTool.depth_scale := 1 / 1000;
     CalibrationClickTool.clicked_points := [];
     CalibrationClickTool.current_depth := Some (constant_frame 480 depth) |}.

(** The point a click stores when the world point is [(wx, wy, wz)]. *)
Definition clicked (pixel_x pixel_y : Z) (depth_m : R) (cam : Np.vector)
    (wx wy wz : R) (now : string) : list (string * value) :=
  CalibrationClickTool.point_data pixel_x pixel_y depth_m
    {| CoordinateTransformer.camera_coords := cam;
       CoordinateTransformer.world_coords := [wx; wy; wz];
       CoordinateTransformer.world_coords_2d := [wx; wy];
       CoordinateTransformer.pixel := (IZR pixel_x, IZR pixel_y);
       CoordinateTransformer.depth_m := depth_m |} now.

(** The example tool after two clicks, measured at (10, -20) cm and at
    (35, 5) cm on the floor. *)
Definition example_clicked : CalibrationClickTool.t :=
  CalibrationClickTool.with_clicked_points (example_tool 2000)
    [clicked 424 240 2 [1 / 10; 1 / 5; 2] (1 / 10) (- (1 / 5)) (21 / 100) "t1";
     clicked 500 200 2 [35 / 100; - (5 / 100); 2] (35 / 100) (5 / 100) (21 / 100) "t2"].

(** The Python objects NumPy takes for sequences. *)
Definition is_sequence (v : value) : bool :=
  match v with
  | VList _ | VTuple _ => true
  | _ => false
  end.

(** ** The rigid transform *)

Lemma radians_0 : Np.radians 0 = 0.
Proof. unfold Np.radians. lra. Qed.

Lemma euler_flip_product : forall tilt pan roll,
  Np.matmul
    (Np.matmul (Np.matmul (WorldFrameCalibrator.Rz roll) (WorldFrameCalibrator.Ry pan))
               (WorldFrameCalibrator.Rx tilt))
    WorldFrameCalibrator.R_camera_to_world
  = euler_flip tilt pan roll.
Proof.
  intros. unfold euler_flip, Np.matmul, Np.ncols, WorldFrameCalibrator.Rz,
    WorldFrameCalibrator.Ry, WorldFrameCalibrator.Rx, WorldFrameCalibrator.R_camera_to_world.
  cbn. repeat (f_equal; try ring).
Qed.

Lemma T_world_camera_define : forall self h x y tilt pan roll,
  WorldFrameCalibrator.T_world_camera
    (WorldFrameCalibrator.define_simple_overhead_calibration self h x y tilt pan roll)
  = Some (match euler_flip (Np.radians tilt) (Np.radians pan) (Np.radians roll) with
          | [r0; r1; r2] => [r0 ++ [x / 100]; r1 ++ [y / 100]; r2 ++ [h / 100]; [0; 0; 0; 1]]
          | _ => []
          end).
Proof.
  intros. unfold WorldFrameCalibrator.define_simple_overhead_calibration.
  cbn [WorldFrameCalibrator.T_world_camera].
  rewrite euler_flip_product. reflexivity.
Qed.

(** A pose defined after the camera was set up leaves the calibrator ready
    to convert, and ready to be saved. *)
Lemma define_ready : forall self scale intr h x y tilt pan roll,
  exists T,
    ready (WorldFrameCalibrator.define_simple_overhead_calibration
             (WorldFrameCalibrator.setup_camera self scale intr) h x y tilt pan roll)
          intr scale T /\
    length T = 4%nat.
Proof.
  intros. eexists. unfold ready. rewrite T_world_camera_define.
  repeat split; reflexivity.
Qed.

Lemma define_pose_defined : forall self h x y tilt pan roll,
  exists p r tv T,
    pose_defined
      (WorldFrameCalibrator.define_simple_overhead_calibration self h x y tilt pan roll)
      p r tv T.
Proof.
  intros. eexists. eexists. eexists. eexists. unfold pose_defined.
  rewrite T_world_camera_define.
  unfold WorldFrameCalibrator.define_simple_overhead_calibration.
  cbn [WorldFrameCalibrator.camera_position_world WorldFrameCalibrator.rotation_matrix
       WorldFrameCalibrator.translation_vector].
  rewrite euler_flip_product.
  repeat split; reflexivity.
Qed.

(** C3. For every pose, the transform built by
    [define_simple_overhead_calibration] has [Rz(roll) Ry(pan) Rx(tilt)]
    times the axis flip [diag(1,-1,-1)] as its top-left 3x3 block (also kept
    as [rotation_matrix]), the camera's world position, with the height as
    its third (up) component, as the top of its last column, and
    [[0,0,0,1]] as its fourth and last row; the angles are the degrees
    given, converted to radians. *)
Theorem define_builds_rigid_transform : forall self h x y tilt_deg pan_deg roll_deg,
  let st := WorldFrameCalibrator.define_simple_overhead_calibration
              self h x y tilt_deg pan_deg roll_deg in
  let tilt := tilt_deg * PI / 180 in
  let pan := pan_deg * PI / 180 in
  let roll := roll_deg * PI / 180 in
  let R_final :=
    Np.matmul
      (Np.matmul (Np.matmul (WorldFrameCalibrator.Rz roll) (WorldFrameCalibrator.Ry pan))
                 (WorldFrameCalibrator.Rx tilt))
      [[1; 0; 0]; [0; -1; 0]; [0; 0; -1]] in
  exists T,
    WorldFrameCalibrator.T_world_camera st = Some T /\
    length T = 4%nat /\
    top_left 3 T = R_final /\
    R_final = euler_flip tilt pan roll /\
    WorldFrameCalibrator.rotation_matrix st = Some R_final /\
    top_right 3 3 T = [x / 100; y / 100; h / 100] /\
    WorldFrameCalibrator.camera_position_world st = Some [x / 100; y / 100; h / 100] /\
    WorldFrameCalibrator.translation_vector st = Some [[x / 100]; [y / 100]; [h / 100]] /\
    WorldFrameCalibrator.camera_height_cm st = Some h /\
    nth 3 T [] = [0; 0; 0; 1].
Proof.
  intros. subst st. rewrite T_world_camera_define.
  fold (Np.radians tilt_deg) (Np.radians pan_deg) (Np.radians roll_deg) in *.
  assert (HR : R_final = euler_flip tilt pan roll) by (apply euler_flip_product).
  eexists. split; [reflexivity|].
  rewrite HR. subst tilt pan roll.
  repeat split; try reflexivity.
  unfold WorldFrameCalibrator.define_simple_overhead_calibration.
  cbn [WorldFrameCalibrator.rotation_matrix]. f_equal. apply euler_flip_product.
Qed.

(** ** Applying the transform *)

Lemma camera_to_world_define : forall self h x y tilt pan roll a b c return_cm,
  WorldFrameCalibrator.camera_to_world_coordinates
    (WorldFrameCalibrator.define_simple_overhead_calibration self h x y tilt pan roll)
    [a; b; c] return_cm
  = Returned
      (let w := map (fun rt => Np.dot (fst rt) [a; b; c] + snd rt)
                    (combine (euler_flip (Np.radians tilt) (Np.radians pan) (Np.radians roll))
                             [x / 100; y / 100; h / 100]) in
       if return_cm then Np.scale w 100 else w).
Proof.
  intros. unfold WorldFrameCalibrator.camera_to_world_coordinates.
  rewrite T_world_camera_define. unfold euler_flip, Np.matvec, Np.dot. cbn.
  destruct return_cm; cbn; repeat (f_equal; try ring).
Qed.

Lemma camera_to_world_overhead : forall self height_cm d return_cm,
  WorldFrameCalibrator.camera_to_world_coordinates
    (WorldFrameCalibrator.define_simple_overhead_calibration self height_cm 0 0 0 0 0)
    [0; 0; d] return_cm
  = Returned (if return_cm then [0; 0; height_cm - 100 * d] else [0; 0; height_cm / 100 - d]).
Proof.
  intros. rewrite camera_to_world_define. rewrite radians_0.
  unfold euler_flip, Np.dot, Np.scale. rewrite cos_0, sin_0. cbn.
  destruct return_cm; cbn; repeat (f_equal; try field).
Qed.

(** C4. Height translation. With [H] and [d] lengths in one unit, the pose
    of height [H], angles 0 and position (0,0) sends the camera-frame
    point (0,0,d) to the world point (0,0,H-d). The calibrator takes the
    height in centimetres and the camera-frame point in metres: in metres
    the pose is [camera_height_cm = 100 * H] and the answer is asked without
    scaling; in centimetres the point is [(0,0,d/100)] and the answer is
    asked in centimetres, which is the answer in metres scaled by 100. The
    ground-plane point, [d = H], lands on world z = 0 exactly. *)
Theorem height_translation : forall self H d,
  let metres := WorldFrameCalibrator.define_simple_overhead_calibration
                  self (100 * H) 0 0 0 0 0 in
  let centimetres := WorldFrameCalibrator.define_simple_overhead_calibration
                       self H 0 0 0 0 0 in
  WorldFrameCalibrator.camera_to_world_coordinates metres [0; 0; d] false
    = Returned [0; 0; H - d] /\
  WorldFrameCalibrator.camera_to_world_coordinates centimetres [0; 0; d / 100] true
    = Returned [0; 0; H - d] /\
  WorldFrameCalibrator.camera_to_world_coordinates metres [0; 0; d] true
    = Returned (Np.scale [0; 0; H - d] 100) /\
  WorldFrameCalibrator.camera_to_world_coordinates metres [0; 0; H] false
    = Returned [0; 0; 0] /\
  WorldFrameCalibrator.camera_to_world_coordinates centimetres [0; 0; H / 100] true
    = Returned [0; 0; 0].
Proof.
  intros. subst metres centimetres. rewrite !camera_to_world_overhead. unfold Np.scale. cbn.
  repeat split; repeat (f_equal; try field).
Qed.

(** ** The two implementations of the transform *)

Lemma build_rotation_matrix_euler_flip : forall pitch roll yaw,
  CoordinateTransformer.build_rotation_matrix pitch roll yaw
  = euler_flip (Np.radians pitch) (Np.radians yaw) (Np.radians roll).
Proof.
  intros. unfold CoordinateTransformer.build_rotation_matrix, CoordinateTransformer.R_flip.
  cbv zeta. apply euler_flip_product.
Qed.

Lemma transforms_agree : forall self h tilt pan roll p,
  WorldFrameCalibrator.camera_to_world_coordinates
    (WorldFrameCalibrator.define_simple_overhead_calibration self (100 * h) 0 0 tilt pan roll)
    p false
  = CoordinateTransformer.camera_to_world_coords
      (CoordinateTransformer.init h tilt roll pan) p.
Proof.
  intros. unfold WorldFrameCalibrator.camera_to_world_coordinates,
    CoordinateTransformer.camera_to_world_coords, CoordinateTransformer.init.
  rewrite T_world_camera_define.
  cbn [CoordinateTransformer.R_cam_to_world CoordinateTransformer.camera_height].
  rewrite build_rotation_matrix_euler_flip.
  unfold euler_flip, Np.matvec, Np.dot.
  destruct p as [|a [|b [|c [|d p]]]]; cbn; try reflexivity.
  - repeat (f_equal; try field).
  - rewrite length_app, Nat.add_1_r. reflexivity.
Qed.

(** C8, as the code has it. The two implementations agree: for every camera
    height (given in centimetres to [WorldFrameCalibrator] and in metres to
    [CoordinateTransformer]), every three angles about the same axes, the
    world position (0,0) and every camera-frame point,
    [camera_to_world_coordinates] in metres and [camera_to_world_coords]
    give the same outcome, the same world point or the same error. *)
Theorem two_transforms_coincide : forall self height_m tilt_deg pan_deg roll_deg point_camera,
  WorldFrameCalibrator.camera_to_world_coordinates
    (WorldFrameCalibrator.define_simple_overhead_calibration
       self (100 * height_m) 0 0 tilt_deg pan_deg roll_deg)
    point_camera false
  = CoordinateTransformer.camera_to_world_coords
      (CoordinateTransformer.init height_m tilt_deg roll_deg pan_deg) point_camera.
Proof. intros. apply transforms_agree. Qed.

(** Only the unit of the height separates the two classes: the same number
    given as centimetres to one and as metres to the other moves the world
    z by the difference of the two heights, and nothing else. *)
Lemma height_unit_offset : forall self h tilt pan roll a b c,
  exists x y z,
    WorldFrameCalibrator.camera_to_world_coordinates
      (WorldFrameCalibrator.define_simple_overhead_calibration self h 0 0 tilt pan roll)
      [a; b; c] false = Returned [x; y; z] /\
    CoordinateTransformer.camera_to_world_coords
      (CoordinateTransformer.init h tilt roll pan) [a; b; c]
    = Returned [x; y; z + (h - h / 100)].
Proof.
  intros. rewrite camera_to_world_define.
  unfold CoordinateTransformer.camera_to_world_coords, CoordinateTransformer.init.
  cbn [CoordinateTransformer.R_cam_to_world CoordinateTransformer.camera_height].
  rewrite build_rotation_matrix_euler_flip. unfold euler_flip, Np.matvec, Np.dot. cbn.
  eexists. eexists. eexists. split; [reflexivity|]. repeat (f_equal; try field).
Qed.

(** C8 as stated fails: no height, angles and camera-frame point make the
    two world points differ in the sign of the Y or of the Z coordinate. *)
Lemma no_sign_disagreement :
  ~ (exists self height_m tilt_deg pan_deg roll_deg point_camera w1 w2,
       WorldFrameCalibrator.camera_to_world_coordinates
         (WorldFrameCalibrator.define_simple_overhead_calibration
            self (100 * height_m) 0 0 tilt_deg pan_deg roll_deg)
         point_camera false = Returned w1 /\
       CoordinateTransformer.camera_to_world_coords
         (CoordinateTransformer.init height_m tilt_deg roll_deg pan_deg) point_camera
         = Returned w2 /\
       (~ same_sign (nth 1 w1 0) (nth 1 w2 0) \/ ~ same_sign (nth 2 w1 0) (nth 2 w2 0))).
Proof.
  intros (self & h & tilt & pan & roll & p & w1 & w2 & H1 & H2 & Hs).
  rewrite transforms_agree in H1. rewrite H1 in H2. injection H2 as ->.
  destruct Hs as [Hs | Hs]; apply Hs; unfold same_sign; tauto.
Qed.


(** ** Validation statistics *)

Lemma sqrt_between : forall lo hi x,
  0 <= lo -> lo * lo < x -> x < hi * hi -> 0 <= hi -> lo < sqrt x < hi.
Proof.
  intros lo hi x Hlo H1 H2 Hhi. split.
  - rewrite <- (sqrt_square lo Hlo). apply sqrt_lt_1_alt. split; [nra | exact H1].
  - rewrite <- (sqrt_square hi Hhi). apply sqrt_lt_1_alt. split; [nra | exact H2].
Qed.

Lemma fold_left_Rmin_le_init : forall xs x, fold_left Rmin xs x <= x.
Proof.
  induction xs as [|y ys IH]; intros x; cbn.
  - lra.
  - eapply Rle_trans; [apply IH | apply Rmin_l].
Qed.

Lemma fold_left_Rmin_lower : forall xs x, Forall (fun e => fold_left Rmin xs x <= e) (x :: xs).
Proof.
  induction xs as [|y ys IH]; intros x; cbn [fold_left].
  - constructor; [lra | constructor].
  - specialize (IH (Rmin x y)). inversion IH as [|? ? Hm Hys]; subst.
    constructor; [|constructor]; try assumption.
    + eapply Rle_trans; [exact Hm | apply Rmin_l].
    + eapply Rle_trans; [exact Hm | apply Rmin_r].
Qed.

Lemma fold_left_Rmin_In : forall xs x, In (fold_left Rmin xs x) (x :: xs).
Proof.
  induction xs as [|y ys IH]; intros x; cbn [fold_left].
  - left. reflexivity.
  - destruct (IH (Rmin x y)) as [H | H].
    + unfold Rmin in H at 1. destruct (Rle_dec x y).
      * left. exact H.
      * right. left. exact H.
    + right. right. exact H.
Qed.

Lemma fold_left_Rmax_upper : forall xs x, Forall (fun e => e <= fold_left Rmax xs x) (x :: xs).
Proof.
  induction xs as [|y ys IH]; intros x; cbn [fold_left].
  - constructor; [lra | constructor].
  - specialize (IH (Rmax x y)). inversion IH as [|? ? Hm Hys]; subst.
    constructor; [|constructor]; try assumption.
    + eapply Rle_trans; [apply Rmax_l | exact Hm].
    + eapply Rle_trans; [apply Rmax_r | exact Hm].
Qed.

Lemma fold_left_Rmax_In : forall xs x, In (fold_left Rmax xs x) (x :: xs).
Proof.
  induction xs as [|y ys IH]; intros x; cbn [fold_left].
  - left. reflexivity.
  - destruct (IH (Rmax x y)) as [H | H].
    + unfold Rmax in H at 1. destruct (Rle_dec x y).
      * right. left. exact H.
      * left. exact H.
    + right. right. exact H.
Qed.

Lemma amin_spec : forall xs, xs <> [] ->
  In (Np.amin xs) xs /\ Forall (fun e => Np.amin xs <= e) xs.
Proof.
  intros [|x xs] H; [congruence|]. unfold Np.amin. split.
  - apply fold_left_Rmin_In.
  - apply fold_left_Rmin_lower.
Qed.

Lemma amax_spec : forall xs, xs <> [] ->
  In (Np.amax xs) xs /\ Forall (fun e => e <= Np.amax xs) xs.
Proof.
  intros [|x xs] H; [congruence|]. unfold Np.amax. split.
  - apply fold_left_Rmax_In.
  - apply fold_left_Rmax_upper.
Qed.

(** A list of numbers is a one-dimensional array of these numbers. *)
Lemma number_is_scalar : forall v e,
  WorldFrameCalibrator.as_float v = Some e ->
  WorldFrameCalibrator.array_shape v = Some [] /\ WorldFrameCalibrator.array_items v = [v].
Proof.
  intros v e H. destruct v; try discriminate H; split; reflexivity.
Qed.

Lemma scalars_shape : forall vs,
  Forall (fun v => WorldFrameCalibrator.array_shape v = Some [] /\
                   WorldFrameCalibrator.array_items v = [v]) vs ->
  (exists n, WorldFrameCalibrator.array_shape (VList vs) = Some [n]) /\
  WorldFrameCalibrator.array_items (VList vs) = vs.
Proof.
  intros vs H. split.
  - cbn [WorldFrameCalibrator.array_shape].
    destruct H as [|v vs [Hv _] Hvs]; [exists 0%nat; reflexivity|].
    exists (S (length vs)). cbn [map WorldFrameCalibrator.sequence_shape]. rewrite Hv.
    replace (forallb _ _) with true; [cbn; rewrite length_map; reflexivity|].
    symmetry. apply forallb_forall. intros s Hs. apply in_map_iff in Hs.
    destruct Hs as (w & <- & Hw). rewrite Forall_forall in Hvs.
    destruct (Hvs w Hw) as [-> _]. reflexivity.
  - cbn [WorldFrameCalibrator.array_items].
    induction H as [|v vs [_ Hv] _ IH]; cbn [flat_map]; [reflexivity|].
    rewrite Hv, IH. reflexivity.
Qed.

Lemma as_array_numbers : forall vs errors,
  Forall2 (fun v e => WorldFrameCalibrator.as_float v = Some e) vs errors ->
  WorldFrameCalibrator.as_array vs = Returned errors.
Proof.
  intros vs errors H.
  assert (Hs : Forall (fun v => WorldFrameCalibrator.array_shape v = Some [] /\
                                WorldFrameCalibrator.array_items v = [v]) vs).
  { induction H as [|v e vs errors Hv _ IH]; constructor; [|exact IH].
    exact (number_is_scalar v e Hv). }
  destruct (scalars_shape vs Hs) as [[n Hn] Hi].
  unfold WorldFrameCalibrator.as_array. rewrite Hn, Hi. cbn [length Nat.ltb Nat.leb].
  replace (WorldFrameCalibrator.numbers vs) with (Some errors); [reflexivity|].
  clear Hs Hn Hi. induction H as [|v e vs errors Hv _ IH]; cbn; [reflexivity|].
  rewrite Hv, <- IH. reflexivity.
Qed.

(** The history [pts] carries the error values [errors], in order. *)
Lemma errors_of_history : forall pts errors,
  Forall2 (fun pt e => exists v, getitem pt "error_cm" = Returned v /\
                                 WorldFrameCalibrator.as_float v = Some e) pts errors ->
  exists entries,
    WorldFrameCalibrator.error_entries pts = Returned entries /\
    length entries = length errors /\
    WorldFrameCalibrator.as_array entries = Returned errors.
Proof.
  intros pts errors H.
  assert (exists entries, WorldFrameCalibrator.error_entries pts = Returned entries /\
            Forall2 (fun v e => WorldFrameCalibrator.as_float v = Some e) entries errors)
    as (entries & He & Ha).
  { induction H as [|pt e pts errors (v & Hv & Hf) _ (entries & He & Ha)].
    - exists []. split; [reflexivity | constructor].
    - exists (v :: entries). cbn. rewrite Hv. cbn. rewrite He. cbn.
      split; [reflexivity | constructor; assumption]. }
  exists entries. split; [exact He|]. split.
  - exact (Forall2_length Ha).
  - exact (as_array_numbers _ _ Ha).
Qed.

Lemma validate_nonempty : forall self errors,
  errors <> [] ->
  Forall2 (fun pt e => exists v, getitem pt "error_cm" = Returned v /\
                                 WorldFrameCalibrator.as_float v = Some e)
          (WorldFrameCalibrator.calibration_points self) errors ->
  WorldFrameCalibrator.validate_calibration self
  = (WorldFrameCalibrator.with_calibration_error_cm self (Some (Np.mean errors)),
     Returned (Some {| WorldFrameCalibrator.num_points := length errors;
                       WorldFrameCalibrator.mean_error_cm := Np.mean errors;
                       WorldFrameCalibrator.std_error_cm := Np.std errors;
                       WorldFrameCalibrator.max_error_cm := Np.amax errors;
                       WorldFrameCalibrator.min_error_cm := Np.amin errors;
                       WorldFrameCalibrator.rmse_cm := sqrt (Np.mean (Np.square errors)) |})).
Proof.
  intros self errors Hne H. unfold WorldFrameCalibrator.validate_calibration.
  destruct (errors_of_history _ _ H) as (entries & He & Hl & Ha).
  rewrite He. cbn [Py.bind]. unfold WorldFrameCalibrator.error_metrics.
  rewrite Ha, Hl. cbn [Py.bind].
  destruct (WorldFrameCalibrator.calibration_points self) as [|pt pts].
  - inversion H. congruence.
  - destruct errors as [|e errors]; [congruence | reflexivity].
Qed.

Lemma sum_square_nonneg : forall (f : R -> R) xs, 0 <= Np.sum (map (fun x => f x * f x) xs).
Proof.
  unfold Np.sum. induction xs as [|x xs IH]; cbn.
  - lra.
  - pose proof (Rle_0_sqr (f x)) as H. unfold Rsqr in H. lra.
Qed.

Lemma INR_length_pos : forall (xs : list R), xs <> [] -> 0 < INR (length xs).
Proof.
  intros [|x xs] H; [congruence|]. apply lt_0_INR. cbn. lia.
Qed.

Lemma sqrt_mean_square : forall (f : R -> R) xs, xs <> [] ->
  let s := sqrt (Np.mean (map (fun x => f x * f x) xs)) in
  0 <= s /\ s * s * INR (length xs) = Np.sum (map (fun x => f x * f x) xs).
Proof.
  intros f xs Hne s. split; [apply sqrt_pos|].
  subst s. pose proof (INR_length_pos xs Hne) as Hn.
  pose proof (sum_square_nonneg f xs) as Hs.
  rewrite sqrt_sqrt.
  - unfold Np.mean. rewrite length_map. field. lra.
  - unfold Np.mean. rewrite length_map. apply Rmult_le_pos; [exact Hs|].
    left. apply Rinv_0_lt_compat. exact Hn.
Qed.

(** C1. When the history carries the error values [errors] (not empty),
    [validate_calibration] returns the metrics of exactly these values and
    keeps their mean as the stored calibration error: the count; the mean
    (their sum over the count); the population standard deviation (the
    non-negative root of the mean squared deviation from the mean); the
    least and the greatest of the values; the root of the mean square. For
    the errors 1, 2, 3 this is 3 points, mean 2, standard deviation
    sqrt(2/3), about 0.8165, minimum 1, maximum 3 and RMSE sqrt(14/3),
    about 2.1602. *)
Theorem validate_statistics : forall self errors,
  errors <> [] ->
  Forall2 (fun pt e => exists v, getitem pt "error_cm" = Returned v /\
                                 WorldFrameCalibrator.as_float v = Some e)
          (WorldFrameCalibrator.calibration_points self) errors ->
  exists m,
    snd (WorldFrameCalibrator.validate_calibration self) = Returned (Some m) /\
    WorldFrameCalibrator.calibration_error_cm
      (fst (WorldFrameCalibrator.validate_calibration self))
      = Some (WorldFrameCalibrator.mean_error_cm m) /\
    WorldFrameCalibrator.num_points m = length errors /\
    WorldFrameCalibrator.mean_error_cm m = Np.sum errors / INR (length errors) /\
    (0 <= WorldFrameCalibrator.std_error_cm m /\
     WorldFrameCalibrator.std_error_cm m * WorldFrameCalibrator.std_error_cm m
       * INR (length errors)
     = Np.sum (map (fun e => (e - WorldFrameCalibrator.mean_error_cm m)
                             * (e - WorldFrameCalibrator.mean_error_cm m)) errors)) /\
    (In (WorldFrameCalibrator.min_error_cm m) errors /\
     Forall (fun e => WorldFrameCalibrator.min_error_cm m <= e) errors) /\
    (In (WorldFrameCalibrator.max_error_cm m) errors /\
     Forall (fun e => e <= WorldFrameCalibrator.max_error_cm m) errors) /\
    (0 <= WorldFrameCalibrator.rmse_cm m /\
     WorldFrameCalibrator.rmse_cm m * WorldFrameCalibrator.rmse_cm m * INR (length errors)
     = Np.sum (map (fun e => e * e) errors)) /\
    (errors = [1; 2; 3] ->
     WorldFrameCalibrator.num_points m = 3%nat /\
     WorldFrameCalibrator.mean_error_cm m = 2 /\
     WorldFrameCalibrator.std_error_cm m = sqrt (2 / 3) /\
     0.81645 < WorldFrameCalibrator.std_error_cm m < 0.81655 /\
     WorldFrameCalibrator.min_error_cm m = 1 /\
     WorldFrameCalibrator.max_error_cm m = 3 /\
     WorldFrameCalibrator.rmse_cm m = sqrt ((1 + 4 + 9) / 3) /\
     2.16015 < WorldFrameCalibrator.rmse_cm m < 2.16025).
Proof.
  intros self errors Hne H.
  rewrite (validate_nonempty self errors Hne H).
  eexists. split; [reflexivity|].
  cbn [fst snd WorldFrameCalibrator.calibration_error_cm
       WorldFrameCalibrator.with_calibration_error_cm
       WorldFrameCalibrator.num_points WorldFrameCalibrator.mean_error_cm
       WorldFrameCalibrator.std_error_cm WorldFrameCalibrator.min_error_cm
       WorldFrameCalibrator.max_error_cm WorldFrameCalibrator.rmse_cm].
  split; [reflexivity|]. split; [reflexivity|]. split; [reflexivity|].
  split; [apply (sqrt_mean_square (fun e => e - Np.mean errors) errors Hne)|].
  split; [apply (amin_spec errors Hne)|].
  split; [apply (amax_spec errors Hne)|].
  split; [apply (sqrt_mean_square (fun e => e) errors Hne)|].
  intros ->.
  assert (Hmean : Np.mean [1; 2; 3] = 2) by (unfold Np.mean, Np.sum; cbn; lra).
  assert (Hvar : Np.mean (map (fun x => (x - 2) * (x - 2)) [1; 2; 3]) = 2 / 3)
    by (unfold Np.mean, Np.sum; cbn; lra).
  assert (Hms : Np.mean (Np.square [1; 2; 3]) = (1 + 4 + 9) / 3)
    by (unfold Np.mean, Np.sum, Np.square; cbn; lra).
  unfold Np.std. rewrite Hmean, Hvar, Hms.
  split; [reflexivity|]. split; [reflexivity|]. split; [reflexivity|].
  split; [apply sqrt_between; lra|].
  split; [unfold Np.amin, Rmin; cbn; repeat (destruct (Rle_dec _ _)); lra|].
  split; [unfold Np.amax, Rmax; cbn; repeat (destruct (Rle_dec _ _)); lra|].
  split; [reflexivity|].
  apply sqrt_between; lra.
Qed.

Lemma validate_statistics_witness :
  [1; 2; 3] <> [] /\
  Forall2 (fun pt e => exists v, getitem pt "error_cm" = Returned v /\
                                 WorldFrameCalibrator.as_float v = Some e)
          (WorldFrameCalibrator.calibration_points example_three_points) [1; 2; 3] /\
  exists m,
    snd (WorldFrameCalibrator.validate_calibration example_three_points) = Returned (Some m) /\
    WorldFrameCalibrator.num_points m = 3%nat /\
    WorldFrameCalibrator.mean_error_cm m = 2 /\
    WorldFrameCalibrator.std_error_cm m = sqrt (2 / 3) /\
    WorldFrameCalibrator.min_error_cm m = 1 /\
    WorldFrameCalibrator.max_error_cm m = 3 /\
    WorldFrameCalibrator.rmse_cm m = sqrt ((1 + 4 + 9) / 3).
Proof.
  assert (Hne : [1; 2; 3] <> []) by discriminate.
  assert (Hh : Forall2 (fun pt e => exists v, getitem pt "error_cm" = Returned v /\
                                              WorldFrameCalibrator.as_float v = Some e)
                       (WorldFrameCalibrator.calibration_points example_three_points)
                       [1; 2; 3]).
  { repeat constructor; eexists; split; reflexivity. }
  split; [exact Hne|]. split; [exact Hh|].
  destruct (validate_statistics example_three_points [1; 2; 3] Hne Hh)
    as (m & Hm & _ & _ & _ & _ & _ & _ & _ & H123).
  destruct (H123 eq_refl) as (Hn & Hmean & Hstd & _ & Hmin & Hmax & Hrmse & _).
  exists m. repeat split; assumption.
Defined.

(** C2, as the code has it. With an empty history [validate_calibration]
    returns Python's [None] and raises nothing; it builds no metrics, of
    zeros or otherwise, and leaves the calibrator as it was. *)
Theorem validate_empty_returns_none : forall self,
  WorldFrameCalibrator.calibration_points self = [] ->
  WorldFrameCalibrator.validate_calibration self = (self, Returned None).
Proof.
  intros self H. unfold WorldFrameCalibrator.validate_calibration. rewrite H. reflexivity.
Qed.

Lemma validate_empty_returns_none_witness :
  WorldFrameCalibrator.calibration_points WorldFrameCalibrator.init = [] /\
  WorldFrameCalibrator.validate_calibration WorldFrameCalibrator.init
    = (WorldFrameCalibrator.init, Returned None).
Proof.
  split; [reflexivity | apply (validate_empty_returns_none WorldFrameCalibrator.init); reflexivity].
Defined.

(** C2 as stated fails: on the freshly constructed calibrator, whose
    history is empty, [validate_calibration] raises no exception at all. *)
Lemma validate_empty_does_not_raise :
  WorldFrameCalibrator.calibration_points WorldFrameCalibrator.init = [] /\
  ~ (exists e, snd (WorldFrameCalibrator.validate_calibration WorldFrameCalibrator.init)
               = Raised e).
Proof.
  split; [reflexivity|]. intros [e H]. cbn in H. discriminate H.
Qed.

(** ** The batch conversion *)

Lemma range_up_spec : forall fuel cur stop step,
  (0 < step)%Z -> (stop - cur <= Z.of_nat fuel)%Z ->
  Py.range_up fuel cur stop step
  = map (fun i => (cur + Z.of_nat i * step)%Z) (seq 0 (ceil_div (stop - cur) step)).
Proof.
  induction fuel as [|fuel IH]; intros cur stop step Hs Hf.
  - cbn [Py.range_up]. unfold ceil_div.
    replace (Z.to_nat ((stop - cur + step - 1) / step)) with 0%nat; [reflexivity|].
    assert ((stop - cur + step - 1) / step <= 0)%Z.
    { apply Z.lt_succ_r. apply Z.div_lt_upper_bound; lia. }
    lia.
  - cbn [Py.range_up]. destruct (cur <? stop)%Z eqn:Hlt.
    + apply Z.ltb_lt in Hlt.
      rewrite IH by lia.
      assert (Hc : ceil_div (stop - cur) step = S (ceil_div (stop - (cur + step)) step)).
      { unfold ceil_div.
        replace (stop - cur + step - 1)%Z with ((stop - (cur + step) + step - 1) + 1 * step)%Z
          by lia.
        rewrite Z.div_add by lia.
        assert (0 <= (stop - (cur + step) + step - 1) / step)%Z by (apply Z.div_pos; lia).
        lia. }
      rewrite Hc. cbn [seq map]. f_equal; [lia|].
      rewrite <- seq_shift, map_map. apply map_ext. intros i. lia.
    + apply Z.ltb_ge in Hlt. unfold ceil_div.
      replace (Z.to_nat ((stop - cur + step - 1) / step)) with 0%nat; [reflexivity|].
      assert ((stop - cur + step - 1) / step <= 0)%Z.
      { apply Z.lt_succ_r. apply Z.div_lt_upper_bound; lia. }
      lia.
Qed.

Lemma range_from_0 : forall stop step,
  (0 < step)%Z ->
  Py.range 0 stop step
  = Returned (map (fun i => (Z.of_nat i * step)%Z) (seq 0 (ceil_div stop step))).
Proof.
  intros stop step Hs. unfold Py.range.
  destruct (step =? 0)%Z eqn:H0; [apply Z.eqb_eq in H0; lia|].
  destruct (0 <? step)%Z eqn:H1; [|apply Z.ltb_ge in H1; lia].
  rewrite range_up_spec by lia.
  rewrite Z.sub_0_r. reflexivity.
Qed.

Example range_by_two : Py.range 0 10 2 = Returned [0; 2; 4; 6; 8]%Z.
Proof. reflexivity. Qed.

Example range_by_three : Py.range 0 10 3 = Returned [0; 3; 6; 9]%Z.
Proof. reflexivity. Qed.

Example range_backwards : Py.range 0 10 (-1) = Returned [].
Proof. reflexivity. Qed.

Example range_step_zero :
  Py.range 0 10 0 = Raised (ValueError "range() arg 3 must not be zero").
Proof. reflexivity. Qed.

(** A frame without any depth reading is scanned, and nothing is emitted,
    even before the camera is set up. *)
Example scan_of_empty_readings :
  WorldFrameCalibrator.depth_image_scan WorldFrameCalibrator.init (constant_frame 4 0) 2 300
  = Returned {| WorldFrameCalibrator.visited := [(0, 0); (0, 2); (2, 0); (2, 2)]%Z;
                WorldFrameCalibrator.points := [] |}.
Proof. reflexivity. Qed.

(** With a reading, the first pixel needs the depth scale. *)
Example scan_before_setup :
  WorldFrameCalibrator.depth_image_to_world_points
    WorldFrameCalibrator.init (constant_frame 4 2000) 2 300
  = Raised (TypeError "unsupported operand type(s) for *: 'int' and 'NoneType'").
Proof. reflexivity. Qed.

Lemma matvec_4 : forall T v,
  Np.is_2d T = true -> Np.ncols T = 4%nat -> length v = 4%nat ->
  Np.matvec T v = Returned (map (fun row => Np.dot row v) T).
Proof.
  intros T v H2d Hc Hv. unfold Np.matvec. rewrite H2d, Hc, Hv. reflexivity.
Qed.

Lemma pixel_step_ready : forall self intr scale T frame max_distance_cm v u acc,
  ready self intr scale T ->
  WorldFrameCalibrator.pixel_step self frame max_distance_cm v u acc
  = Returned
      {| WorldFrameCalibrator.visited := WorldFrameCalibrator.visited acc ++ [(v, u)];
         WorldFrameCalibrator.points :=
           WorldFrameCalibrator.points acc ++
           (if kept scale frame max_distance_cm (v, u)
            then [world_point intr scale T frame (v, u)] else []) |}.
Proof.
  intros self intr scale T frame mx v u acc (Hi & Hs & HT & H2d & Hc).
  unfold WorldFrameCalibrator.pixel_step, kept, depth_cm. cbn [fst snd].
  destruct (Rs.pixel frame v u =? 0)%Z; cbn [negb andb].
  - rewrite app_nil_r. reflexivity.
  - rewrite Hs.
    destruct (Rgt_dec (IZR (Rs.pixel frame v u) * scale * 100) mx).
    + rewrite app_nil_r. reflexivity.
    + unfold WorldFrameCalibrator.pixel_to_camera_coordinates. rewrite Hi.
      cbn [Py.bind]. unfold WorldFrameCalibrator.camera_to_world_coordinates. rewrite HT.
      rewrite matvec_4 by (assumption || reflexivity). reflexivity.
Qed.

Lemma flat_map_keep : forall {A B : Type} (p : A -> bool) (f : A -> B) (l : list A),
  flat_map (fun x => if p x then [f x] else []) l = map f (filter p l).
Proof.
  induction l as [|x l IH]; cbn; [reflexivity|].
  destruct (p x); cbn; rewrite IH; reflexivity.
Qed.

Lemma row_loop : forall self intr scale T frame max_distance_cm v us acc,
  ready self intr scale T ->
  WorldFrameCalibrator.for_each us
    (fun u acc' => WorldFrameCalibrator.pixel_step self frame max_distance_cm v u acc') acc
  = Returned
      {| WorldFrameCalibrator.visited :=
           WorldFrameCalibrator.visited acc ++ map (fun u => (v, u)) us;
         WorldFrameCalibrator.points :=
           WorldFrameCalibrator.points acc ++
           map (world_point intr scale T frame)
               (filter (kept scale frame max_distance_cm) (map (fun u => (v, u)) us)) |}.
Proof.
  intros self intr scale T frame mx v us acc Hr. revert acc.
  induction us as [|u us IH]; intros acc; cbn [WorldFrameCalibrator.for_each].
  - cbn. rewrite !app_nil_r. destruct acc; reflexivity.
  - rewrite (pixel_step_ready _ _ _ _ _ _ _ _ _ Hr). cbn [Py.bind]. rewrite IH.
    cbn [WorldFrameCalibrator.visited WorldFrameCalibrator.points map filter].
    rewrite <- !app_assoc. f_equal. f_equal.
    destruct (kept scale frame mx (v, u)); reflexivity.
Qed.

Lemma image_loop : forall self intr scale T frame max_distance_cm us vs acc,
  ready self intr scale T ->
  WorldFrameCalibrator.for_each vs
    (fun v acc' =>
       WorldFrameCalibrator.for_each us
         (fun u acc'' => WorldFrameCalibrator.pixel_step self frame max_distance_cm v u acc'')
         acc')
    acc
  = Returned
      {| WorldFrameCalibrator.visited :=
           WorldFrameCalibrator.visited acc
           ++ flat_map (fun v => map (fun u => (v, u)) us) vs;
         WorldFrameCalibrator.points :=
           WorldFrameCalibrator.points acc ++
           map (world_point intr scale T frame)
               (filter (kept scale frame max_distance_cm)
                       (flat_map (fun v => map (fun u => (v, u)) us) vs)) |}.
Proof.
  intros self intr scale T frame mx us vs acc Hr. revert acc.
  induction vs as [|v vs IH]; intros acc; cbn [WorldFrameCalibrator.for_each].
  - cbn. rewrite !app_nil_r. destruct acc; reflexivity.
  - rewrite (row_loop _ _ _ _ _ _ _ _ _ Hr). cbn [Py.bind]. rewrite IH.
    cbn [WorldFrameCalibrator.visited WorldFrameCalibrator.points flat_map].
    rewrite filter_app, map_app, <- !app_assoc. reflexivity.
Qed.

Lemma flat_map_map_seq : forall {A B C : Type} (f : A -> B) (g : B -> list C) (l : list A),
  flat_map g (map f l) = flat_map (fun x => g (f x)) l.
Proof.
  induction l as [|x l IH]; cbn; [reflexivity|]. rewrite IH. reflexivity.
Qed.

Lemma for_each_ext : forall {S : Type} (xs : list Z) (f g : Z -> S -> outcome S) (s : S),
  (forall x a, f x a = g x a) ->
  WorldFrameCalibrator.for_each xs f s = WorldFrameCalibrator.for_each xs g s.
Proof.
  intros S xs f g s H. revert s.
  induction xs as [|x xs IH]; intros s; cbn; [reflexivity|].
  rewrite H. destruct (g x s); cbn; [apply IH | reflexivity].
Qed.

(** The whole scan on a ready calibrator, for a positive step. *)
Lemma depth_image_scan_ready : forall self intr scale T frame subsample max_distance_cm,
  ready self intr scale T -> (0 < subsample)%Z ->
  WorldFrameCalibrator.depth_image_scan self frame subsample max_distance_cm
  = Returned
      {| WorldFrameCalibrator.visited :=
           scan_positions (Rs.rows frame) (Rs.cols frame) subsample;
         WorldFrameCalibrator.points :=
           map (world_point intr scale T frame)
               (filter (kept scale frame max_distance_cm)
                       (scan_positions (Rs.rows frame) (Rs.cols frame) subsample)) |}.
Proof.
  intros self intr scale T frame s mx Hr Hs.
  unfold WorldFrameCalibrator.depth_image_scan.
  rewrite range_from_0 by exact Hs. cbn [Py.bind].
  rewrite (for_each_ext _ _
             (fun v acc' =>
                WorldFrameCalibrator.for_each
                  (map (fun j => (Z.of_nat j * s)%Z) (seq 0 (ceil_div (Rs.cols frame) s)))
                  (fun u acc'' => WorldFrameCalibrator.pixel_step self frame mx v u acc'')
                  acc')).
  2: { intros v acc'. rewrite range_from_0 by exact Hs. reflexivity. }
  - rewrite (image_loop _ _ _ _ _ _ _ _ _ Hr). cbn [WorldFrameCalibrator.visited
      WorldFrameCalibrator.points app].
    unfold scan_positions. rewrite flat_map_map_seq.
    assert (Hfm : forall vs : list nat,
      flat_map (fun x => map (fun u => ((Z.of_nat x * s)%Z, u))
                             (map (fun j => (Z.of_nat j * s)%Z)
                                  (seq 0 (ceil_div (Rs.cols frame) s)))) vs
      = flat_map (fun i => map (fun j => ((Z.of_nat i * s)%Z, (Z.of_nat j * s)%Z))
                               (seq 0 (ceil_div (Rs.cols frame) s))) vs).
    { intros vs. apply flat_map_ext. intros i. rewrite map_map. reflexivity. }
    rewrite Hfm. reflexivity.
Qed.

Lemma ceil_div_is_ceiling : forall n step,
  (0 < step)%Z -> (0 < n)%Z ->
  ((Z.of_nat (ceil_div n step) - 1) * step < n <= Z.of_nat (ceil_div n step) * step)%Z.
Proof.
  intros n step Hs Hn. unfold ceil_div.
  assert (H0 : (0 <= (n + step - 1) / step)%Z) by (apply Z.div_pos; lia).
  rewrite Z2Nat.id by exact H0.
  pose proof (Z.div_mod (n + step - 1) step ltac:(lia)) as Hd.
  pose proof (Z.mod_pos_bound (n + step - 1) step Hs) as Hm.
  nia.
Qed.

Lemma scan_positions_length : forall rows cols step,
  length (scan_positions rows cols step)
  = (ceil_div rows step * ceil_div cols step)%nat.
Proof.
  intros. unfold scan_positions.
  generalize (ceil_div cols step) as m. generalize (ceil_div rows step) as n.
  intros n m.
  assert (H : forall a,
    length (flat_map (fun i => map (fun j => ((Z.of_nat i * step)%Z, (Z.of_nat j * step)%Z))
                                   (seq 0 m)) (seq a n)) = (n * m)%nat).
  { induction n as [|n IH]; intros a; cbn [seq flat_map]; [reflexivity|].
    rewrite length_app, length_map, length_seq, IH. reflexivity. }
  apply H.
Qed.

(** Row-major order: the position in row [i] and column [j] of the
    subsampled grid is visited at rank [i * columns + j]. *)
Lemma scan_positions_row_major : forall rows cols step i j,
  (i < ceil_div rows step)%nat -> (j < ceil_div cols step)%nat ->
  nth_error (scan_positions rows cols step) (i * ceil_div cols step + j)
  = Some ((Z.of_nat i * step)%Z, (Z.of_nat j * step)%Z).
Proof.
  intros rows cols step i j. unfold scan_positions.
  generalize (ceil_div cols step) as m. generalize (ceil_div rows step) as n.
  intros n m Hi Hj.
  assert (H : forall n a i, (i < n)%nat ->
    nth_error
      (flat_map (fun i0 => map (fun j0 => ((Z.of_nat i0 * step)%Z, (Z.of_nat j0 * step)%Z))
                               (seq 0 m)) (seq a n)) (i * m + j)
    = Some ((Z.of_nat (a + i) * step)%Z, (Z.of_nat j * step)%Z)).
  { clear n i Hi. induction n as [|n IH]; intros a i Hi; [lia|].
    cbn [seq flat_map]. destruct i as [|i].
    - cbn [Nat.mul Nat.add]. rewrite nth_error_app1 by (rewrite length_map, length_seq; exact Hj).
      rewrite nth_error_map, nth_error_seq.
      destruct (Nat.ltb_spec j m); [|lia].
      cbn. rewrite Nat.add_0_r. reflexivity.
    - replace (S i * m + j)%nat with (m + (i * m + j))%nat
        by (rewrite Nat.mul_succ_l; generalize (i * m)%nat; intros; lia).
      rewrite nth_error_app2 by (rewrite length_map, length_seq; apply Nat.le_add_r).
      rewrite length_map, length_seq.
      replace (m + (i * m + j) - m)%nat with (i * m + j)%nat
        by (generalize (i * m + j)%nat; intros; lia).
      rewrite IH by lia. replace (S a + i)%nat with (a + S i)%nat by lia. reflexivity. }
  rewrite (H n 0%nat i Hi). reflexivity.
Qed.

Lemma Forall2_map_right : forall {A B : Type} (P : A -> B -> Prop) (f : A -> B) (l : list A),
  (forall a, P a (f a)) -> Forall2 P l (map f l).
Proof.
  intros A B P f l H. induction l as [|a l IH]; cbn; constructor; auto.
Qed.

Lemma world_point_overhead_z : forall self0 intr scale T frame h x y vu,
  WorldFrameCalibrator.T_world_camera
    (WorldFrameCalibrator.define_simple_overhead_calibration self0 h x y 0 0 0) = Some T ->
  nth 2 (world_point intr scale T frame vu) 0 = h - depth_cm scale frame vu.
Proof.
  intros self0 intr scale T frame h x y vu HT.
  rewrite T_world_camera_define in HT. injection HT as <-.
  rewrite radians_0. unfold euler_flip. rewrite cos_0, sin_0.
  unfold world_point, camera_point, depth_cm, Rs.rs2_deproject_pixel_to_point, Np.dot, Np.scale.
  cbn. lra.
Qed.

Lemma kept_iff : forall scale frame max_distance_cm vu,
  kept scale frame max_distance_cm vu = true <->
  Rs.pixel frame (fst vu) (snd vu) <> 0%Z /\ depth_cm scale frame vu <= max_distance_cm.
Proof.
  intros scale frame mx vu. unfold kept.
  destruct (Z.eqb_spec (Rs.pixel frame (fst vu) (snd vu)) 0) as [H0 | H0]; cbn [negb andb].
  - split; [discriminate | intros [H _]; contradiction].
  - destruct (Rgt_dec (depth_cm scale frame vu) mx) as [Hg | Hg].
    + split; [discriminate | intros [_ H]; lra].
    + split; [intros _; split; [exact H0 | lra] | reflexivity].
Qed.

Lemma example_ready : ready example_calibrator example_intrinsics (1 / 1000) example_T.
Proof.
  unfold ready. repeat split; reflexivity.
Qed.

Lemma filter_all : forall {A : Type} (f : A -> bool) (l : list A),
  (forall a, In a l -> f a = true) -> filter f l = l.
Proof.
  intros A f l H. induction l as [|a l IH]; cbn; [reflexivity|].
  rewrite (H a (or_introl eq_refl)), IH; [reflexivity|].
  intros b Hb. apply H. right. exact Hb.
Qed.

(** C6, as the code has it. On a calibrator that is set up, the batch
    conversion reads every scanned pixel and returns, in scan order, the
    world points of exactly the scanned pixels whose depth reading is not
    zero and, in centimetres, at most [max_distance_cm]. The reading in
    centimetres is 100 times the camera-frame z of the point, its distance
    along the optical axis: a zero-depth pixel is skipped, a reading beyond
    the threshold is left out, and a reading equal to the threshold is
    kept, so the world point of such a scanned pixel is in the output. *)
Theorem max_distance_filter : forall self intr scale T frame subsample max_distance_cm,
  ready self intr scale T ->
  (0 < subsample)%Z ->
  let scanned := scan_positions (Rs.rows frame) (Rs.cols frame) subsample in
  let emitted := filter (kept scale frame max_distance_cm) scanned in
  WorldFrameCalibrator.depth_image_scan self frame subsample max_distance_cm
    = Returned {| WorldFrameCalibrator.visited := scanned;
                  WorldFrameCalibrator.points := map (world_point intr scale T frame) emitted |} /\
  WorldFrameCalibrator.depth_image_to_world_points self frame subsample max_distance_cm
    = Returned (map (world_point intr scale T frame) emitted) /\
  (forall vu, In vu emitted <->
              In vu scanned /\
              Rs.pixel frame (fst vu) (snd vu) <> 0%Z /\
              depth_cm scale frame vu <= max_distance_cm) /\
  (forall vu, nth 2 (camera_point intr scale frame vu) 0 * 100 = depth_cm scale frame vu) /\
  (forall vu, Rs.pixel frame (fst vu) (snd vu) = 0%Z -> ~ In vu emitted) /\
  (forall vu, depth_cm scale frame vu > max_distance_cm -> ~ In vu emitted) /\
  (forall vu, In vu scanned ->
              Rs.pixel frame (fst vu) (snd vu) <> 0%Z ->
              depth_cm scale frame vu = max_distance_cm ->
              In vu emitted /\
              In (world_point intr scale T frame vu)
                 (map (world_point intr scale T frame) emitted)).
Proof.
  intros self intr scale T frame s mx Hr Hs scanned emitted.
  assert (Hin : forall vu, In vu emitted <->
                  In vu scanned /\
                  Rs.pixel frame (fst vu) (snd vu) <> 0%Z /\
                  depth_cm scale frame vu <= mx).
  { intros vu. subst emitted. rewrite filter_In, kept_iff. reflexivity. }
  split; [apply (depth_image_scan_ready _ _ _ _ _ _ _ Hr Hs)|].
  split.
  { unfold WorldFrameCalibrator.depth_image_to_world_points.
    rewrite (depth_image_scan_ready _ _ _ _ _ _ _ Hr Hs). reflexivity. }
  split; [exact Hin|].
  split; [intros vu; unfold camera_point, depth_cm; cbn; lra|].
  split; [intros vu H0 H; apply Hin in H; tauto|].
  split; [intros vu Hg H; apply Hin in H; lra|].
  intros vu Hsc H0 He.
  assert (He' : In vu emitted) by (apply Hin; repeat split; [exact Hsc | exact H0 | lra]).
  split; [exact He' | apply in_map; exact He'].
Qed.

Lemma max_distance_filter_witness :
  ready example_calibrator example_intrinsics (1 / 1000) example_T /\
  (0 < 2)%Z /\
  exists pts,
    WorldFrameCalibrator.depth_image_to_world_points
      example_calibrator (constant_frame 10 3000) 2 300 = Returned pts /\
    length pts = 25%nat /\
    In (world_point example_intrinsics (1 / 1000) example_T (constant_frame 10 3000) (4, 6)%Z)
       pts.
Proof.
  split; [exact example_ready|]. split; [reflexivity|].
  destruct (max_distance_filter example_calibrator example_intrinsics (1 / 1000) example_T
              (constant_frame 10 3000) 2 300 example_ready eq_refl)
    as (_ & Hp & _ & _ & _ & _ & Hb).
  eexists. split; [exact Hp|].
  split.
  - rewrite length_map, filter_all; [reflexivity|].
    intros vu _. apply kept_iff. split; [discriminate|].
    unfold depth_cm. cbn. lra.
  - apply (Hb (4, 6)%Z).
    + apply (nth_error_In _ 13). reflexivity.
    + discriminate.
    + unfold depth_cm. cbn. lra.
Defined.

(** The distance the filter compares is not the distance of the point from
    the camera. In a frame of constant depth 3 m scanned with the threshold
    300 cm, the corner pixel is emitted although its camera-frame point is
    more than 387 cm away from the camera. *)
Lemma far_point_is_emitted :
  exists pts,
    WorldFrameCalibrator.depth_image_to_world_points
      example_calibrator (constant_frame 10 3000) 2 300 = Returned pts /\
    nth_error pts 0
    = Some (world_point example_intrinsics (1 / 1000) example_T (constant_frame 10 3000)
              (0, 0)%Z) /\
    100 * Np.norm (camera_point example_intrinsics (1 / 1000) (constant_frame 10 3000)
                     (0, 0)%Z) > 300 /\
    100 * Np.norm (camera_point example_intrinsics (1 / 1000) (constant_frame 10 3000)
                     (0, 0)%Z) > 387.
Proof.
  assert (Hall : filter (kept (1 / 1000) (constant_frame 10 3000) 300)
                        (scan_positions 10 10 2) = scan_positions 10 10 2).
  { apply filter_all. intros vu _. apply kept_iff. split; [discriminate|].
    unfold depth_cm. cbn. lra. }
  eexists. split.
  { unfold WorldFrameCalibrator.depth_image_to_world_points.
    rewrite (depth_image_scan_ready _ _ _ _ _ _ _ example_ready (eq_refl : (0 < 2)%Z)).
    reflexivity. }
  cbn [WorldFrameCalibrator.points Rs.rows Rs.cols constant_frame].
  rewrite Hall. split; [reflexivity|].
  assert (Hn : 387 / 100 < Np.norm (camera_point example_intrinsics (1 / 1000)
                                      (constant_frame 10 3000) (0, 0)%Z) < 4).
  { unfold Np.norm. apply sqrt_between; try lra;
      unfold camera_point, Rs.rs2_deproject_pixel_to_point, Np.square, Np.sum; cbn; lra. }
  split; lra.
Qed.

(** C7. On a calibrator that is set up, the batch conversion with a
    positive [subsample] visits every [subsample]-th row and column, row by
    row: the position in row [i] and column [j] of the subsampled grid has
    rank [i * columns + j] in the visit order, and the number of visited
    positions is ceil(height/subsample) * ceil(width/subsample), 25 for a
    10 by 10 image with [subsample = 2]. The points are emitted in that
    order, and under an overhead pose with all angles zero and height [h]
    (centimetres) every emitted point has world z equal to [h] minus the
    depth of its pixel in centimetres. *)
Theorem subsampled_scan : forall self intr scale T frame subsample max_distance_cm,
  ready self intr scale T ->
  (0 < subsample)%Z ->
  exists s,
    WorldFrameCalibrator.depth_image_scan self frame subsample max_distance_cm = Returned s /\
    WorldFrameCalibrator.depth_image_to_world_points self frame subsample max_distance_cm
      = Returned (WorldFrameCalibrator.points s) /\
    WorldFrameCalibrator.visited s = scan_positions (Rs.rows frame) (Rs.cols frame) subsample /\
    length (WorldFrameCalibrator.visited s)
      = (ceil_div (Rs.rows frame) subsample * ceil_div (Rs.cols frame) subsample)%nat /\
    (forall i j, (i < ceil_div (Rs.rows frame) subsample)%nat ->
                 (j < ceil_div (Rs.cols frame) subsample)%nat ->
                 nth_error (WorldFrameCalibrator.visited s)
                           (i * ceil_div (Rs.cols frame) subsample + j)
                 = Some ((Z.of_nat i * subsample)%Z, (Z.of_nat j * subsample)%Z)) /\
    (Rs.rows frame = 10%Z -> Rs.cols frame = 10%Z -> subsample = 2%Z ->
     length (WorldFrameCalibrator.visited s) = 25%nat) /\
    WorldFrameCalibrator.points s
      = map (world_point intr scale T frame)
            (filter (kept scale frame max_distance_cm) (WorldFrameCalibrator.visited s)) /\
    (forall self0 h x y,
       self = WorldFrameCalibrator.define_simple_overhead_calibration self0 h x y 0 0 0 ->
       Forall2 (fun vu p => nth 2 p 0 = h - depth_cm scale frame vu)
               (filter (kept scale frame max_distance_cm) (WorldFrameCalibrator.visited s))
               (WorldFrameCalibrator.points s)).
Proof.
  intros self intr scale T frame s mx Hr Hs.
  eexists. split; [apply (depth_image_scan_ready _ _ _ _ _ _ _ Hr Hs)|].
  split.
  { unfold WorldFrameCalibrator.depth_image_to_world_points.
    rewrite (depth_image_scan_ready _ _ _ _ _ _ _ Hr Hs). reflexivity. }
  cbn [WorldFrameCalibrator.visited WorldFrameCalibrator.points].
  split; [reflexivity|].
  split; [apply scan_positions_length|].
  split; [intros i j Hi Hj; apply scan_positions_row_major; assumption|].
  split.
  { intros H1 H2 H3. rewrite scan_positions_length, H1, H2, H3. reflexivity. }
  split; [reflexivity|].
  intros self0 h x y Hself. apply Forall2_map_right. intros vu.
  destruct Hr as (_ & _ & HT & _ & _). rewrite Hself in HT.
  apply (world_point_overhead_z self0 intr scale T frame h x y vu HT).
Qed.

Lemma subsampled_scan_witness :
  ready example_calibrator example_intrinsics (1 / 1000) example_T /\
  (0 < 2)%Z /\
  exists s,
    WorldFrameCalibrator.depth_image_scan example_calibrator (constant_frame 10 2000) 2 300
      = Returned s /\
    length (WorldFrameCalibrator.visited s) = 25%nat /\
    Forall2 (fun vu p => nth 2 p 0 = 220 - depth_cm (1 / 1000) (constant_frame 10 2000) vu)
            (filter (kept (1 / 1000) (constant_frame 10 2000) 300)
                    (WorldFrameCalibrator.visited s))
            (WorldFrameCalibrator.points s).
Proof.
  split; [exact example_ready|]. split; [reflexivity|].
  destruct (subsampled_scan example_calibrator example_intrinsics (1 / 1000) example_T
              (constant_frame 10 2000) 2 300 example_ready eq_refl)
    as (s & Hscan & _ & _ & _ & _ & H25 & _ & Hz).
  exists s. split; [exact Hscan|]. split.
  - apply H25; reflexivity.
  - apply (Hz (WorldFrameCalibrator.setup_camera WorldFrameCalibrator.init (1 / 1000)
                 example_intrinsics) 220 0 0 eq_refl).
Defined.

(** ** The validation history *)

Lemma norm_subtract_euclidean : forall a b difference,
  length a = length b ->
  Np.subtract a b = Returned difference ->
  Np.norm difference = euclidean_distance a b.
Proof.
  intros a b difference Hl H. unfold Np.subtract in H.
  rewrite Hl, Nat.eqb_refl in H. injection H as <-.
  unfold Np.norm, euclidean_distance, Np.square. rewrite map_map. reflexivity.
Qed.

Lemma calibration_point_ok : forall label pixel depth x y z predicted difference,
  Np.subtract predicted [x; y; z] = Returned difference ->
  point_ok (WorldFrameCalibrator.calibration_point label pixel depth (x, y, z) predicted
              (Np.norm difference)).
Proof.
  intros label [u v] depth x y z predicted difference Hd.
  exists predicted, x, y, z, (Np.norm difference).
  split; [reflexivity|]. split; [left; reflexivity|].
  repeat split; try reflexivity.
  - apply sqrt_pos.
  - exists difference. split; [exact Hd | reflexivity].
  - intros Hl. apply norm_subtract_euclidean; [exact Hl | exact Hd].
Qed.

(** The report is printed when the prediction has its three coordinates
    and raises [IndexError] otherwise. *)
Lemma print_predicted_cases : forall predicted,
  ((3 <= length predicted)%nat /\
   WorldFrameCalibrator.print_predicted predicted = Returned tt) \/
  ((length predicted < 3)%nat /\
   exists msg, WorldFrameCalibrator.print_predicted predicted = Raised (IndexError msg)).
Proof.
  intros [|a [|b [|c rest]]]; cbn.
  - right. split; [lia | eexists; reflexivity].
  - right. split; [lia | eexists; reflexivity].
  - right. split; [lia | eexists; reflexivity].
  - left. split; [lia | reflexivity].
Qed.

(** What [add_calibration_point] does, by the outcome of its computation. *)
Lemma add_calibration_point_cases : forall self pixel depth x y z label,
  (exists e, WorldFrameCalibrator.add_calibration_point self pixel depth (x, y, z) label
             = (self, Raised e)) \/
  (exists predicted difference,
     Np.subtract predicted [x; y; z] = Returned difference /\
     WorldFrameCalibrator.add_calibration_point self pixel depth (x, y, z) label
     = (WorldFrameCalibrator.with_calibration_points self
          (WorldFrameCalibrator.calibration_points self ++
           [WorldFrameCalibrator.calibration_point label pixel depth (x, y, z) predicted
              (Np.norm difference)]),
        _ <- WorldFrameCalibrator.print_predicted predicted ;;
        Returned (Np.norm difference))).
Proof.
  intros self [u v] depth x y z label.
  unfold WorldFrameCalibrator.add_calibration_point.
  destruct (WorldFrameCalibrator.pixel_to_camera_coordinates self (IZR u) (IZR v) depth)
    as [pc | e]; cbn [Py.bind]; [|left; exists e; reflexivity].
  destruct (WorldFrameCalibrator.camera_to_world_coordinates self pc true)
    as [predicted | e]; cbn [Py.bind]; [|left; exists e; reflexivity].
  destruct (Np.subtract predicted [x; y; z]) as [difference | e] eqn:Hd; cbn [Py.bind];
    [|left; exists e; reflexivity].
  right. exists predicted, difference. split; [exact Hd | reflexivity].
Qed.

Lemma add_calibration_point_ready : forall self intr scale T pixel depth x y z label,
  ready self intr scale T -> (3 <= length T)%nat ->
  exists predicted,
    length predicted = 3%nat /\
    WorldFrameCalibrator.camera_to_world_coordinates self
      (Rs.rs2_deproject_pixel_to_point intr (IZR (fst pixel)) (IZR (snd pixel)) depth) true
      = Returned predicted /\
    WorldFrameCalibrator.add_calibration_point self pixel depth (x, y, z) label
    = (WorldFrameCalibrator.with_calibration_points self
         (WorldFrameCalibrator.calibration_points self ++
          [WorldFrameCalibrator.calibration_point label pixel depth (x, y, z) predicted
             (euclidean_distance predicted [x; y; z])]),
       Returned (euclidean_distance predicted [x; y; z])).
Proof.
  intros self intr scale T [u v] depth x y z label (Hi & Hs & HT & H2d & Hc) Hlen.
  unfold WorldFrameCalibrator.add_calibration_point,
    WorldFrameCalibrator.pixel_to_camera_coordinates,
    WorldFrameCalibrator.camera_to_world_coordinates.
  rewrite Hi, HT. cbn [Py.bind fst snd].
  rewrite matvec_4 by (assumption || reflexivity). cbn [Py.bind].
  set (pc := Rs.rs2_deproject_pixel_to_point intr (IZR u) (IZR v) depth).
  set (w := Np.scale (firstn 3 (map (fun row => Np.dot row (pc ++ [1])) T)) 100).
  assert (Hw : length w = 3%nat).
  { subst w. unfold Np.scale. rewrite length_map, length_firstn, length_map.
    apply Nat.min_l. exact Hlen. }
  exists w. split; [exact Hw|]. split; [reflexivity|].
  destruct (Np.subtract w [x; y; z]) as [difference | e] eqn:Hd.
  - cbn [Py.bind]. rewrite (norm_subtract_euclidean w [x; y; z] difference Hw Hd).
    destruct (print_predicted_cases w) as [[_ ->] | [Hlt _]]; [reflexivity | lia].
  - unfold Np.subtract in Hd. rewrite Hw in Hd. cbn in Hd. discriminate Hd.
Qed.

(** ** Saving and loading *)

Lemma as_vector_items_floats : forall v,
  WorldFrameCalibrator.as_vector_items (map json_roundtrip (map VFloat v)) = Some v.
Proof.
  induction v as [|x v IH]; cbn; [reflexivity|]. cbn in IH. rewrite IH. reflexivity.
Qed.

Lemma as_vector_roundtrip : forall v,
  WorldFrameCalibrator.as_vector (json_roundtrip (WorldFrameCalibrator.floats v)) = Some v.
Proof. intros v. cbn. apply as_vector_items_floats. Qed.

Lemma as_matrix_rows_floats : forall m,
  WorldFrameCalibrator.as_matrix_rows
    (map json_roundtrip (map WorldFrameCalibrator.floats m)) = Some m.
Proof.
  induction m as [|row m IH]; cbn; [reflexivity|].
  rewrite as_vector_items_floats. cbn in IH. rewrite IH. reflexivity.
Qed.

Lemma as_matrix_roundtrip : forall m,
  Np.is_2d m = true ->
  WorldFrameCalibrator.as_matrix (json_roundtrip (WorldFrameCalibrator.floats2 m)) = Some m.
Proof.
  intros m H. cbn [json_roundtrip WorldFrameCalibrator.floats2 WorldFrameCalibrator.as_matrix].
  rewrite as_matrix_rows_floats, H. reflexivity.
Qed.

Lemma as_scalar_roundtrip : forall x,
  WorldFrameCalibrator.as_scalar (json_roundtrip (WorldFrameCalibrator.optional_float x))
  = Some x.
Proof. intros [x|]; reflexivity. Qed.

(** A round trip through JSON keeps every entry of a dictionary under its
    key, itself taken through the round trip. *)
Lemma getitem_roundtrip : forall p k,
  getitem (json_roundtrip p) k = (v <- getitem p k ;; Returned (json_roundtrip v)).
Proof.
  intros p k. destruct p as [| | | | | |entries]; try reflexivity.
  cbn. induction entries as [|[k' x] entries IH]; cbn; [reflexivity|].
  destruct (String.eqb k k'); [reflexivity | exact IH].
Qed.

Lemma as_float_roundtrip : forall v,
  WorldFrameCalibrator.as_float (json_roundtrip v) = WorldFrameCalibrator.as_float v.
Proof. intros []; reflexivity. Qed.

(** A calibration point is read back with the same label and the same
    numbers; its two tuples come back as lists. *)
Lemma calibration_point_roundtrip : forall label u v depth x y z predicted error,
  json_roundtrip
    (WorldFrameCalibrator.calibration_point label (u, v) depth (x, y, z) predicted error)
  = VDict [("label"%string, VStr label);
           ("pixel_coords"%string, VList [VInt u; VInt v]);
           ("depth_meters"%string, VFloat depth);
           ("world_coords_true"%string, VList [VFloat x; VFloat y; VFloat z]);
           ("world_coords_predicted"%string, WorldFrameCalibrator.floats predicted);
           ("error_cm"%string, VFloat error)].
Proof.
  intros. cbn. repeat f_equal. rewrite map_map. reflexivity.
Qed.

(** Saving succeeds once a pose is defined, and writes these entries. *)
Lemma save_defined : forall self now p r tv T,
  WorldFrameCalibrator.camera_position_world self = Some p ->
  WorldFrameCalibrator.rotation_matrix self = Some r ->
  WorldFrameCalibrator.translation_vector self = Some tv ->
  WorldFrameCalibrator.T_world_camera self = Some T ->
  WorldFrameCalibrator.save_calibration self now
  = Returned
      (VDict [("timestamp"%string, VStr now);
              ("camera_height_cm"%string,
                WorldFrameCalibrator.optional_float (WorldFrameCalibrator.camera_height_cm self));
              ("camera_position_world"%string, WorldFrameCalibrator.floats p);
              ("rotation_matrix"%string, WorldFrameCalibrator.floats2 r);
              ("translation_vector"%string, WorldFrameCalibrator.floats2 tv);
              ("transformation_matrix"%string, WorldFrameCalibrator.floats2 T);
              ("calibration_error_cm"%string,
                WorldFrameCalibrator.optional_float
                  (WorldFrameCalibrator.calibration_error_cm self));
              ("calibration_points"%string,
                VList (WorldFrameCalibrator.calibration_points self));
              ("camera_intrinsics"%string,
                match WorldFrameCalibrator.camera_intrinsics self with
                | Some i => WorldFrameCalibrator.intrinsics_snapshot i
                | None => VNone
                end);
              ("depth_scale"%string,
                WorldFrameCalibrator.optional_float (WorldFrameCalibrator.depth_scale self))]).
Proof.
  intros self now p r tv T Hp Hr Htv HT. unfold WorldFrameCalibrator.save_calibration.
  rewrite Hp, Hr, Htv, HT. reflexivity.
Qed.

(** Loading what saving wrote, into any calibrator [self0]. *)
Lemma load_saved : forall self self0 now p r tv T data,
  pose_defined self p r tv T ->
  WorldFrameCalibrator.save_calibration self now = Returned data ->
  WorldFrameCalibrator.load_calibration self0 (json_roundtrip data)
  = Some ({| WorldFrameCalibrator.camera_intrinsics :=
               WorldFrameCalibrator.camera_intrinsics self0;
             WorldFrameCalibrator.depth_scale := WorldFrameCalibrator.depth_scale self;
             WorldFrameCalibrator.camera_height_cm :=
               WorldFrameCalibrator.camera_height_cm self;
             WorldFrameCalibrator.camera_position_world := Some p;
             WorldFrameCalibrator.rotation_matrix := Some r;
             WorldFrameCalibrator.translation_vector := Some tv;
             WorldFrameCalibrator.T_world_camera := Some T;
             WorldFrameCalibrator.calibration_error_cm :=
               WorldFrameCalibrator.calibration_error_cm self;
             WorldFrameCalibrator.calibration_points :=
               map json_roundtrip (WorldFrameCalibrator.calibration_points self) |},
          WorldFrameCalibrator.format_2f (WorldFrameCalibrator.calibration_error_cm self)).
Proof.
  intros self self0 now p r tv T data (Hp & (Hr & Hr2) & (Htv & Htv2) & (HT & HT2)) Hsave.
  rewrite (save_defined self now p r tv T Hp Hr Htv HT) in Hsave. injection Hsave as <-.
  unfold WorldFrameCalibrator.load_calibration, WorldFrameCalibrator.load_entry.
  rewrite !getitem_roundtrip. cbn [getitem assoc String.eqb Ascii.eqb Bool.eqb Py.bind].
  rewrite as_scalar_roundtrip, as_vector_roundtrip, !as_matrix_roundtrip by assumption.
  rewrite !as_scalar_roundtrip. reflexivity.
Qed.


(** Induction on values that reaches the items of lists, tuples and
    dictionaries. *)
Lemma value_nested_ind : forall P : value -> Prop,
  P VNone ->
  (forall n, P (VInt n)) ->
  (forall x, P (VFloat x)) ->
  (forall s, P (VStr s)) ->
  (forall items, Forall P items -> P (VList items)) ->
  (forall items, Forall P items -> P (VTuple items)) ->
  (forall entries, Forall (fun kv => P (snd kv)) entries -> P (VDict entries)) ->
  forall v, P v.
Proof.
  intros P HNone HInt HFloat HStr HList HTuple HDict.
  fix IH 1. intros [| n | x | s | items | items | entries].
  - exact HNone.
  - apply HInt.
  - apply HFloat.
  - apply HStr.
  - apply HList. induction items as [|v items IHitems]; constructor; [apply IH | exact IHitems].
  - apply HTuple. induction items as [|v items IHitems]; constructor; [apply IH | exact IHitems].
  - apply HDict. induction entries as [|[k v] entries IHentries]; constructor;
      [apply IH | exact IHentries].
Qed.

(** What has been through JSON once goes through it again unchanged. *)
Lemma json_roundtrip_idempotent : forall v,
  json_roundtrip (json_roundtrip v) = json_roundtrip v.
Proof.
  induction v as [| n | x | s | items IH | items IH | entries IH] using value_nested_ind;
    cbn; try reflexivity.
  - f_equal. rewrite map_map. apply map_ext_in. intros v Hin.
    rewrite Forall_forall in IH. apply IH. exact Hin.
  - f_equal. rewrite map_map. apply map_ext_in. intros v Hin.
    rewrite Forall_forall in IH. apply IH. exact Hin.
  - f_equal. rewrite map_map. apply map_ext_in. intros [k v] Hin.
    rewrite Forall_forall in IH. f_equal. apply (IH (k, v)). exact Hin.
Qed.

Lemma example_validated_defined :
  pose_defined example_validated
    (or_empty (WorldFrameCalibrator.camera_position_world example_validated))
    (or_empty (WorldFrameCalibrator.rotation_matrix example_validated))
    (or_empty (WorldFrameCalibrator.translation_vector example_validated))
    (or_empty (WorldFrameCalibrator.T_world_camera example_validated)).
Proof. unfold pose_defined. repeat split; reflexivity. Qed.

(** A point of the history is read back from JSON as a point of the
    history. *)
Lemma floats_roundtrip : forall xs,
  json_roundtrip (WorldFrameCalibrator.floats xs) = WorldFrameCalibrator.floats xs.
Proof.
  intros xs. unfold WorldFrameCalibrator.floats. cbn [json_roundtrip].
  rewrite map_map. reflexivity.
Qed.

Lemma point_ok_roundtrip : forall p, point_ok p -> point_ok (json_roundtrip p).
Proof.
  intros p (predicted & x & y & z & e & Hp & Ht & He & Hpos & Hd & Hl).
  exists predicted, x, y, z, e.
  rewrite !getitem_roundtrip, Hp, He. cbn [Py.bind]. rewrite floats_roundtrip.
  split; [reflexivity|]. split.
  { right. destruct Ht as [-> | ->]; reflexivity. }
  split; [reflexivity|]. split; [exact Hpos|]. split; [exact Hd | exact Hl].
Qed.

Lemma validate_keeps_history : forall self,
  WorldFrameCalibrator.calibration_points (fst (WorldFrameCalibrator.validate_calibration self))
  = WorldFrameCalibrator.calibration_points self.
Proof.
  intros self. unfold WorldFrameCalibrator.validate_calibration.
  destruct (Nat.eqb _ 0); [reflexivity|].
  destruct (Py.bind _ _); reflexivity.
Qed.

(** C9. Every point that [add_calibration_point] appends has an error that
    is not negative and is the norm of the difference between the predicted
    and the true world point, both in centimetres, that is their Euclidean
    distance; the points recorded before stay as they were, in place, so
    the property holds of the whole history after every call, on a
    calibrator whose history was reloaded from a saved record as well. A
    call appends at most one point: a call that returns has appended it, a
    call that raises has either left the calibrator untouched or appended
    the point and raised [IndexError] while printing a prediction of fewer
    than three coordinates. A call on a calibrator that is set up returns.
    Defining the pose, setting up the camera and validating do not touch
    the history, and loading a saved record keeps the property. *)
Theorem calibration_error_invariant : forall self pixel depth x y z label,
  history_ok self ->
  let r := WorldFrameCalibrator.add_calibration_point self pixel depth (x, y, z) label in
  history_ok (fst r) /\
  (exists added,
     WorldFrameCalibrator.calibration_points (fst r)
       = WorldFrameCalibrator.calibration_points self ++ added /\
     (length added <= 1)%nat /\
     Forall point_ok added) /\
  (forall error, snd r = Returned error ->
     0 <= error /\
     exists p,
       WorldFrameCalibrator.calibration_points (fst r)
         = WorldFrameCalibrator.calibration_points self ++ [p] /\
       getitem p "error_cm" = Returned (VFloat error) /\
       point_ok p) /\
  (forall e, snd r = Raised e ->
     fst r = self \/
     exists p msg,
       e = IndexError msg /\
       fst r = WorldFrameCalibrator.with_calibration_points self
                 (WorldFrameCalibrator.calibration_points self ++ [p]) /\
       point_ok p) /\
  (forall intr scale T, ready self intr scale T -> (3 <= length T)%nat ->
     exists predicted,
       length predicted = 3%nat /\
       WorldFrameCalibrator.camera_to_world_coordinates self
         (Rs.rs2_deproject_pixel_to_point intr (IZR (fst pixel)) (IZR (snd pixel)) depth) true
         = Returned predicted /\
       snd r = Returned (euclidean_distance predicted [x; y; z])) /\
  WorldFrameCalibrator.calibration_points (fst (WorldFrameCalibrator.validate_calibration self))
    = WorldFrameCalibrator.calibration_points self /\
  (forall scale intr,
     WorldFrameCalibrator.calibration_points (WorldFrameCalibrator.setup_camera self scale intr)
     = WorldFrameCalibrator.calibration_points self) /\
  (forall h cx cy tilt pan roll,
     WorldFrameCalibrator.calibration_points
       (WorldFrameCalibrator.define_simple_overhead_calibration self h cx cy tilt pan roll)
     = WorldFrameCalibrator.calibration_points self) /\
  (forall self0 now p rm tv T,
     pose_defined self p rm tv T ->
     exists data self' out,
       WorldFrameCalibrator.save_calibration self now = Returned data /\
       WorldFrameCalibrator.load_calibration self0 (json_roundtrip data) = Some (self', out) /\
       WorldFrameCalibrator.calibration_points self'
         = map json_roundtrip (WorldFrameCalibrator.calibration_points self) /\
       history_ok self').
Proof.
  intros self pixel depth x y z label Hok r.
  assert (Hload : forall self0 now p rm tv T,
     pose_defined self p rm tv T ->
     exists data self' out,
       WorldFrameCalibrator.save_calibration self now = Returned data /\
       WorldFrameCalibrator.load_calibration self0 (json_roundtrip data) = Some (self', out) /\
       WorldFrameCalibrator.calibration_points self'
         = map json_roundtrip (WorldFrameCalibrator.calibration_points self) /\
       history_ok self').
  { intros self0 now p rm tv T Hpose.
    pose proof Hpose as (Hp & (Hr & _) & (Htv & _) & (HT & _)).
    pose proof (save_defined self now p rm tv T Hp Hr Htv HT) as Hsave.
    pose proof (load_saved self self0 now p rm tv T _ Hpose Hsave) as Hl.
    eexists. eexists. eexists. split; [exact Hsave|]. split; [exact Hl|].
    split; [reflexivity|].
    unfold history_ok. cbn [WorldFrameCalibrator.calibration_points].
    apply Forall_map. revert Hok. unfold history_ok. apply Forall_impl.
    exact point_ok_roundtrip. }
  assert (Hready : forall e, snd r = Raised e ->
     forall intr scale T, ready self intr scale T -> (3 <= length T)%nat -> False).
  { intros e He intr scale T Hr Hlen.
    destruct (add_calibration_point_ready self intr scale T pixel depth x y z label Hr Hlen)
      as (predicted & _ & _ & Hadd).
    subst r. rewrite Hadd in He. discriminate He. }
  destruct (add_calibration_point_cases self pixel depth x y z label)
    as [[e He] | (predicted & difference & Hd & Hadd)].
  - subst r. rewrite He in *. cbn [fst snd] in *.
    split; [exact Hok|].
    split; [exists []; rewrite app_nil_r; repeat split; [cbn; lia | constructor]|].
    split; [discriminate|].
    split; [intros e' _; left; reflexivity|].
    split; [intros intr scale T Hr Hlen; exfalso; exact (Hready e eq_refl _ _ _ Hr Hlen)|].
    split; [apply validate_keeps_history|].
    split; [reflexivity|]. split; [reflexivity | exact Hload].
  - subst r. rewrite Hadd in *. cbn [fst snd] in *.
    pose proof (calibration_point_ok label pixel depth x y z predicted difference Hd) as Hp.
    set (p := WorldFrameCalibrator.calibration_point label pixel depth (x, y, z) predicted
                (Np.norm difference)) in *.
    assert (Herr : getitem p "error_cm" = Returned (VFloat (Np.norm difference)))
      by (subst p; destruct pixel; reflexivity).
    split.
    { unfold history_ok. cbn [WorldFrameCalibrator.calibration_points
        WorldFrameCalibrator.with_calibration_points].
      apply Forall_app. split; [exact Hok | constructor; [exact Hp | constructor]]. }
    split.
    { exists [p]. split; [reflexivity|]. split; [cbn; lia|].
      constructor; [exact Hp | constructor]. }
    destruct (print_predicted_cases predicted) as [[Hlen Hprint] | [Hlen [msg Hprint]]];
      rewrite Hprint in *; cbn [Py.bind] in *.
    + split.
      { intros error He. injection He as <-. split; [apply sqrt_pos|].
        exists p. split; [reflexivity|]. split; [exact Herr | exact Hp]. }
      split; [discriminate|].
      split.
      { intros intr scale T Hr Hl.
        destruct (add_calibration_point_ready self intr scale T pixel depth x y z label Hr Hl)
          as (predicted' & Hl' & Hw & Hadd').
        exists predicted'. split; [exact Hl'|]. split; [exact Hw|].
        rewrite Hadd in Hadd'. injection Hadd' as _ ->. reflexivity. }
      split; [apply validate_keeps_history|].
      split; [reflexivity|]. split; [reflexivity | exact Hload].
    + split; [discriminate|].
      split.
      { intros e He. injection He as <-. right. exists p, msg.
        split; [reflexivity|]. split; [reflexivity | exact Hp]. }
      split; [intros intr scale T Hr Hl; exfalso;
              exact (Hready (IndexError msg) eq_refl _ _ _ Hr Hl)|].
      split; [apply validate_keeps_history|].
      split; [reflexivity|]. split; [reflexivity | exact Hload].
Qed.

Lemma calibration_error_invariant_witness :
  history_ok example_one_point /\
  exists data reloaded out,
    WorldFrameCalibrator.save_calibration example_validated "t" = Returned data /\
    WorldFrameCalibrator.load_calibration
      (WorldFrameCalibrator.setup_camera WorldFrameCalibrator.init (1 / 1000)
         example_intrinsics) (json_roundtrip data) = Some (reloaded, out) /\
    history_ok reloaded /\
    history_ok (fst (WorldFrameCalibrator.add_calibration_point reloaded
                       (700, 400)%Z 2 (5, -5, 20) "corner")).
Proof.
  assert (H0 : history_ok example_calibrator) by (unfold history_ok; constructor).
  assert (H1 : history_ok example_one_point)
    by (apply (calibration_error_invariant example_calibrator (640, 360)%Z 2 0 0 20
                 "centre" H0)).
  split; [exact H1|].
  assert (H2 : history_ok example_validated).
  { unfold history_ok, example_validated.
    destruct (calibration_error_invariant example_one_point (0, 0)%Z 0 0 0 0 "" H1)
      as (_ & _ & _ & _ & _ & -> & _).
    exact H1. }
  destruct (calibration_error_invariant example_validated (0, 0)%Z 0 0 0 0 "" H2)
    as (_ & _ & _ & _ & _ & _ & _ & _ & Hload).
  destruct (Hload (WorldFrameCalibrator.setup_camera WorldFrameCalibrator.init (1 / 1000)
                     example_intrinsics) "t"%string _ _ _ _ example_validated_defined)
    as (data & reloaded & out & Hs & Hl & _ & H3).
  exists data, reloaded, out.
  split; [exact Hs|]. split; [exact Hl|]. split; [exact H3|].
  apply (calibration_error_invariant reloaded (700, 400)%Z 2 5 (-5) 20 "corner" H3).
Defined.

(** C5, as the code has it. Once a pose is defined, saving succeeds, and
    loading the saved record into any calibrator gives back exactly the
    saved height, position, rotation matrix, translation vector, transform
    matrix, stored mean error and depth scale, and the calibration points
    in their order with the same keys and the same numbers and strings
    (tuples are read back as lists; a history that holds no tuple comes
    back identical). The intrinsics snapshot is written but not read: the
    calibrator keeps the intrinsics it had before the load. The record has
    the ten entries listed and no other: neither the three angles nor the
    metrics beyond the mean error are persisted. *)
Theorem load_after_save : forall self self0 now p r tv T,
  pose_defined self p r tv T ->
  exists data self' out,
    WorldFrameCalibrator.save_calibration self now = Returned data /\
    (exists entries,
       data = VDict entries /\
       map fst entries
       = ["timestamp"; "camera_height_cm"; "camera_position_world"; "rotation_matrix";
          "translation_vector"; "transformation_matrix"; "calibration_error_cm";
          "calibration_points"; "camera_intrinsics"; "depth_scale"]%string) /\
    WorldFrameCalibrator.load_calibration self0 (json_roundtrip data) = Some (self', out) /\
    (forall e, WorldFrameCalibrator.calibration_error_cm self = Some e -> out = Returned tt) /\
    WorldFrameCalibrator.camera_height_cm self' = WorldFrameCalibrator.camera_height_cm self /\
    WorldFrameCalibrator.camera_position_world self'
      = WorldFrameCalibrator.camera_position_world self /\
    WorldFrameCalibrator.rotation_matrix self' = WorldFrameCalibrator.rotation_matrix self /\
    WorldFrameCalibrator.translation_vector self'
      = WorldFrameCalibrator.translation_vector self /\
    WorldFrameCalibrator.T_world_camera self' = WorldFrameCalibrator.T_world_camera self /\
    WorldFrameCalibrator.calibration_error_cm self'
      = WorldFrameCalibrator.calibration_error_cm self /\
    WorldFrameCalibrator.depth_scale self' = WorldFrameCalibrator.depth_scale self /\
    WorldFrameCalibrator.calibration_points self'
      = map json_roundtrip (WorldFrameCalibrator.calibration_points self) /\
    length (WorldFrameCalibrator.calibration_points self')
      = length (WorldFrameCalibrator.calibration_points self) /\
    (forall i k,
       getitem (nth i (WorldFrameCalibrator.calibration_points self') VNone) k
       = (v <- getitem (nth i (WorldFrameCalibrator.calibration_points self) VNone) k ;;
          Returned (json_roundtrip v))) /\
    ((forall pt, In pt (WorldFrameCalibrator.calibration_points self) ->
                 json_roundtrip pt = pt) ->
     WorldFrameCalibrator.calibration_points self'
       = WorldFrameCalibrator.calibration_points self) /\
    WorldFrameCalibrator.camera_intrinsics self'
      = WorldFrameCalibrator.camera_intrinsics self0.
Proof.
  intros self self0 now p r tv T Hpose.
  pose proof Hpose as (Hp & (Hr & _) & (Htv & _) & (HT & _)).
  pose proof (save_defined self now p r tv T Hp Hr Htv HT) as Hsave.
  eexists. eexists. eexists.
  split; [exact Hsave|].
  split; [eexists; split; reflexivity|].
  split; [apply (load_saved self self0 now p r tv T _ Hpose Hsave)|].
  cbn [WorldFrameCalibrator.camera_height_cm WorldFrameCalibrator.camera_position_world
       WorldFrameCalibrator.rotation_matrix WorldFrameCalibrator.translation_vector
       WorldFrameCalibrator.T_world_camera WorldFrameCalibrator.calibration_error_cm
       WorldFrameCalibrator.depth_scale WorldFrameCalibrator.calibration_points
       WorldFrameCalibrator.camera_intrinsics].
  rewrite Hp, Hr, Htv, HT.
  split; [intros e He; rewrite He; reflexivity|].
  repeat (split; [reflexivity|]).
  split; [apply length_map|].
  split.
  { intros i k. change VNone with (json_roundtrip VNone) at 1.
    rewrite map_nth. apply getitem_roundtrip. }
  split; [|reflexivity].
  intros Hid. rewrite <- (map_id (WorldFrameCalibrator.calibration_points self)) at 2.
  apply map_ext_in. exact Hid.
Qed.

Lemma load_after_save_witness :
  pose_defined example_validated
    (or_empty (WorldFrameCalibrator.camera_position_world example_validated))
    (or_empty (WorldFrameCalibrator.rotation_matrix example_validated))
    (or_empty (WorldFrameCalibrator.translation_vector example_validated))
    (or_empty (WorldFrameCalibrator.T_world_camera example_validated)) /\
  exists data self',
    WorldFrameCalibrator.save_calibration example_validated "2026-02-03T10:00:00"
      = Returned data /\
    WorldFrameCalibrator.load_calibration WorldFrameCalibrator.init (json_roundtrip data)
      = Some (self', Returned tt) /\
    WorldFrameCalibrator.T_world_camera self'
      = WorldFrameCalibrator.T_world_camera example_validated /\
    WorldFrameCalibrator.calibration_error_cm self'
      = WorldFrameCalibrator.calibration_error_cm example_validated /\
    length (WorldFrameCalibrator.calibration_points self') = 1%nat.
Proof.
  pose proof example_validated_defined as Hpose.
  split; [exact Hpose|].
  destruct (load_after_save example_validated WorldFrameCalibrator.init "2026-02-03T10:00:00"
              _ _ _ _ Hpose)
    as (data & self' & out & Hs & _ & Hl & Hout & _ & _ & _ & _ & HT & He & _ & _ & Hn & _).
  exists data, self'. split; [exact Hs|].
  split; [rewrite <- (Hout _ eq_refl); exact Hl|].
  split; [exact HT|]. split; [exact He|]. rewrite Hn. reflexivity.
Defined.

(** C5 as stated fails: a calibrator with its camera set up, a pose, one
    validation point and a validated error is saved and loaded into a fresh
    calibrator; the load succeeds and the result is not the original, its
    intrinsics are missing. *)
Lemma load_save_not_identity :
  exists data self',
    WorldFrameCalibrator.save_calibration example_validated "2026-02-03T10:00:00"
      = Returned data /\
    WorldFrameCalibrator.load_calibration WorldFrameCalibrator.init (json_roundtrip data)
      = Some (self', Returned tt) /\
    WorldFrameCalibrator.camera_intrinsics example_validated = Some example_intrinsics /\
    WorldFrameCalibrator.camera_intrinsics self' = None /\
    self' <> example_validated.
Proof.
  pose proof example_validated_defined as Hpose.
  pose proof Hpose as (Hp & (Hr & _) & (Htv & _) & (HT & _)).
  pose proof (save_defined example_validated "2026-02-03T10:00:00" _ _ _ _ Hp Hr Htv HT)
    as Hsave.
  pose proof (load_saved example_validated WorldFrameCalibrator.init "2026-02-03T10:00:00"
                _ _ _ _ _ Hpose Hsave) as Hload.
  eexists. eexists. split; [exact Hsave|]. split; [exact Hload|].
  split; [reflexivity|]. split; [reflexivity|].
  intros Heq. apply (f_equal WorldFrameCalibrator.camera_intrinsics) in Heq.
  discriminate Heq.
Qed.



(** * Further properties of the code *)

(** ** The transform is a rigid motion *)

Lemma plane_rotation : forall c s x y, c * c + s * s = 1 ->
  (c * x - s * y) * (c * x - s * y) + (s * x + c * y) * (s * x + c * y) = x * x + y * y.
Proof.
  intros c s x y H.
  replace ((c * x - s * y) * (c * x - s * y) + (s * x + c * y) * (s * x + c * y))
    with ((c * c + s * s) * (x * x + y * y)) by ring.
  rewrite H. ring.
Qed.

Lemma cos_sin_unit : forall a, cos a * cos a + sin a * sin a = 1.
Proof. intros a. pose proof (sin2_cos2 a) as H. unfold Rsqr in H. lra. Qed.

(** The rotation block keeps the length of every vector. *)
Lemma euler_flip_isometry : forall tilt pan roll a b c,
  Np.sum (Np.square (map (fun row => Np.dot row [a; b; c]) (euler_flip tilt pan roll)))
  = a * a + b * b + c * c.
Proof.
  intros tilt pan roll a b c. unfold euler_flip, Np.dot, Np.square, Np.sum. cbn.
  pose proof (cos_sin_unit tilt) as Hx. pose proof (cos_sin_unit pan) as Hy.
  pose proof (cos_sin_unit roll) as Hz.
  set (cx := cos tilt) in *. set (sx := sin tilt) in *.
  set (cy := cos pan) in *. set (sy := sin pan) in *.
  set (cz := cos roll) in *. set (sz := sin roll) in *.
  set (y2 := cx * (- b) - sx * (- c)).
  set (z2 := sx * (- b) + cx * (- c)).
  set (x3 := cy * a - (- sy) * z2).
  set (z3 := (- sy) * a + cy * z2).
  assert (H3 : y2 * y2 + z2 * z2 = b * b + c * c).
  { subst y2 z2. rewrite (plane_rotation cx sx (- b) (- c) Hx). ring. }
  assert (H2 : x3 * x3 + z3 * z3 = a * a + z2 * z2).
  { subst x3 z3. apply plane_rotation. lra. }
  assert (H1 : (cz * x3 - sz * y2) * (cz * x3 - sz * y2)
               + (sz * x3 + cz * y2) * (sz * x3 + cz * y2) = x3 * x3 + y2 * y2)
    by (apply plane_rotation; exact Hz).
  transitivity ((cz * x3 - sz * y2) * (cz * x3 - sz * y2)
                + (sz * x3 + cz * y2) * (sz * x3 + cz * y2) + z3 * z3).
  - subst x3 z3 y2 z2. ring.
  - lra.
Qed.

Lemma scaled_distance : forall w w' k, 0 <= k ->
  euclidean_distance (Np.scale w k) (Np.scale w' k) = k * euclidean_distance w w'.
Proof.
  intros w w' k Hk. unfold euclidean_distance.
  assert (Hs : forall v v',
    Np.sum (map (fun p => (fst p - snd p) * (fst p - snd p))
                (combine (Np.scale v k) (Np.scale v' k)))
    = k * k * Np.sum (map (fun p => (fst p - snd p) * (fst p - snd p)) (combine v v'))).
  { unfold Np.sum, Np.scale. induction v as [|x v IH]; intros [|x' v']; cbn; try ring.
    rewrite IH. ring. }
  rewrite Hs. rewrite sqrt_mult.
  - rewrite sqrt_square by exact Hk. reflexivity.
  - apply Rmult_le_pos; exact Hk.
  - rewrite <- (map_map (fun p => fst p - snd p) (fun d => d * d)).
    apply (sum_square_nonneg (fun d => d)).
Qed.

Lemma world_distance_metres : forall self h x y tilt pan roll a b c a' b' c',
  exists w w',
    WorldFrameCalibrator.camera_to_world_coordinates
      (WorldFrameCalibrator.define_simple_overhead_calibration self h x y tilt pan roll)
      [a; b; c] false = Returned w /\
    WorldFrameCalibrator.camera_to_world_coordinates
      (WorldFrameCalibrator.define_simple_overhead_calibration self h x y tilt pan roll)
      [a'; b'; c'] false = Returned w' /\
    length w = 3%nat /\ length w' = 3%nat /\
    euclidean_distance w w' = euclidean_distance [a; b; c] [a'; b'; c'].
Proof.
  intros. rewrite !camera_to_world_define. eexists. eexists.
  split; [reflexivity|]. split; [reflexivity|].
  split; [reflexivity|]. split; [reflexivity|].
  unfold euclidean_distance. f_equal.
  pose proof (euler_flip_isometry (Np.radians tilt) (Np.radians pan) (Np.radians roll)
                (a - a') (b - b') (c - c')) as H.
  unfold euler_flip, Np.dot, Np.square, Np.sum in *. cbn in *.
  etransitivity; [|etransitivity; [exact H|]]; ring.
Qed.

(** X1. The transform that [define_simple_overhead_calibration] builds is a
    rigid motion: for every pose, the world images of two camera-frame
    points are as far apart as the points are, in metres, and a hundred
    times that number in centimetres. *)
Theorem transform_is_rigid : forall self h x y tilt pan roll a b c a' b' c',
  let st := WorldFrameCalibrator.define_simple_overhead_calibration
              self h x y tilt pan roll in
  exists w w' wc wc',
    WorldFrameCalibrator.camera_to_world_coordinates st [a; b; c] false = Returned w /\
    WorldFrameCalibrator.camera_to_world_coordinates st [a'; b'; c'] false = Returned w' /\
    WorldFrameCalibrator.camera_to_world_coordinates st [a; b; c] true = Returned wc /\
    WorldFrameCalibrator.camera_to_world_coordinates st [a'; b'; c'] true = Returned wc' /\
    euclidean_distance w w' = euclidean_distance [a; b; c] [a'; b'; c'] /\
    euclidean_distance wc wc' = 100 * euclidean_distance [a; b; c] [a'; b'; c'].
Proof.
  intros. subst st.
  destruct (world_distance_metres self h x y tilt pan roll a b c a' b' c')
    as (w & w' & Hw & Hw' & _ & _ & Hd).
  exists w, w', (Np.scale w 100), (Np.scale w' 100).
  split; [exact Hw|]. split; [exact Hw'|].
  rewrite camera_to_world_define in Hw. rewrite camera_to_world_define in Hw'.
  injection Hw as <-. injection Hw' as <-.
  split; [apply camera_to_world_define|]. split; [apply camera_to_world_define|].
  split; [exact Hd|].
  rewrite scaled_distance by lra. rewrite Hd. reflexivity.
Qed.

(** X2. [CoordinateTransformer.camera_to_world_coords] is a rigid motion
    too: whatever the height and the three angles, two camera-frame points
    and their world images are the same distance apart. *)
Theorem transformer_is_rigid : forall height pitch roll yaw a b c a' b' c',
  let tr := CoordinateTransformer.init height pitch roll yaw in
  exists w w',
    CoordinateTransformer.camera_to_world_coords tr [a; b; c] = Returned w /\
    CoordinateTransformer.camera_to_world_coords tr [a'; b'; c'] = Returned w' /\
    euclidean_distance w w' = euclidean_distance [a; b; c] [a'; b'; c'].
Proof.
  intros. subst tr.
  destruct (world_distance_metres WorldFrameCalibrator.init (100 * height) 0 0
              pitch yaw roll a b c a' b' c') as (w & w' & Hw & Hw' & _ & _ & Hd).
  rewrite transforms_agree in Hw. rewrite transforms_agree in Hw'.
  exists w, w'. split; [exact Hw|]. split; [exact Hw'|]. exact Hd.
Qed.

(** X3. Once a pose is defined, [camera_to_world_coordinates] returns a
    world point exactly for the camera-frame points with three
    coordinates, in either unit, and the point it returns has three
    coordinates; any other point raises. *)
Theorem camera_to_world_returns_iff : forall self h x y tilt pan roll p return_cm,
  let st := WorldFrameCalibrator.define_simple_overhead_calibration
              self h x y tilt pan roll in
  ((exists w, WorldFrameCalibrator.camera_to_world_coordinates st p return_cm = Returned w)
   <-> length p = 3%nat) /\
  (forall w, WorldFrameCalibrator.camera_to_world_coordinates st p return_cm = Returned w ->
             length w = 3%nat) /\
  (length p <> 3%nat ->
   exists e, WorldFrameCalibrator.camera_to_world_coordinates st p return_cm = Raised e).
Proof.
  intros. subst st.
  assert (Hcases :
    (length p = 3%nat /\
     exists w, length w = 3%nat /\
       WorldFrameCalibrator.camera_to_world_coordinates
         (WorldFrameCalibrator.define_simple_overhead_calibration self h x y tilt pan roll)
         p return_cm = Returned w) \/
    (length p <> 3%nat /\
     exists e,
       WorldFrameCalibrator.camera_to_world_coordinates
         (WorldFrameCalibrator.define_simple_overhead_calibration self h x y tilt pan roll)
         p return_cm = Raised e)).
  { destruct p as [|a [|b [|c [|d p]]]].
    1-3, 5: right; split; [cbn; lia|];
      unfold WorldFrameCalibrator.camera_to_world_coordinates;
      rewrite T_world_camera_define; unfold euler_flip, Np.matvec; cbn;
      try (rewrite length_app, Nat.add_1_r); eexists; reflexivity.
    left. split; [reflexivity|]. rewrite camera_to_world_define.
    eexists. split; [|reflexivity]. destruct return_cm; reflexivity. }
  destruct Hcases as [(Hl & w & Hw & Heq) | (Hl & e & Heq)]; rewrite Heq.
  - split; [split; [intros _; exact Hl | intros _; exists w; reflexivity]|].
    split; [intros w' H; injection H as <-; exact Hw | intros H; contradiction].
  - split; [split; [intros [w H]; discriminate H | intros H; contradiction]|].
    split; [intros w H; discriminate H | intros _; exists e; reflexivity].
Qed.

Lemma camera_to_world_returns_iff_witness :
  length [0; 0; 2] = 3%nat /\
  (exists w, WorldFrameCalibrator.camera_to_world_coordinates example_calibrator
               [0; 0; 2] true = Returned w) /\
  length [0; 2] <> 3%nat /\
  (exists e, WorldFrameCalibrator.camera_to_world_coordinates example_calibrator
               [0; 2] true = Raised e).
Proof.
  pose proof (camera_to_world_returns_iff
                (WorldFrameCalibrator.setup_camera WorldFrameCalibrator.init (1 / 1000)
                   example_intrinsics) 220 0 0 0 0 0 [0; 0; 2] true) as (Hiff & _ & _).
  pose proof (camera_to_world_returns_iff
                (WorldFrameCalibrator.setup_camera WorldFrameCalibrator.init (1 / 1000)
                   example_intrinsics) 220 0 0 0 0 0 [0; 2] true) as (_ & _ & Hraise).
  split; [reflexivity|]. split; [apply Hiff; reflexivity|].
  assert (Hne : length [0; 2] <> 3%nat) by (cbn; lia).
  split; [exact Hne | exact (Hraise Hne)].
Defined.

(** ** More on the validation statistics *)

Lemma sum_deviation : forall xs m,
  Np.sum (map (fun e => (e - m) * (e - m)) xs)
  = Np.sum (map (fun e => e * e) xs) - 2 * m * Np.sum xs + INR (length xs) * (m * m).
Proof.
  unfold Np.sum. induction xs as [|x xs IH]; intros m.
  - cbn. ring.
  - cbn [map fold_right length]. rewrite IH, S_INR. ring.
Qed.

Lemma sum_lower_bound : forall xs lo,
  Forall (fun e => lo <= e) xs -> INR (length xs) * lo <= Np.sum xs.
Proof.
  unfold Np.sum. induction 1 as [|x xs Hx _ IH].
  - cbn. lra.
  - cbn [fold_right length]. rewrite S_INR. lra.
Qed.

Lemma sum_upper_bound : forall xs hi,
  Forall (fun e => e <= hi) xs -> Np.sum xs <= INR (length xs) * hi.
Proof.
  unfold Np.sum. induction 1 as [|x xs Hx _ IH].
  - cbn. lra.
  - cbn [fold_right length]. rewrite S_INR. lra.
Qed.

(** X4. The metrics [validate_calibration] returns are consistent with one
    another, whatever the errors: the mean lies between the minimum and the
    maximum, the squared RMSE is the squared mean plus the squared standard
    deviation, and so neither the standard deviation nor the absolute mean
    exceeds the RMSE. *)
Theorem validate_metrics_consistent : forall self errors,
  errors <> [] ->
  Forall2 (fun pt e => exists v, getitem pt "error_cm" = Returned v /\
                                 WorldFrameCalibrator.as_float v = Some e)
          (WorldFrameCalibrator.calibration_points self) errors ->
  exists m,
    snd (WorldFrameCalibrator.validate_calibration self) = Returned (Some m) /\
    WorldFrameCalibrator.min_error_cm m <= WorldFrameCalibrator.mean_error_cm m
      <= WorldFrameCalibrator.max_error_cm m /\
    WorldFrameCalibrator.rmse_cm m * WorldFrameCalibrator.rmse_cm m
      = WorldFrameCalibrator.mean_error_cm m * WorldFrameCalibrator.mean_error_cm m
        + WorldFrameCalibrator.std_error_cm m * WorldFrameCalibrator.std_error_cm m /\
    WorldFrameCalibrator.std_error_cm m <= WorldFrameCalibrator.rmse_cm m /\
    Rabs (WorldFrameCalibrator.mean_error_cm m) <= WorldFrameCalibrator.rmse_cm m.
Proof.
  intros self errors Hne H.
  rewrite (validate_nonempty self errors Hne H). eexists. split; [reflexivity|].
  cbn [WorldFrameCalibrator.mean_error_cm WorldFrameCalibrator.std_error_cm
       WorldFrameCalibrator.min_error_cm WorldFrameCalibrator.max_error_cm
       WorldFrameCalibrator.rmse_cm].
  pose proof (INR_length_pos errors Hne) as Hn.
  destruct (amin_spec errors Hne) as [_ Hmin].
  destruct (amax_spec errors Hne) as [_ Hmax].
  apply sum_lower_bound in Hmin. apply sum_upper_bound in Hmax.
  destruct (sqrt_mean_square (fun e => e - Np.mean errors) errors Hne) as [Hs0 Hs].
  destruct (sqrt_mean_square (fun e => e) errors Hne) as [Hr0 Hr].
  fold (Np.std errors) in Hs0, Hs. unfold Np.square.
  set (s := Np.std errors) in *.
  set (r := sqrt (Np.mean (map (fun x => x * x) errors))) in *.
  rewrite sum_deviation in Hs.
  assert (Hm : Np.mean errors * INR (length errors) = Np.sum errors)
    by (unfold Np.mean; field; lra).
  set (m := Np.mean errors) in *. set (n := INR (length errors)) in *.
  set (S1 := Np.sum errors) in *. set (S2 := Np.sum (map (fun e => e * e) errors)) in *.
  assert (Hid : r * r = m * m + s * s).
  { apply (Rmult_eq_reg_r n); [|lra]. rewrite Rmult_plus_distr_r.
    rewrite Hr, Hs, <- Hm. ring. }
  split.
  { split.
    - apply (Rmult_le_reg_l n); [exact Hn|]. rewrite (Rmult_comm n m), Hm. exact Hmin.
    - apply (Rmult_le_reg_l n); [exact Hn|]. rewrite (Rmult_comm n m), Hm. exact Hmax. }
  split; [exact Hid|].
  split.
  - destruct (Rle_or_lt s r) as [Hle | Hlt]; [exact Hle|]. nra.
  - unfold Rabs. destruct (Rcase_abs m); nra.
Qed.

Lemma validate_metrics_consistent_witness :
  [1; 2; 3] <> [] /\
  exists m,
    snd (WorldFrameCalibrator.validate_calibration example_three_points) = Returned (Some m) /\
    WorldFrameCalibrator.min_error_cm m <= WorldFrameCalibrator.mean_error_cm m
      <= WorldFrameCalibrator.max_error_cm m /\
    WorldFrameCalibrator.std_error_cm m <= WorldFrameCalibrator.rmse_cm m.
Proof.
  assert (Hne : [1; 2; 3] <> []) by discriminate.
  assert (Hh : Forall2 (fun pt e => exists v, getitem pt "error_cm" = Returned v /\
                                              WorldFrameCalibrator.as_float v = Some e)
                       (WorldFrameCalibrator.calibration_points example_three_points)
                       [1; 2; 3]).
  { repeat constructor; eexists; split; reflexivity. }
  split; [exact Hne|].
  destruct (validate_metrics_consistent example_three_points [1; 2; 3] Hne Hh)
    as (m & Hm & Hb & _ & Hs & _).
  exists m. split; [exact Hm|]. split; [exact Hb | exact Hs].
Defined.

(** X5. Validating again changes nothing: a second [validate_calibration]
    right after the first returns the same result and leaves the same
    calibrator, whether the first returned metrics, returned [None] or
    raised. *)
Theorem validate_twice : forall self,
  WorldFrameCalibrator.validate_calibration
    (fst (WorldFrameCalibrator.validate_calibration self))
  = WorldFrameCalibrator.validate_calibration self.
Proof.
  intros self. unfold WorldFrameCalibrator.validate_calibration.
  destruct (Nat.eqb (length (WorldFrameCalibrator.calibration_points self)) 0) eqn:H0.
  - cbn [fst]. rewrite H0. reflexivity.
  - destruct (Py.bind (WorldFrameCalibrator.error_entries
                         (WorldFrameCalibrator.calibration_points self)) _) eqn:He.
    + cbn [fst WorldFrameCalibrator.calibration_points
           WorldFrameCalibrator.with_calibration_error_cm].
      rewrite H0, He. reflexivity.
    + cbn [fst]. rewrite H0, He. reflexivity.
Qed.

(** X6. The metrics depend on the history alone: defining a pose again or
    setting up the camera again neither clears the recorded points nor
    changes what [validate_calibration] returns, so points predicted under
    an earlier pose keep counting. *)
Theorem validate_ignores_pose : forall self h x y tilt pan roll scale intr,
  snd (WorldFrameCalibrator.validate_calibration
         (WorldFrameCalibrator.define_simple_overhead_calibration self h x y tilt pan roll))
  = snd (WorldFrameCalibrator.validate_calibration self) /\
  snd (WorldFrameCalibrator.validate_calibration
         (WorldFrameCalibrator.setup_camera self scale intr))
  = snd (WorldFrameCalibrator.validate_calibration self) /\
  WorldFrameCalibrator.calibration_error_cm
    (WorldFrameCalibrator.define_simple_overhead_calibration self h x y tilt pan roll)
  = WorldFrameCalibrator.calibration_error_cm self.
Proof.
  intros. unfold WorldFrameCalibrator.validate_calibration.
  cbn [WorldFrameCalibrator.calibration_points
       WorldFrameCalibrator.define_simple_overhead_calibration
       WorldFrameCalibrator.setup_camera].
  repeat split;
    destruct (Nat.eqb (length (WorldFrameCalibrator.calibration_points self)) 0);
    try reflexivity;
    destruct (Py.bind _ _); reflexivity.
Qed.

(** A history whose points before [bad] carry an error and whose point
    [bad] has no ["error_cm"] key stops the collection of the errors. *)
Lemma error_entries_missing : forall good bad rest,
  Forall (fun pt => exists v, getitem pt "error_cm" = Returned v) good ->
  assoc "error_cm" bad = None ->
  WorldFrameCalibrator.error_entries (good ++ VDict bad :: rest)
  = Raised (KeyError "error_cm").
Proof.
  intros good bad rest Hgood Hbad. induction Hgood as [|pt good [v Hv] _ IH].
  - cbn. rewrite Hbad. reflexivity.
  - cbn [app WorldFrameCalibrator.error_entries]. rewrite Hv. cbn [Py.bind].
    rewrite IH. reflexivity.
Qed.

Lemma not_sequence_is_scalar : forall v,
  is_sequence v = false ->
  WorldFrameCalibrator.array_shape v = Some [] /\ WorldFrameCalibrator.array_items v = [v].
Proof.
  intros v H. destruct v; try discriminate H; split; reflexivity.
Qed.

Lemma numbers_not_a_number : forall vs,
  Exists (fun v => WorldFrameCalibrator.as_float v = None) vs ->
  WorldFrameCalibrator.numbers vs = None.
Proof.
  induction 1 as [v vs Hv | v vs _ IH]; cbn.
  - rewrite Hv. reflexivity.
  - rewrite IH. destruct (WorldFrameCalibrator.as_float v); reflexivity.
Qed.

Lemma as_array_not_a_number : forall vs,
  Forall (fun v => is_sequence v = false) vs ->
  Exists (fun v => WorldFrameCalibrator.as_float v = None) vs ->
  WorldFrameCalibrator.as_array vs
  = Raised (TypeError "unsupported operand type(s) for +").
Proof.
  intros vs Hs Hex.
  assert (Hsc : Forall (fun v => WorldFrameCalibrator.array_shape v = Some [] /\
                                 WorldFrameCalibrator.array_items v = [v]) vs).
  { revert Hs. apply Forall_impl. exact not_sequence_is_scalar. }
  destruct (scalars_shape vs Hsc) as [[n Hn] Hi].
  unfold WorldFrameCalibrator.as_array. rewrite Hn, Hi. cbn [length Nat.ltb Nat.leb].
  rewrite (numbers_not_a_number vs Hex). reflexivity.
Qed.

Lemma error_entries_present : forall pts vs,
  Forall2 (fun pt v => getitem pt "error_cm" = Returned v) pts vs ->
  WorldFrameCalibrator.error_entries pts = Returned vs.
Proof.
  induction 1 as [|pt v pts vs Hv _ IH]; [reflexivity|].
  cbn. rewrite Hv. cbn. rewrite IH. reflexivity.
Qed.

(** An entry that is a list of numbers can be averaged: NumPy builds a
    two-dimensional array and reduces over all its elements. *)
Example validate_averages_list_entries :
  WorldFrameCalibrator.validate_calibration
    (WorldFrameCalibrator.with_calibration_points example_calibrator
       [VDict [("error_cm"%string, VList [VFloat 1; VFloat 3])]])
  = (WorldFrameCalibrator.with_calibration_error_cm
       (WorldFrameCalibrator.with_calibration_points example_calibrator
          [VDict [("error_cm"%string, VList [VFloat 1; VFloat 3])]])
       (Some (Np.mean [1; 3])),
     Returned (Some {| WorldFrameCalibrator.num_points := 1;
                       WorldFrameCalibrator.mean_error_cm := Np.mean [1; 3];
                       WorldFrameCalibrator.std_error_cm := Np.std [1; 3];
                       WorldFrameCalibrator.max_error_cm := Np.amax [1; 3];
                       WorldFrameCalibrator.min_error_cm := Np.amin [1; 3];
                       WorldFrameCalibrator.rmse_cm := sqrt (Np.mean (Np.square [1; 3])) |})).
Proof. reflexivity. Qed.

(** Entries of different lengths make no array. *)
Example validate_ragged_entries :
  snd (WorldFrameCalibrator.validate_calibration
         (WorldFrameCalibrator.with_calibration_points example_calibrator
            [VDict [("error_cm"%string, VList [VFloat 1; VFloat 3])];
             VDict [("error_cm"%string, VFloat 2)]]))
  = Raised (ValueError "setting an array element with a sequence. The requested array has an inhomogeneous shape").
Proof. reflexivity. Qed.

(** X7. A history that cannot be averaged makes [validate_calibration]
    raise and leaves the calibrator, its stored error included, as it was:
    [KeyError] when a point has no ["error_cm"] entry, [TypeError] when
    every point has one, none of them is a list or a tuple, and one of
    them is not a number. *)
Theorem validate_rejects_bad_history : forall self,
  (forall good bad rest,
     WorldFrameCalibrator.calibration_points self = good ++ VDict bad :: rest ->
     Forall (fun pt => exists v, getitem pt "error_cm" = Returned v) good ->
     assoc "error_cm" bad = None ->
     WorldFrameCalibrator.validate_calibration self = (self, Raised (KeyError "error_cm"))) /\
  (forall vs,
     Forall2 (fun pt v => getitem pt "error_cm" = Returned v)
             (WorldFrameCalibrator.calibration_points self) vs ->
     Forall (fun v => is_sequence v = false) vs ->
     Exists (fun v => WorldFrameCalibrator.as_float v = None) vs ->
     WorldFrameCalibrator.validate_calibration self
     = (self, Raised (TypeError "unsupported operand type(s) for +"))).
Proof.
  intros self. split.
  - intros good bad rest Hpts Hgood Hbad.
    unfold WorldFrameCalibrator.validate_calibration. rewrite Hpts.
    rewrite (error_entries_missing good bad rest Hgood Hbad).
    destruct good; reflexivity.
  - intros vs Hvs Hscalar Hex.
    unfold WorldFrameCalibrator.validate_calibration.
    rewrite (error_entries_present _ _ Hvs). cbn [Py.bind].
    unfold WorldFrameCalibrator.error_metrics.
    rewrite (as_array_not_a_number vs Hscalar Hex). cbn [Py.bind].
    destruct (WorldFrameCalibrator.calibration_points self) as [|pt pts]; [|reflexivity].
    inversion Hvs; subst. inversion Hex.
Qed.

Lemma validate_rejects_bad_history_witness :
  WorldFrameCalibrator.validate_calibration
    (WorldFrameCalibrator.with_calibration_points example_calibrator
       (example_history ++ [VDict [("label"%string, VStr "d")]]))
  = (WorldFrameCalibrator.with_calibration_points example_calibrator
       (example_history ++ [VDict [("label"%string, VStr "d")]]),
     Raised (KeyError "error_cm")) /\
  WorldFrameCalibrator.validate_calibration
    (WorldFrameCalibrator.with_calibration_points example_calibrator
       [VDict [("error_cm"%string, VFloat 1)]; VDict [("error_cm"%string, VNone)]])
  = (WorldFrameCalibrator.with_calibration_points example_calibrator
       [VDict [("error_cm"%string, VFloat 1)]; VDict [("error_cm"%string, VNone)]],
     Raised (TypeError "unsupported operand type(s) for +")).
Proof.
  split.
  - apply (proj1 (validate_rejects_bad_history _) example_history
             [("label"%string, VStr "d")] []).
    + reflexivity.
    + repeat constructor; eexists; reflexivity.
    + reflexivity.
  - apply (proj2 (validate_rejects_bad_history _) [VFloat 1; VNone]).
    + repeat constructor.
    + repeat constructor.
    + right. left. reflexivity.
Defined.

(** ** More on the validation history *)

Lemma sum_squares_zero : forall (ds : list R),
  Np.sum (map (fun d => d * d) ds) = 0 -> Forall (fun d => d = 0) ds.
Proof.
  unfold Np.sum. induction ds as [|d ds IH]; intros H; [constructor|].
  cbn in H. pose proof (sum_square_nonneg (fun x => x) ds) as Hs. unfold Np.sum in Hs.
  pose proof (Rle_0_sqr d) as Hd. unfold Rsqr in Hd.
  constructor; [nra | apply IH; lra].
Qed.

Lemma euclidean_distance_zero : forall a b,
  length a = length b -> (euclidean_distance a b = 0 <-> a = b).
Proof.
  intros a b Hl. unfold euclidean_distance. split.
  - intros H.
    assert (H0 : Np.sum (map (fun p => (fst p - snd p) * (fst p - snd p)) (combine a b)) = 0).
    { apply sqrt_eq_0; [|exact H].
      rewrite <- (map_map (fun p => fst p - snd p) (fun d => d * d)).
      apply (sum_square_nonneg (fun d => d)). }
    rewrite <- (map_map (fun p => fst p - snd p) (fun d => d * d)) in H0.
    apply sum_squares_zero in H0. clear H.
    revert b Hl H0. induction a as [|x a IH]; intros [|y b] Hl H0; try discriminate.
    + reflexivity.
    + cbn in H0. inversion H0 as [|? ? Hxy Hrest]; subst. cbn [fst snd] in Hxy.
      f_equal; [lra | apply IH; [injection Hl as Hl; exact Hl | exact Hrest]].
  - intros <-. clear Hl.
    replace (Np.sum (map (fun p => (fst p - snd p) * (fst p - snd p)) (combine a a))) with 0.
    + apply sqrt_0.
    + unfold Np.sum. induction a as [|x a IH]; cbn; [reflexivity|]. rewrite <- IH. ring.
Qed.

(** X8. On a calibrator that is set up, [add_calibration_point] returns the
    error 0 exactly when the true world point given is the point the
    calibrator predicts for the pixel; any other true point gives a
    positive error. *)
Theorem zero_error_iff_exact : forall self intr scale T pixel depth x y z label,
  ready self intr scale T ->
  (3 <= length T)%nat ->
  exists predicted error,
    WorldFrameCalibrator.camera_to_world_coordinates self
      (Rs.rs2_deproject_pixel_to_point intr (IZR (fst pixel)) (IZR (snd pixel)) depth) true
      = Returned predicted /\
    snd (WorldFrameCalibrator.add_calibration_point self pixel depth (x, y, z) label)
      = Returned error /\
    (error = 0 <-> predicted = [x; y; z]) /\
    (predicted <> [x; y; z] -> 0 < error).
Proof.
  intros self intr scale T pixel depth x y z label Hr Hlen.
  destruct (add_calibration_point_ready self intr scale T pixel depth x y z label Hr Hlen)
    as (predicted & Hl & Hw & Hadd).
  exists predicted, (euclidean_distance predicted [x; y; z]).
  split; [exact Hw|]. split; [rewrite Hadd; reflexivity|].
  assert (Hiff : euclidean_distance predicted [x; y; z] = 0 <-> predicted = [x; y; z])
    by (apply euclidean_distance_zero; exact Hl).
  split; [exact Hiff|].
  intros Hne.
  assert (H0 : 0 <= euclidean_distance predicted [x; y; z]) by apply sqrt_pos.
  destruct H0 as [Hlt | Heq]; [exact Hlt|].
  exfalso. apply Hne. apply Hiff. symmetry. exact Heq.
Qed.

Lemma zero_error_iff_exact_witness :
  ready example_calibrator example_intrinsics (1 / 1000) example_T /\
  (3 <= length example_T)%nat /\
  exists predicted error,
    snd (WorldFrameCalibrator.add_calibration_point example_calibrator
           (640, 360)%Z 2 (0, 0, 20) "centre") = Returned error /\
    (error = 0 <-> predicted = [0; 0; 20]).
Proof.
  assert (Hlen : (3 <= length example_T)%nat)
    by (unfold example_T, example_calibrator; rewrite T_world_camera_define; cbn; lia).
  split; [exact example_ready|]. split; [exact Hlen|].
  destruct (zero_error_iff_exact example_calibrator example_intrinsics (1 / 1000) example_T
              (640, 360)%Z 2 0 0 20 "centre" example_ready Hlen)
    as (predicted & error & _ & He & Hiff & _).
  exists predicted, error. split; [exact He | exact Hiff].
Defined.

(** ** More on the batch conversion *)

(** X9. A [subsample] that is not positive never yields a point, whatever
    the calibrator and the frame: 0 makes the conversion raise [ValueError]
    (the step of a [range]), and a negative one makes it return the empty
    list without reading a pixel. *)
Theorem batch_subsample_not_positive : forall self frame subsample max_distance_cm,
  (subsample <= 0)%Z ->
  (0 <= Rs.rows frame)%Z ->
  (subsample = 0%Z ->
   WorldFrameCalibrator.depth_image_to_world_points self frame subsample max_distance_cm
   = Raised (ValueError "range() arg 3 must not be zero")) /\
  (subsample < 0 ->
   WorldFrameCalibrator.depth_image_scan self frame subsample max_distance_cm
   = Returned {| WorldFrameCalibrator.visited := []; WorldFrameCalibrator.points := [] |} /\
   WorldFrameCalibrator.depth_image_to_world_points self frame subsample max_distance_cm
   = Returned [])%Z.
Proof.
  intros self frame s mx Hs Hrows. split.
  - intros ->. reflexivity.
  - intros Hneg.
    assert (Hscan : WorldFrameCalibrator.depth_image_scan self frame s mx
                    = Returned {| WorldFrameCalibrator.visited := [];
                                  WorldFrameCalibrator.points := [] |}).
    { unfold WorldFrameCalibrator.depth_image_scan, Py.range.
      destruct (s =? 0)%Z eqn:H0; [apply Z.eqb_eq in H0; lia|].
      destruct (0 <? s)%Z eqn:H1; [apply Z.ltb_lt in H1; lia|].
      replace (Z.to_nat (0 - Rs.rows frame)) with 0%nat by lia. reflexivity. }
    split; [exact Hscan|].
    unfold WorldFrameCalibrator.depth_image_to_world_points. rewrite Hscan. reflexivity.
Qed.

Lemma batch_subsample_not_positive_witness :
  (0 <= 0)%Z /\ (-2 <= 0)%Z /\ (0 <= Rs.rows (constant_frame 10 2000))%Z /\
  WorldFrameCalibrator.depth_image_to_world_points example_calibrator
    (constant_frame 10 2000) 0 300
  = Raised (ValueError "range() arg 3 must not be zero") /\
  WorldFrameCalibrator.depth_image_to_world_points example_calibrator
    (constant_frame 10 2000) (-2) 300
  = Returned [].
Proof.
  assert (H0 : (0 <= 0)%Z) by lia. assert (H2 : (-2 <= 0)%Z) by lia.
  assert (Hr : (0 <= Rs.rows (constant_frame 10 2000))%Z) by (cbn; lia).
  split; [exact H0|]. split; [exact H2|]. split; [exact Hr|]. split.
  - apply (batch_subsample_not_positive example_calibrator (constant_frame 10 2000) 0 300
             H0 Hr). reflexivity.
  - apply (batch_subsample_not_positive example_calibrator (constant_frame 10 2000) (-2) 300
             H2 Hr). lia.
Defined.

(** The two loops when some pixels make the body raise [e] and the others
    are passed over. *)
Lemma row_loop_first_failure : forall self frame max_distance_cm (needs : Z * Z -> bool) e v us acc,
  (forall u acc', needs (v, u) = true ->
     WorldFrameCalibrator.pixel_step self frame max_distance_cm v u acc' = Raised e) ->
  (forall u acc', needs (v, u) = false ->
     WorldFrameCalibrator.pixel_step self frame max_distance_cm v u acc'
     = Returned {| WorldFrameCalibrator.visited := WorldFrameCalibrator.visited acc' ++ [(v, u)];
                   WorldFrameCalibrator.points := WorldFrameCalibrator.points acc' |}) ->
  WorldFrameCalibrator.for_each us
    (fun u acc' => WorldFrameCalibrator.pixel_step self frame max_distance_cm v u acc') acc
  = if existsb needs (map (fun u => (v, u)) us) then Raised e
    else Returned {| WorldFrameCalibrator.visited :=
                       WorldFrameCalibrator.visited acc ++ map (fun u => (v, u)) us;
                     WorldFrameCalibrator.points := WorldFrameCalibrator.points acc |}.
Proof.
  intros self frame mx needs e v us acc Hraise Hskip. revert acc.
  induction us as [|u us IH]; intros acc; cbn [WorldFrameCalibrator.for_each map existsb].
  - rewrite app_nil_r. destruct acc; reflexivity.
  - destruct (needs (v, u)) eqn:Hn; cbn [orb].
    + rewrite (Hraise u acc Hn). reflexivity.
    + rewrite (Hskip u acc Hn). cbn [Py.bind]. rewrite IH.
      cbn [WorldFrameCalibrator.visited WorldFrameCalibrator.points].
      rewrite <- app_assoc. reflexivity.
Qed.

Lemma image_loop_first_failure : forall self frame max_distance_cm (needs : Z * Z -> bool) e us vs acc,
  (forall v u acc', needs (v, u) = true ->
     WorldFrameCalibrator.pixel_step self frame max_distance_cm v u acc' = Raised e) ->
  (forall v u acc', needs (v, u) = false ->
     WorldFrameCalibrator.pixel_step self frame max_distance_cm v u acc'
     = Returned {| WorldFrameCalibrator.visited := WorldFrameCalibrator.visited acc' ++ [(v, u)];
                   WorldFrameCalibrator.points := WorldFrameCalibrator.points acc' |}) ->
  WorldFrameCalibrator.for_each vs
    (fun v acc' =>
       WorldFrameCalibrator.for_each us
         (fun u acc'' => WorldFrameCalibrator.pixel_step self frame max_distance_cm v u acc'')
         acc')
    acc
  = if existsb needs (flat_map (fun v => map (fun u => (v, u)) us) vs) then Raised e
    else Returned {| WorldFrameCalibrator.visited :=
                       WorldFrameCalibrator.visited acc
                       ++ flat_map (fun v => map (fun u => (v, u)) us) vs;
                     WorldFrameCalibrator.points := WorldFrameCalibrator.points acc |}.
Proof.
  intros self frame mx needs e us vs acc Hraise Hskip. revert acc.
  induction vs as [|v vs IH]; intros acc; cbn [WorldFrameCalibrator.for_each flat_map].
  - cbn. rewrite app_nil_r. destruct acc; reflexivity.
  - rewrite (row_loop_first_failure self frame mx needs e v us acc
               (Hraise v) (Hskip v)).
    rewrite existsb_app.
    destruct (existsb needs (map (fun u => (v, u)) us)); cbn [orb Py.bind]; [reflexivity|].
    rewrite IH. cbn [WorldFrameCalibrator.visited WorldFrameCalibrator.points].
    rewrite <- app_assoc. reflexivity.
Qed.

Lemma scan_first_failure : forall self frame subsample max_distance_cm (needs : Z * Z -> bool) e,
  (0 < subsample)%Z ->
  (forall v u acc', needs (v, u) = true ->
     WorldFrameCalibrator.pixel_step self frame max_distance_cm v u acc' = Raised e) ->
  (forall v u acc', needs (v, u) = false ->
     WorldFrameCalibrator.pixel_step self frame max_distance_cm v u acc'
     = Returned {| WorldFrameCalibrator.visited := WorldFrameCalibrator.visited acc' ++ [(v, u)];
                   WorldFrameCalibrator.points := WorldFrameCalibrator.points acc' |}) ->
  WorldFrameCalibrator.depth_image_to_world_points self frame subsample max_distance_cm
  = if existsb needs (scan_positions (Rs.rows frame) (Rs.cols frame) subsample)
    then Raised e else Returned [].
Proof.
  intros self frame s mx needs e Hs Hraise Hskip.
  unfold WorldFrameCalibrator.depth_image_to_world_points,
    WorldFrameCalibrator.depth_image_scan.
  rewrite range_from_0 by exact Hs. cbn [Py.bind].
  rewrite (for_each_ext _ _
             (fun v acc' =>
                WorldFrameCalibrator.for_each
                  (map (fun j => (Z.of_nat j * s)%Z) (seq 0 (ceil_div (Rs.cols frame) s)))
                  (fun u acc'' => WorldFrameCalibrator.pixel_step self frame mx v u acc'')
                  acc')).
  2: { intros v acc'. rewrite range_from_0 by exact Hs. reflexivity. }
  rewrite (image_loop_first_failure self frame mx needs e _ _ _ Hraise Hskip).
  unfold scan_positions. rewrite flat_map_map_seq.
  assert (Hfm : forall vs : list nat,
    flat_map (fun x => map (fun u => ((Z.of_nat x * s)%Z, u))
                           (map (fun j => (Z.of_nat j * s)%Z)
                                (seq 0 (ceil_div (Rs.cols frame) s)))) vs
    = flat_map (fun i => map (fun j => ((Z.of_nat i * s)%Z, (Z.of_nat j * s)%Z))
                             (seq 0 (ceil_div (Rs.cols frame) s))) vs).
  { intros vs. apply flat_map_ext. intros i. rewrite map_map. reflexivity. }
  rewrite Hfm.
  destruct (existsb needs _); reflexivity.
Qed.

(** X10. The batch conversion misses a set-up step exactly when a pixel
    needs it. Without a depth scale it raises [TypeError] if a scanned
    pixel has a reading; with a depth scale but without intrinsics, or with
    both but without a pose, it raises the [ValueError] of the missing step
    if a scanned pixel has a reading within the threshold; in every other
    case it returns the empty list. *)
Theorem batch_needs_setup : forall self frame subsample max_distance_cm,
  (0 < subsample)%Z ->
  let scan := scan_positions (Rs.rows frame) (Rs.cols frame) subsample in
  let result :=
    WorldFrameCalibrator.depth_image_to_world_points self frame subsample max_distance_cm in
  (WorldFrameCalibrator.depth_scale self = None ->
   result
   = if existsb (fun vu => negb (Rs.pixel frame (fst vu) (snd vu) =? 0)%Z) scan
     then Raised (TypeError "unsupported operand type(s) for *: 'int' and 'NoneType'")
     else Returned []) /\
  (forall scale,
     WorldFrameCalibrator.depth_scale self = Some scale ->
     WorldFrameCalibrator.camera_intrinsics self = None ->
     result
     = if existsb (kept scale frame max_distance_cm) scan
       then Raised (ValueError "Camera intrinsics not set. Call setup_camera() first.")
       else Returned []) /\
  (forall scale intr,
     WorldFrameCalibrator.depth_scale self = Some scale ->
     WorldFrameCalibrator.camera_intrinsics self = Some intr ->
     WorldFrameCalibrator.T_world_camera self = None ->
     result
     = if existsb (kept scale frame max_distance_cm) scan
       then Raised (ValueError
                      "Calibration not set. Call define_simple_overhead_calibration() first.")
       else Returned []).
Proof.
  intros self frame s mx Hs scan result. subst scan result.
  split; [|split].
  - intros Hnone. apply scan_first_failure; [exact Hs| |].
    + intros v u acc' Hn. cbn [fst snd] in Hn. unfold WorldFrameCalibrator.pixel_step.
      destruct (Rs.pixel frame v u =? 0)%Z; [discriminate Hn|]. rewrite Hnone. reflexivity.
    + intros v u acc' Hn. cbn [fst snd] in Hn. unfold WorldFrameCalibrator.pixel_step.
      destruct (Rs.pixel frame v u =? 0)%Z; [reflexivity | discriminate Hn].
  - intros scale Hscale Hintr. apply scan_first_failure; [exact Hs| |].
    + intros v u acc' Hn. unfold kept, depth_cm in Hn. cbn [fst snd] in Hn.
      unfold WorldFrameCalibrator.pixel_step.
      destruct (Rs.pixel frame v u =? 0)%Z; [discriminate Hn|]. rewrite Hscale.
      destruct (Rgt_dec (IZR (Rs.pixel frame v u) * scale * 100) mx); [discriminate Hn|].
      unfold WorldFrameCalibrator.pixel_to_camera_coordinates. rewrite Hintr. reflexivity.
    + intros v u acc' Hn. unfold kept, depth_cm in Hn. cbn [fst snd] in Hn.
      unfold WorldFrameCalibrator.pixel_step.
      destruct (Rs.pixel frame v u =? 0)%Z; [reflexivity|]. rewrite Hscale.
      destruct (Rgt_dec (IZR (Rs.pixel frame v u) * scale * 100) mx);
        [reflexivity | discriminate Hn].
  - intros scale intr Hscale Hintr HT. apply scan_first_failure; [exact Hs| |].
    + intros v u acc' Hn. unfold kept, depth_cm in Hn. cbn [fst snd] in Hn.
      unfold WorldFrameCalibrator.pixel_step.
      destruct (Rs.pixel frame v u =? 0)%Z; [discriminate Hn|]. rewrite Hscale.
      destruct (Rgt_dec (IZR (Rs.pixel frame v u) * scale * 100) mx); [discriminate Hn|].
      unfold WorldFrameCalibrator.pixel_to_camera_coordinates. rewrite Hintr.
      cbn [Py.bind]. unfold WorldFrameCalibrator.camera_to_world_coordinates.
      rewrite HT. reflexivity.
    + intros v u acc' Hn. unfold kept, depth_cm in Hn. cbn [fst snd] in Hn.
      unfold WorldFrameCalibrator.pixel_step.
      destruct (Rs.pixel frame v u =? 0)%Z; [reflexivity|]. rewrite Hscale.
      destruct (Rgt_dec (IZR (Rs.pixel frame v u) * scale * 100) mx);
        [reflexivity | discriminate Hn].
Qed.

Lemma batch_needs_setup_witness :
  (0 < 2)%Z /\
  WorldFrameCalibrator.depth_scale WorldFrameCalibrator.init = None /\
  WorldFrameCalibrator.depth_image_to_world_points WorldFrameCalibrator.init
    (constant_frame 4 2000) 2 300
  = Raised (TypeError "unsupported operand type(s) for *: 'int' and 'NoneType'") /\
  WorldFrameCalibrator.depth_image_to_world_points WorldFrameCalibrator.init
    (constant_frame 4 0) 2 300
  = Returned [].
Proof.
  assert (Hs : (0 < 2)%Z) by lia.
  split; [exact Hs|]. split; [reflexivity|]. split.
  - apply (proj1 (batch_needs_setup WorldFrameCalibrator.init (constant_frame 4 2000) 2 300 Hs)).
    reflexivity.
  - apply (proj1 (batch_needs_setup WorldFrameCalibrator.init (constant_frame 4 0) 2 300 Hs)).
    reflexivity.
Defined.

(** ** More on saving and loading *)

(** X11. [save_calibration] writes a record exactly when the position, the
    rotation matrix, the translation vector and the transform are all set,
    that is once a pose was defined or loaded; with any of them missing it
    raises [AttributeError] and there is no record. *)
Theorem save_needs_pose : forall self now,
  ((exists data, WorldFrameCalibrator.save_calibration self now = Returned data) <->
   (exists p r tv T,
      WorldFrameCalibrator.camera_position_world self = Some p /\
      WorldFrameCalibrator.rotation_matrix self = Some r /\
      WorldFrameCalibrator.translation_vector self = Some tv /\
      WorldFrameCalibrator.T_world_camera self = Some T)) /\
  ((forall data, WorldFrameCalibrator.save_calibration self now <> Returned data) ->
   WorldFrameCalibrator.save_calibration self now
   = Raised (AttributeError "'NoneType' object has no attribute 'tolist'")).
Proof.
  intros self now. unfold WorldFrameCalibrator.save_calibration, WorldFrameCalibrator.tolist.
  destruct (WorldFrameCalibrator.camera_position_world self) as [p|];
    [|cbn; split; [split; [intros [d H]; discriminate H
                          | intros (p & r & tv & T & H & _); discriminate H]
                  | reflexivity]].
  destruct (WorldFrameCalibrator.rotation_matrix self) as [r|];
    [|cbn; split; [split; [intros [d H]; discriminate H
                          | intros (p' & r & tv & T & _ & H & _); discriminate H]
                  | reflexivity]].
  destruct (WorldFrameCalibrator.translation_vector self) as [tv|];
    [|cbn; split; [split; [intros [d H]; discriminate H
                          | intros (p' & r' & tv & T & _ & _ & H & _); discriminate H]
                  | reflexivity]].
  destruct (WorldFrameCalibrator.T_world_camera self) as [T|];
    [|cbn; split; [split; [intros [d H]; discriminate H
                          | intros (p' & r' & tv' & T & _ & _ & _ & H); discriminate H]
                  | reflexivity]].
  cbn. split.
  - split; [intros _; exists p, r, tv, T; repeat split | intros _; eexists; reflexivity].
  - intros H. exfalso. eapply H. reflexivity.
Qed.

Lemma save_needs_pose_witness :
  (exists data, WorldFrameCalibrator.save_calibration example_calibrator "t" = Returned data) /\
  WorldFrameCalibrator.save_calibration
    (WorldFrameCalibrator.setup_camera WorldFrameCalibrator.init (1 / 1000) example_intrinsics)
    "t"
  = Raised (AttributeError "'NoneType' object has no attribute 'tolist'").
Proof.
  split.
  - apply (proj1 (save_needs_pose example_calibrator "t")).
    eexists. eexists. eexists. eexists. repeat split; reflexivity.
  - apply (proj2 (save_needs_pose _ "t")). intros data H. discriminate H.
Defined.

(** X12. A record saved before any validation, whose stored error is
    [None], cannot be loaded cleanly: [load_calibration] assigns every
    field from the record and then raises [TypeError] when it prints the
    error with two decimals. *)
Theorem load_unvalidated_raises : forall self self0 now p r tv T,
  pose_defined self p r tv T ->
  WorldFrameCalibrator.calibration_error_cm self = None ->
  exists data self',
    WorldFrameCalibrator.save_calibration self now = Returned data /\
    WorldFrameCalibrator.load_calibration self0 (json_roundtrip data)
    = Some (self',
            Raised (TypeError "unsupported format string passed to NoneType.__format__")) /\
    WorldFrameCalibrator.camera_height_cm self' = WorldFrameCalibrator.camera_height_cm self /\
    WorldFrameCalibrator.camera_position_world self' = Some p /\
    WorldFrameCalibrator.rotation_matrix self' = Some r /\
    WorldFrameCalibrator.translation_vector self' = Some tv /\
    WorldFrameCalibrator.T_world_camera self' = Some T /\
    WorldFrameCalibrator.calibration_error_cm self' = None /\
    WorldFrameCalibrator.depth_scale self' = WorldFrameCalibrator.depth_scale self.
Proof.
  intros self self0 now p r tv T Hpose Herr.
  pose proof Hpose as (Hp & (Hr & _) & (Htv & _) & (HT & _)).
  pose proof (save_defined self now p r tv T Hp Hr Htv HT) as Hsave.
  pose proof (load_saved self self0 now p r tv T _ Hpose Hsave) as Hload.
  eexists. eexists. split; [exact Hsave|].
  split; [rewrite Hload, Herr; reflexivity|].
  repeat split; reflexivity.
Qed.

Lemma load_unvalidated_raises_witness :
  WorldFrameCalibrator.calibration_error_cm example_calibrator = None /\
  exists data self',
    WorldFrameCalibrator.save_calibration example_calibrator "quick_test" = Returned data /\
    WorldFrameCalibrator.load_calibration WorldFrameCalibrator.init (json_roundtrip data)
    = Some (self',
            Raised (TypeError "unsupported format string passed to NoneType.__format__")) /\
    WorldFrameCalibrator.T_world_camera self'
    = WorldFrameCalibrator.T_world_camera example_calibrator.
Proof.
  split; [reflexivity|].
  assert (Hpose : pose_defined example_calibrator
            (or_empty (WorldFrameCalibrator.camera_position_world example_calibrator))
            (or_empty (WorldFrameCalibrator.rotation_matrix example_calibrator))
            (or_empty (WorldFrameCalibrator.translation_vector example_calibrator))
            (or_empty (WorldFrameCalibrator.T_world_camera example_calibrator)))
    by (unfold pose_defined; repeat split; reflexivity).
  destruct (load_unvalidated_raises example_calibrator WorldFrameCalibrator.init "quick_test"
              _ _ _ _ Hpose eq_refl)
    as (data & self' & Hs & Hl & _ & _ & _ & _ & HT & _).
  exists data, self'. split; [exact Hs|]. split; [exact Hl|]. rewrite HT. reflexivity.
Defined.

(** X13. [load_calibration] is not all-or-nothing. From a saved record that
    lacks one key it assigns the fields that come before that key, leaves
    the later ones as they were, and raises [KeyError] for the key: nothing
    is assigned without ["camera_height_cm"]; without
    ["transformation_matrix"] the calibrator gets the new rotation and
    keeps its old transform; without ["depth_scale"] only the depth scale
    is kept. A record that is not a dictionary raises [TypeError] and
    assigns nothing. *)
Theorem load_stops_at_missing_key : forall self self0 now p r tv T,
  pose_defined self p r tv T ->
  exists data,
    WorldFrameCalibrator.save_calibration self now = Returned data /\
    WorldFrameCalibrator.load_calibration self0
      (delitem (json_roundtrip data) "camera_height_cm")
    = Some (self0, Raised (KeyError "camera_height_cm")) /\
    WorldFrameCalibrator.load_calibration self0
      (delitem (json_roundtrip data) "transformation_matrix")
    = Some ({| WorldFrameCalibrator.camera_intrinsics :=
                 WorldFrameCalibrator.camera_intrinsics self0;
               WorldFrameCalibrator.depth_scale := WorldFrameCalibrator.depth_scale self0;
               WorldFrameCalibrator.camera_height_cm :=
                 WorldFrameCalibrator.camera_height_cm self;
               WorldFrameCalibrator.camera_position_world := Some p;
               WorldFrameCalibrator.rotation_matrix := Some r;
               WorldFrameCalibrator.translation_vector := Some tv;
               WorldFrameCalibrator.T_world_camera :=
                 WorldFrameCalibrator.T_world_camera self0;
               WorldFrameCalibrator.calibration_error_cm :=
                 WorldFrameCalibrator.calibration_error_cm self0;
               WorldFrameCalibrator.calibration_points :=
                 WorldFrameCalibrator.calibration_points self0 |},
            Raised (KeyError "transformation_matrix")) /\
    WorldFrameCalibrator.load_calibration self0
      (delitem (json_roundtrip data) "depth_scale")
    = Some ({| WorldFrameCalibrator.camera_intrinsics :=
                 WorldFrameCalibrator.camera_intrinsics self0;
               WorldFrameCalibrator.depth_scale := WorldFrameCalibrator.depth_scale self0;
               WorldFrameCalibrator.camera_height_cm :=
                 WorldFrameCalibrator.camera_height_cm self;
               WorldFrameCalibrator.camera_position_world := Some p;
               WorldFrameCalibrator.rotation_matrix := Some r;
               WorldFrameCalibrator.translation_vector := Some tv;
               WorldFrameCalibrator.T_world_camera := Some T;
               WorldFrameCalibrator.calibration_error_cm :=
                 WorldFrameCalibrator.calibration_error_cm self;
               WorldFrameCalibrator.calibration_points :=
                 map json_roundtrip (WorldFrameCalibrator.calibration_points self) |},
            Raised (KeyError "depth_scale")) /\
    (forall items,
       WorldFrameCalibrator.load_calibration self0 (VList items)
       = Some (self0, Raised (TypeError "indices must be integers or slices, not str"))).
Proof.
  intros self self0 now p r tv T (Hp & (Hr & Hr2) & (Htv & Htv2) & (HT & HT2)).
  pose proof (save_defined self now p r tv T Hp Hr Htv HT) as Hsave.
  eexists. split; [exact Hsave|].
  pose proof (as_matrix_roundtrip r Hr2) as Er.
  pose proof (as_matrix_roundtrip tv Htv2) as Etv.
  pose proof (as_matrix_roundtrip T HT2) as ET.
  pose proof (as_vector_roundtrip p) as Ep.
  pose proof (as_scalar_roundtrip (WorldFrameCalibrator.camera_height_cm self)) as Eh.
  pose proof (as_scalar_roundtrip (WorldFrameCalibrator.calibration_error_cm self)) as Ee.
  split; [reflexivity|].
  split.
  { unfold WorldFrameCalibrator.load_calibration, WorldFrameCalibrator.load_entry.
    cbn [json_roundtrip map delitem remove_key getitem assoc
         String.eqb Ascii.eqb Bool.eqb].
    cbn [json_roundtrip WorldFrameCalibrator.floats WorldFrameCalibrator.floats2] in *.
    rewrite Eh, Ep, Er, Etv. reflexivity. }
  split.
  { unfold WorldFrameCalibrator.load_calibration, WorldFrameCalibrator.load_entry.
    cbn [json_roundtrip map delitem remove_key getitem assoc
         String.eqb Ascii.eqb Bool.eqb].
    cbn [json_roundtrip WorldFrameCalibrator.floats WorldFrameCalibrator.floats2] in *.
    rewrite Eh, Ep, Er, Etv, ET, Ee. reflexivity. }
  intros items. reflexivity.
Qed.

Lemma load_stops_at_missing_key_witness :
  exists data,
    WorldFrameCalibrator.save_calibration example_validated "t" = Returned data /\
    WorldFrameCalibrator.load_calibration WorldFrameCalibrator.init
      (delitem (json_roundtrip data) "camera_height_cm")
    = Some (WorldFrameCalibrator.init, Raised (KeyError "camera_height_cm")) /\
    exists self',
      WorldFrameCalibrator.load_calibration WorldFrameCalibrator.init
        (delitem (json_roundtrip data) "transformation_matrix")
      = Some (self', Raised (KeyError "transformation_matrix")) /\
      WorldFrameCalibrator.rotation_matrix self'
      = WorldFrameCalibrator.rotation_matrix example_validated /\
      WorldFrameCalibrator.T_world_camera self' = None.
Proof.
  destruct (load_stops_at_missing_key example_validated WorldFrameCalibrator.init "t"
              _ _ _ _ example_validated_defined)
    as (data & Hs & H1 & H2 & _).
  exists data. split; [exact Hs|]. split; [exact H1|].
  eexists. split; [exact H2|]. split; reflexivity.
Defined.

(** X14. What is on disk is stable: when a calibrator loads the record it
    saved and saves again (under the same timestamp), the new record reads
    back exactly as the first one does. *)
Theorem save_load_save : forall self now p r tv T,
  pose_defined self p r tv T ->
  exists data self' out data',
    WorldFrameCalibrator.save_calibration self now = Returned data /\
    WorldFrameCalibrator.load_calibration self (json_roundtrip data) = Some (self', out) /\
    WorldFrameCalibrator.save_calibration self' now = Returned data' /\
    json_roundtrip data' = json_roundtrip data.
Proof.
  intros self now p r tv T Hpose.
  pose proof Hpose as (Hp & (Hr & _) & (Htv & _) & (HT & _)).
  pose proof (save_defined self now p r tv T Hp Hr Htv HT) as Hsave.
  pose proof (load_saved self self now p r tv T _ Hpose Hsave) as Hload.
  eexists. eexists. eexists. eexists.
  split; [exact Hsave|]. split; [exact Hload|].
  split; [apply (save_defined _ now p r tv T); reflexivity|].
  cbn [WorldFrameCalibrator.camera_height_cm WorldFrameCalibrator.calibration_error_cm
       WorldFrameCalibrator.calibration_points WorldFrameCalibrator.camera_intrinsics
       WorldFrameCalibrator.depth_scale].
  assert (Hpts : map json_roundtrip
                   (map json_roundtrip (WorldFrameCalibrator.calibration_points self))
                 = map json_roundtrip (WorldFrameCalibrator.calibration_points self)).
  { rewrite map_map. apply map_ext. intros pt. apply json_roundtrip_idempotent. }
  cbn [json_roundtrip map]. rewrite Hpts. reflexivity.
Qed.

Lemma save_load_save_witness :
  exists data self' data',
    WorldFrameCalibrator.save_calibration example_validated "t" = Returned data /\
    WorldFrameCalibrator.load_calibration example_validated (json_roundtrip data)
      = Some (self', Returned tt) /\
    WorldFrameCalibrator.save_calibration self' "t" = Returned data' /\
    json_roundtrip data' = json_roundtrip data.
Proof.
  destruct (save_load_save example_validated "t" _ _ _ _ example_validated_defined)
    as (data & self' & out & data' & Hs & Hl & Hs' & Heq).
  exists data, self', data'. split; [exact Hs|]. split; [|split; [exact Hs' | exact Heq]].
  pose proof (load_saved example_validated example_validated "t" _ _ _ _ data
                example_validated_defined Hs) as Hl'.
  rewrite Hl in Hl'. injection Hl' as _ ->. exact Hl.
Defined.

(** ** [CoordinateTransformer] *)

Lemma reachable_rotation : forall tr,
  transformer_reachable tr ->
  CoordinateTransformer.R_cam_to_world tr
  = CoordinateTransformer.build_rotation_matrix
      (CoordinateTransformer.pitch_deg tr) (CoordinateTransformer.roll_deg tr)
      (CoordinateTransformer.yaw_deg tr).
Proof.
  induction 1 as [h p r y | tr i _ IH | tr p r y _ _]; [reflexivity | exact IH | reflexivity].
Qed.

(** X15. The rotation matrix of a transformer never goes stale: after any
    sequence of [set_intrinsics] and [update_tilt] calls on a constructed
    transformer it is the matrix of the angles currently stored, so the
    transformer maps points as a fresh one built with its height and these
    angles would, and an [update_tilt] without arguments changes
    nothing. *)
Theorem transformer_rotation_current : forall tr,
  transformer_reachable tr ->
  CoordinateTransformer.R_cam_to_world tr
  = CoordinateTransformer.build_rotation_matrix
      (CoordinateTransformer.pitch_deg tr) (CoordinateTransformer.roll_deg tr)
      (CoordinateTransformer.yaw_deg tr) /\
  (forall p,
     CoordinateTransformer.camera_to_world_coords tr p
     = CoordinateTransformer.camera_to_world_coords
         (CoordinateTransformer.init (CoordinateTransformer.camera_height tr)
            (CoordinateTransformer.pitch_deg tr) (CoordinateTransformer.roll_deg tr)
            (CoordinateTransformer.yaw_deg tr)) p) /\
  CoordinateTransformer.update_tilt tr None None None = tr.
Proof.
  intros tr H. pose proof (reachable_rotation tr H) as HR.
  split; [exact HR|]. split.
  - intros p. unfold CoordinateTransformer.camera_to_world_coords, CoordinateTransformer.init.
    cbn [CoordinateTransformer.R_cam_to_world CoordinateTransformer.camera_height].
    rewrite HR. reflexivity.
  - unfold CoordinateTransformer.update_tilt. rewrite <- HR. destruct tr; reflexivity.
Qed.

Lemma transformer_rotation_current_witness :
  transformer_reachable
    (CoordinateTransformer.update_tilt example_transformer (Some 3) None None) /\
  CoordinateTransformer.R_cam_to_world
    (CoordinateTransformer.update_tilt example_transformer (Some 3) None None)
  = CoordinateTransformer.build_rotation_matrix 3 0 0.
Proof.
  assert (H : transformer_reachable
                (CoordinateTransformer.update_tilt example_transformer (Some 3) None None))
    by (repeat constructor).
  split; [exact H|].
  exact (proj1 (transformer_rotation_current _ H)).
Defined.

(** X16. [pixel_to_world_coords] raises [ValueError] as long as no
    intrinsics were given. With intrinsics, a transformer that looks
    straight down (all angles 0) from height [h] returns the camera-frame
    point with its Y mirrored and its depth taken from the height: world x
    is camera x, world y is minus camera y, world z is [h] minus the depth;
    the floor position it reports is the first two of these. *)
Theorem pixel_to_world_straight_down : forall h i pixel_x pixel_y depth,
  (forall pitch roll yaw,
     CoordinateTransformer.pixel_to_world_coords
       (CoordinateTransformer.init h pitch roll yaw) pixel_x pixel_y depth
     = Raised (ValueError "Camera intrinsics not set! Call set_intrinsics() first.")) /\
  exists r cx cy,
    CoordinateTransformer.pixel_to_world_coords
      (CoordinateTransformer.set_intrinsics (CoordinateTransformer.init h 0 0 0) i)
      pixel_x pixel_y depth = Returned r /\
    CoordinateTransformer.camera_coords r = [cx; cy; depth] /\
    CoordinateTransformer.world_coords r = [cx; - cy; h - depth] /\
    CoordinateTransformer.world_coords_2d r = [cx; - cy].
Proof.
  intros h i px py depth. split; [reflexivity|].
  unfold CoordinateTransformer.pixel_to_world_coords,
    CoordinateTransformer.pixel_to_camera_coords,
    CoordinateTransformer.camera_to_world_coords,
    CoordinateTransformer.set_intrinsics, CoordinateTransformer.init.
  cbn [CoordinateTransformer.intrinsics CoordinateTransformer.R_cam_to_world
       CoordinateTransformer.camera_height Py.bind].
  rewrite build_rotation_matrix_euler_flip, radians_0.
  unfold euler_flip, Rs.rs2_deproject_pixel_to_point, Np.matvec, Np.dot.
  rewrite cos_0, sin_0. cbn.
  eexists. eexists. eexists. split; [reflexivity|].
  cbn. split; [reflexivity|]. split; repeat (f_equal; try ring).
Qed.

(** X17. The two classes agree on the whole path from a pixel to the
    world: with the same intrinsics, the same height (centimetres for the
    calibrator, metres for the transformer), the same angles and position
    (0,0), deprojecting a pixel and converting it with
    [WorldFrameCalibrator], in metres, gives the world point of
    [CoordinateTransformer.pixel_to_world_coords]. *)
Theorem pixel_pipelines_coincide : forall self scale i h tilt pan roll u v depth,
  let calibrator :=
    WorldFrameCalibrator.define_simple_overhead_calibration
      (WorldFrameCalibrator.setup_camera self scale i) (100 * h) 0 0 tilt pan roll in
  let tr := CoordinateTransformer.set_intrinsics
              (CoordinateTransformer.init h tilt roll pan) i in
  exists w r,
    (point_camera <- WorldFrameCalibrator.pixel_to_camera_coordinates calibrator u v depth ;;
     WorldFrameCalibrator.camera_to_world_coordinates calibrator point_camera false)
    = Returned w /\
    CoordinateTransformer.pixel_to_world_coords tr u v depth = Returned r /\
    CoordinateTransformer.world_coords r = w /\
    CoordinateTransformer.camera_coords r = Rs.rs2_deproject_pixel_to_point i u v depth.
Proof.
  intros self scale i h tilt pan roll u v depth calibrator tr. subst calibrator tr.
  unfold WorldFrameCalibrator.pixel_to_camera_coordinates,
    CoordinateTransformer.pixel_to_world_coords,
    CoordinateTransformer.pixel_to_camera_coords.
  cbn [WorldFrameCalibrator.camera_intrinsics
       WorldFrameCalibrator.define_simple_overhead_calibration
       WorldFrameCalibrator.setup_camera CoordinateTransformer.intrinsics
       CoordinateTransformer.set_intrinsics Py.bind].
  pose proof (transforms_agree (WorldFrameCalibrator.setup_camera self scale i) h tilt pan roll
                (Rs.rs2_deproject_pixel_to_point i u v depth)) as Hagree.
  assert (Hset : CoordinateTransformer.camera_to_world_coords
                   (CoordinateTransformer.set_intrinsics
                      (CoordinateTransformer.init h tilt roll pan) i)
                   (Rs.rs2_deproject_pixel_to_point i u v depth)
                 = CoordinateTransformer.camera_to_world_coords
                     (CoordinateTransformer.init h tilt roll pan)
                     (Rs.rs2_deproject_pixel_to_point i u v depth)) by reflexivity.
  rewrite Hset, <- Hagree.
  unfold Rs.rs2_deproject_pixel_to_point. rewrite camera_to_world_define.
  eexists. eexists. split; [reflexivity|]. cbn [Py.bind]. split; [reflexivity|].
  split; reflexivity.
Qed.

(** ** [CalibrationClickTool] *)

Lemma reachable_maps_points : forall tr a b c,
  transformer_reachable tr ->
  exists wx wy wz,
    CoordinateTransformer.camera_to_world_coords tr [a; b; c] = Returned [wx; wy; wz].
Proof.
  intros tr a b c H. unfold CoordinateTransformer.camera_to_world_coords.
  rewrite (reachable_rotation tr H), build_rotation_matrix_euler_flip.
  unfold euler_flip, Np.matvec. cbn. eexists. eexists. eexists. reflexivity.
Qed.

Lemma axis_index_in_range : forall n i,
  (0 <= i < n)%Z -> CalibrationClickTool.axis_index n i = Some i.
Proof.
  intros n i [H0 Hn]. unfold CalibrationClickTool.axis_index.
  destruct (Z.leb_spec 0 i); [|lia]. destruct (Z.ltb_spec i n); [|lia]. reflexivity.
Qed.

Lemma assoc_setitem_same : forall entries k v,
  assoc k (CalibrationClickTool.setitem entries k v) = Some v.
Proof.
  induction entries as [|[k' v'] entries IH]; intros k v; cbn.
  - rewrite String.eqb_refl. reflexivity.
  - destruct (String.eqb k k') eqn:Hk; cbn.
    + rewrite String.eqb_refl. reflexivity.
    + rewrite Hk. apply IH.
Qed.

Lemma assoc_setitem_other : forall entries k k' v,
  String.eqb k' k = false ->
  assoc k' (CalibrationClickTool.setitem entries k v) = assoc k' entries.
Proof.
  induction entries as [|[k0 v0] entries IH]; intros k k' v Hne; cbn.
  - rewrite Hne. reflexivity.
  - destruct (String.eqb k k0) eqn:Hk; cbn.
    + apply String.eqb_eq in Hk. subst k0. rewrite Hne. reflexivity.
    + destruct (String.eqb k' k0); [reflexivity | apply IH; exact Hne].
Qed.

Lemma setitem_present : forall entries k v,
  assoc k entries = Some v -> CalibrationClickTool.setitem entries k v = entries.
Proof.
  induction entries as [|[k' v'] entries IH]; intros k v H; cbn in *; [discriminate|].
  destruct (String.eqb k k') eqn:Hk.
  - apply String.eqb_eq in Hk. subst k'. injection H as ->. reflexivity.
  - f_equal. apply IH. exact H.
Qed.

Lemma replace_nth_length : forall {A : Type} (l : list A) i x,
  length (CalibrationClickTool.replace_nth l i x) = length l.
Proof.
  induction l as [|y l IH]; intros [|i] x; cbn; try reflexivity. rewrite IH. reflexivity.
Qed.

Lemma replace_nth_same : forall {A : Type} (l : list A) i x,
  (i < length l)%nat -> nth_error (CalibrationClickTool.replace_nth l i x) i = Some x.
Proof.
  induction l as [|y l IH]; intros [|i] x H; cbn in *; try lia; [reflexivity|].
  apply IH. lia.
Qed.

Lemma replace_nth_other : forall {A : Type} (l : list A) i j x,
  i <> j -> nth_error (CalibrationClickTool.replace_nth l i x) j = nth_error l j.
Proof.
  induction l as [|y l IH]; intros [|i] [|j] x H; cbn; try reflexivity; try congruence.
  apply IH. congruence.
Qed.

Lemma replace_nth_twice : forall {A : Type} (l : list A) i x y,
  CalibrationClickTool.replace_nth (CalibrationClickTool.replace_nth l i x) i y
  = CalibrationClickTool.replace_nth l i y.
Proof.
  induction l as [|z l IH]; intros [|i] x y; cbn; try reflexivity. rewrite IH. reflexivity.
Qed.

(** X18. A click inside the current frame stores a point exactly when the
    pixel has a usable depth. With a reading of 0 or of more than 10 m
    [_process_click] leaves the clicked points as they are; a reading of
    exactly 10 m is still accepted. With a usable reading, on a transformer
    that has intrinsics, it appends one point, after the earlier ones,
    whose floor position in centimetres is a hundred times the world x and
    y of the transformer. *)
Theorem click_stores_usable_depth : forall self frame pixel_x pixel_y now,
  CalibrationClickTool.current_depth self = Some frame ->
  (0 <= pixel_y < Rs.rows frame)%Z ->
  (0 <= pixel_x < Rs.cols frame)%Z ->
  let depth_m := IZR (Rs.pixel frame pixel_y pixel_x) * CalibrationClickTool.depth_scale self in
  (depth_m = 0 \/ depth_m > 10 ->
   CalibrationClickTool.process_click self pixel_x pixel_y now
   = (self, CalibrationClickTool.Done tt)) /\
  (depth_m <> 0 -> depth_m <= 10 ->
   forall i,
     transformer_reachable (CalibrationClickTool.transformer self) ->
     CoordinateTransformer.intrinsics (CalibrationClickTool.transformer self) = Some i ->
     exists wx wy wz,
       let cam := Rs.rs2_deproject_pixel_to_point i (IZR pixel_x) (IZR pixel_y) depth_m in
       CoordinateTransformer.camera_to_world_coords (CalibrationClickTool.transformer self) cam
         = Returned [wx; wy; wz] /\
       CalibrationClickTool.process_click self pixel_x pixel_y now
       = (CalibrationClickTool.with_clicked_points self
            (CalibrationClickTool.clicked_points self
             ++ [clicked pixel_x pixel_y depth_m cam wx wy wz now]),
          CalibrationClickTool.Done tt) /\
       assoc "world_xy_cm" (clicked pixel_x pixel_y depth_m cam wx wy wz now)
         = Some (VList [VFloat (wx * 100); VFloat (wy * 100)]) /\
       assoc "depth_m" (clicked pixel_x pixel_y depth_m cam wx wy wz now)
         = Some (VFloat depth_m)).
Proof.
  intros self frame px py now Hframe Hy Hx depth_m.
  assert (Hat : CalibrationClickTool.depth_at frame py px = Some (Rs.pixel frame py px)).
  { unfold CalibrationClickTool.depth_at.
    rewrite (axis_index_in_range _ _ Hy), (axis_index_in_range _ _ Hx). reflexivity. }
  split.
  - intros Hbad. unfold CalibrationClickTool.process_click. rewrite Hframe, Hat.
    fold depth_m. destruct (Req_dec_T depth_m 0); [reflexivity|].
    destruct (Rgt_dec depth_m 10); [reflexivity|]. destruct Hbad; contradiction.
  - intros Hnz Hle i Hreach Hintr.
    destruct (reachable_maps_points (CalibrationClickTool.transformer self)
                ((IZR px - Rs.ppx i) / Rs.fx i * depth_m)
                ((IZR py - Rs.ppy i) / Rs.fy i * depth_m) depth_m Hreach)
      as (wx & wy & wz & Hw).
    exists wx, wy, wz. cbv zeta. split; [exact Hw|]. split; [|split; reflexivity].
    unfold CalibrationClickTool.process_click. rewrite Hframe, Hat. fold depth_m.
    destruct (Req_dec_T depth_m 0); [contradiction|].
    destruct (Rgt_dec depth_m 10); [lra|].
    unfold CoordinateTransformer.pixel_to_world_coords,
      CoordinateTransformer.pixel_to_camera_coords.
    rewrite Hintr. cbn [Py.bind]. unfold Rs.rs2_deproject_pixel_to_point at 1.
    rewrite Hw. reflexivity.
Qed.

Lemma click_stores_usable_depth_witness :
  (0 <= 240 < Rs.rows (constant_frame 480 2000))%Z /\
  IZR 2000 * (1 / 1000) <> 0 /\
  IZR 2000 * (1 / 1000) <= 10 /\
  transformer_reachable example_transformer /\
  exists pt,
    CalibrationClickTool.process_click (example_tool 2000) 424 240 "t"
    = (CalibrationClickTool.with_clicked_points (example_tool 2000) [pt],
       CalibrationClickTool.Done tt) /\
    assoc "depth_m" pt = Some (VFloat (IZR 2000 * (1 / 1000))).
Proof.
  assert (Hr : (0 <= 240 < Rs.rows (constant_frame 480 2000))%Z) by (cbn; lia).
  assert (Hc : (0 <= 424 < Rs.cols (constant_frame 480 2000))%Z) by (cbn; lia).
  assert (Hnz : IZR 2000 * (1 / 1000) <> 0) by lra.
  assert (Hle : IZR 2000 * (1 / 1000) <= 10) by lra.
  assert (Hreach : transformer_reachable example_transformer) by (repeat constructor).
  split; [exact Hr|]. split; [exact Hnz|]. split; [exact Hle|]. split; [exact Hreach|].
  destruct (click_stores_usable_depth (example_tool 2000) (constant_frame 480 2000)
              424 240 "t" eq_refl Hr Hc) as [_ Hgood].
  destruct (Hgood Hnz Hle example_intrinsics Hreach eq_refl)
    as (wx & wy & wz & _ & Hclick & _ & Hdepth).
  eexists. split; [exact Hclick | exact Hdepth].
Defined.

Lemma with_ground_truth_measured : forall point mx my physical_x physical_y,
  assoc "world_xy_cm" point = Some (VList [VFloat mx; VFloat my]) ->
  CalibrationClickTool.with_ground_truth point physical_x physical_y
  = (CalibrationClickTool.setitem
       (CalibrationClickTool.setitem
          (CalibrationClickTool.setitem
             (CalibrationClickTool.setitem
                (CalibrationClickTool.setitem point "physical_x_cm" (VFloat physical_x))
                "physical_y_cm" (VFloat physical_y))
             "error_x_cm" (VFloat (mx - physical_x)))
          "error_y_cm" (VFloat (my - physical_y)))
       "error_total_cm"
       (VFloat (sqrt ((mx - physical_x) * (mx - physical_x)
                      + (my - physical_y) * (my - physical_y)))),
     CalibrationClickTool.Done tt).
Proof.
  intros point mx my px py Hm. unfold CalibrationClickTool.with_ground_truth,
    CalibrationClickTool.measured.
  rewrite !assoc_setitem_other by reflexivity. rewrite Hm. reflexivity.
Qed.

Lemma distance_2d_zero : forall dx dy, sqrt (dx * dx + dy * dy) = 0 <-> dx = 0 /\ dy = 0.
Proof.
  intros dx dy. split.
  - intros H. apply sqrt_eq_0 in H; nra.
  - intros [-> ->]. replace (0 * 0 + 0 * 0) with 0 by ring. apply sqrt_0.
Qed.

(** X19. [add_ground_truth] on a clicked point records the two physical
    coordinates and the error of the measured floor position against them:
    the error along each axis is measured minus physical, the total error
    is the length of that pair, which is never negative and is 0 only when
    the measurement is exact. Only five entries of that point change; its
    other entries, the other points and the number of points stay as they
    were. *)
Theorem ground_truth_error : forall self index point mx my physical_x physical_y,
  (0 <= index < Z.of_nat (length (CalibrationClickTool.clicked_points self)))%Z ->
  nth_error (CalibrationClickTool.clicked_points self) (Z.to_nat index) = Some point ->
  assoc "world_xy_cm" point = Some (VList [VFloat mx; VFloat my]) ->
  exists point' total,
    CalibrationClickTool.add_ground_truth self index physical_x physical_y
    = (CalibrationClickTool.with_clicked_points self
         (CalibrationClickTool.replace_nth (CalibrationClickTool.clicked_points self)
            (Z.to_nat index) point'),
       CalibrationClickTool.Done tt) /\
    assoc "physical_x_cm" point' = Some (VFloat physical_x) /\
    assoc "physical_y_cm" point' = Some (VFloat physical_y) /\
    assoc "error_x_cm" point' = Some (VFloat (mx - physical_x)) /\
    assoc "error_y_cm" point' = Some (VFloat (my - physical_y)) /\
    assoc "error_total_cm" point' = Some (VFloat total) /\
    total = sqrt ((mx - physical_x) * (mx - physical_x)
                  + (my - physical_y) * (my - physical_y)) /\
    0 <= total /\
    (total = 0 <-> mx = physical_x /\ my = physical_y) /\
    (forall k,
       String.eqb k "physical_x_cm" = false -> String.eqb k "physical_y_cm" = false ->
       String.eqb k "error_x_cm" = false -> String.eqb k "error_y_cm" = false ->
       String.eqb k "error_total_cm" = false ->
       assoc k point' = assoc k point) /\
    length (CalibrationClickTool.clicked_points
              (fst (CalibrationClickTool.add_ground_truth self index physical_x physical_y)))
    = length (CalibrationClickTool.clicked_points self) /\
    (forall j, j <> Z.to_nat index ->
       nth_error (CalibrationClickTool.clicked_points
                    (fst (CalibrationClickTool.add_ground_truth self index
                            physical_x physical_y))) j
       = nth_error (CalibrationClickTool.clicked_points self) j).
Proof.
  intros self index point mx my px py Hi Hnth Hm.
  assert (Hadd : CalibrationClickTool.add_ground_truth self index px py
                 = (CalibrationClickTool.with_clicked_points self
                      (CalibrationClickTool.replace_nth
                         (CalibrationClickTool.clicked_points self) (Z.to_nat index)
                         (fst (CalibrationClickTool.with_ground_truth point px py))),
                    CalibrationClickTool.Done tt)).
  { unfold CalibrationClickTool.add_ground_truth.
    destruct (Z.leb_spec (Z.of_nat (length (CalibrationClickTool.clicked_points self))) index);
      [lia|].
    rewrite (axis_index_in_range _ _ Hi), Hnth.
    rewrite (with_ground_truth_measured point mx my px py Hm). reflexivity. }
  rewrite Hadd. rewrite (with_ground_truth_measured point mx my px py Hm). cbn [fst].
  eexists. eexists. split; [reflexivity|].
  split; [rewrite !assoc_setitem_other by reflexivity; apply assoc_setitem_same|].
  split; [rewrite !assoc_setitem_other by reflexivity; apply assoc_setitem_same|].
  split; [rewrite !assoc_setitem_other by reflexivity; apply assoc_setitem_same|].
  split; [rewrite !assoc_setitem_other by reflexivity; apply assoc_setitem_same|].
  split; [apply assoc_setitem_same|].
  split; [reflexivity|].
  split; [apply sqrt_pos|].
  split.
  { rewrite distance_2d_zero. split; intros [H1 H2]; split; lra. }
  split.
  { intros k H1 H2 H3 H4 H5. rewrite !assoc_setitem_other by assumption. reflexivity. }
  cbn [CalibrationClickTool.clicked_points CalibrationClickTool.with_clicked_points].
  split; [apply replace_nth_length|].
  intros j Hj. apply replace_nth_other. congruence.
Qed.

Lemma ground_truth_error_witness :
  (0 <= 1 < Z.of_nat (length (CalibrationClickTool.clicked_points example_clicked)))%Z /\
  exists point point' total,
    nth_error (CalibrationClickTool.clicked_points example_clicked) 1 = Some point /\
    assoc "world_xy_cm" point = Some (VList [VFloat (35 / 100 * 100); VFloat (5 / 100 * 100)]) /\
    CalibrationClickTool.add_ground_truth example_clicked 1 34 5
    = (CalibrationClickTool.with_clicked_points example_clicked
         (CalibrationClickTool.replace_nth
            (CalibrationClickTool.clicked_points example_clicked) 1 point'),
       CalibrationClickTool.Done tt) /\
    assoc "error_total_cm" point' = Some (VFloat total) /\
    0 <= total.
Proof.
  assert (Hi : (0 <= 1 < Z.of_nat (length (CalibrationClickTool.clicked_points
                                            example_clicked)))%Z) by (cbn; lia).
  split; [exact Hi|].
  destruct (ground_truth_error example_clicked 1 _ (35 / 100 * 100) (5 / 100 * 100) 34 5
              Hi eq_refl eq_refl)
    as (point' & total & Hadd & _ & _ & _ & _ & Ht & _ & H0 & _).
  eexists. exists point', total. split; [reflexivity|]. split; [reflexivity|].
  split; [exact Hadd|]. split; [exact Ht | exact H0].
Defined.

(** X20. The index of [add_ground_truth] is checked against the end of the
    list only. An index at or past the number of points changes nothing; a
    negative index counts from the end, so that -1 edits the last point,
    exactly as the index of that point would; an index below minus the
    number of points raises [IndexError] and changes nothing. *)
Theorem ground_truth_index : forall self index physical_x physical_y,
  let n := Z.of_nat (length (CalibrationClickTool.clicked_points self)) in
  ((n <= index)%Z ->
   CalibrationClickTool.add_ground_truth self index physical_x physical_y
   = (self, CalibrationClickTool.Done tt)) /\
  ((- n <= index < 0)%Z ->
   CalibrationClickTool.add_ground_truth self index physical_x physical_y
   = CalibrationClickTool.add_ground_truth self (index + n) physical_x physical_y) /\
  ((index < - n)%Z ->
   CalibrationClickTool.add_ground_truth self index physical_x physical_y
   = (self, CalibrationClickTool.Failed
              (CalibrationClickTool.IndexError "list index out of range"))).
Proof.
  intros self index px py n. subst n.
  set (n := Z.of_nat (length (CalibrationClickTool.clicked_points self))).
  assert (Hn : (0 <= n)%Z) by (subst n; lia).
  unfold CalibrationClickTool.add_ground_truth. fold n.
  split; [|split].
  - intros H. destruct (Z.leb_spec n index); [reflexivity | lia].
  - intros H. destruct (Z.leb_spec n index); [lia|].
    destruct (Z.leb_spec n (index + n)); [lia|].
    assert (E1 : CalibrationClickTool.axis_index n index = Some (index + n)%Z).
    { unfold CalibrationClickTool.axis_index.
      destruct (Z.leb_spec 0 index); [lia|]. cbn [andb].
      destruct (Z.leb_spec (- n) index); [|lia].
      destruct (Z.ltb_spec index 0); [|lia]. reflexivity. }
    rewrite E1, (axis_index_in_range n (index + n)) by lia. reflexivity.
  - intros H. destruct (Z.leb_spec n index); [lia|].
    assert (E1 : CalibrationClickTool.axis_index n index = None).
    { unfold CalibrationClickTool.axis_index.
      destruct (Z.leb_spec 0 index); [lia|]. cbn [andb].
      destruct (Z.leb_spec (- n) index); [lia|]. reflexivity. }
    rewrite E1. reflexivity.
Qed.

Lemma ground_truth_index_witness :
  CalibrationClickTool.add_ground_truth example_clicked 2 34 5
    = (example_clicked, CalibrationClickTool.Done tt) /\
  CalibrationClickTool.add_ground_truth example_clicked (-1) 34 5
    = CalibrationClickTool.add_ground_truth example_clicked 1 34 5 /\
  CalibrationClickTool.add_ground_truth example_clicked (-3) 34 5
    = (example_clicked, CalibrationClickTool.Failed
                          (CalibrationClickTool.IndexError "list index out of range")).
Proof.
  pose proof (ground_truth_index example_clicked 2 34 5) as (H1 & _ & _).
  pose proof (ground_truth_index example_clicked (-1) 34 5) as (_ & H2 & _).
  pose proof (ground_truth_index example_clicked (-3) 34 5) as (_ & _ & H3).
  split; [apply H1; cbn; lia|]. split; [apply H2; cbn; lia | apply H3; cbn; lia].
Defined.

Lemma setitem_twice : forall entries k v v',
  CalibrationClickTool.setitem (CalibrationClickTool.setitem entries k v) k v'
  = CalibrationClickTool.setitem entries k v'.
Proof.
  induction entries as [|[k0 v0] entries IH]; intros k v v'; cbn.
  - rewrite String.eqb_refl. reflexivity.
  - destruct (String.eqb k k0) eqn:Hk; cbn.
    + rewrite String.eqb_refl. reflexivity.
    + rewrite Hk, IH. reflexivity.
Qed.

(** Two assignments to different keys commute when the second key is
    already there (a new key would go last). *)
Lemma setitem_commute : forall entries k k' v v',
  String.eqb k k' = false ->
  assoc k entries <> None ->
  CalibrationClickTool.setitem (CalibrationClickTool.setitem entries k' v') k v
  = CalibrationClickTool.setitem (CalibrationClickTool.setitem entries k v) k' v'.
Proof.
  induction entries as [|[k0 v0] entries IH]; intros k k' v v' Hne Hin; cbn in *.
  - congruence.
  - destruct (String.eqb k k0) eqn:Hk.
    + apply String.eqb_eq in Hk. subst k0.
      rewrite String.eqb_sym, Hne. cbn. rewrite String.eqb_refl.
      rewrite String.eqb_sym, Hne. reflexivity.
    + destruct (String.eqb k' k0) eqn:Hk'; cbn.
      * rewrite Hne. rewrite Hk'. reflexivity.
      * rewrite Hk, Hk'. f_equal. apply IH; assumption.
Qed.

Lemma add_ground_truth_valid : forall self index point mx my physical_x physical_y,
  (0 <= index < Z.of_nat (length (CalibrationClickTool.clicked_points self)))%Z ->
  nth_error (CalibrationClickTool.clicked_points self) (Z.to_nat index) = Some point ->
  assoc "world_xy_cm" point = Some (VList [VFloat mx; VFloat my]) ->
  CalibrationClickTool.add_ground_truth self index physical_x physical_y
  = (CalibrationClickTool.with_clicked_points self
       (CalibrationClickTool.replace_nth (CalibrationClickTool.clicked_points self)
          (Z.to_nat index)
          (fst (CalibrationClickTool.with_ground_truth point physical_x physical_y))),
     CalibrationClickTool.Done tt).
Proof.
  intros self index point mx my px py Hi Hnth Hm.
  unfold CalibrationClickTool.add_ground_truth.
  destruct (Z.leb_spec (Z.of_nat (length (CalibrationClickTool.clicked_points self))) index);
    [lia|].
  rewrite (axis_index_in_range _ _ Hi), Hnth.
  rewrite (with_ground_truth_measured point mx my px py Hm). reflexivity.
Qed.

Ltac key_present :=
  rewrite ?assoc_setitem_other by reflexivity; rewrite assoc_setitem_same; discriminate.

Ltac move_inward k k' :=
  rewrite (setitem_commute _ k k') by (reflexivity || key_present).

Lemma ground_truth_overwrites_point : forall point mx my x1 y1 x2 y2,
  assoc "world_xy_cm" point = Some (VList [VFloat mx; VFloat my]) ->
  fst (CalibrationClickTool.with_ground_truth
         (fst (CalibrationClickTool.with_ground_truth point x1 y1)) x2 y2)
  = fst (CalibrationClickTool.with_ground_truth point x2 y2).
Proof.
  intros point mx my x1 y1 x2 y2 Hm.
  rewrite (with_ground_truth_measured point mx my x1 y1 Hm). cbn [fst].
  rewrite (with_ground_truth_measured _ mx my x2 y2)
    by (rewrite !assoc_setitem_other by reflexivity; exact Hm).
  rewrite (with_ground_truth_measured point mx my x2 y2 Hm). cbn [fst].
  move_inward "physical_x_cm"%string "error_total_cm"%string.
  move_inward "physical_x_cm"%string "error_y_cm"%string.
  move_inward "physical_x_cm"%string "error_x_cm"%string.
  move_inward "physical_x_cm"%string "physical_y_cm"%string.
  rewrite (setitem_twice point "physical_x_cm").
  move_inward "physical_y_cm"%string "error_total_cm"%string.
  move_inward "physical_y_cm"%string "error_y_cm"%string.
  move_inward "physical_y_cm"%string "error_x_cm"%string.
  rewrite (setitem_twice _ "physical_y_cm").
  move_inward "error_x_cm"%string "error_total_cm"%string.
  move_inward "error_x_cm"%string "error_y_cm"%string.
  rewrite (setitem_twice _ "error_x_cm").
  move_inward "error_y_cm"%string "error_total_cm"%string.
  rewrite (setitem_twice _ "error_y_cm").
  rewrite (setitem_twice _ "error_total_cm").
  reflexivity.
Qed.

(** X21. Entering the ground truth of a point again overwrites: after a
    first [add_ground_truth] on a clicked point, a second one on the same
    point leaves the tool exactly as if only the second had been made, with
    no entry duplicated. *)
Theorem ground_truth_last_wins : forall self index point mx my x1 y1 x2 y2,
  (0 <= index < Z.of_nat (length (CalibrationClickTool.clicked_points self)))%Z ->
  nth_error (CalibrationClickTool.clicked_points self) (Z.to_nat index) = Some point ->
  assoc "world_xy_cm" point = Some (VList [VFloat mx; VFloat my]) ->
  CalibrationClickTool.add_ground_truth
    (fst (CalibrationClickTool.add_ground_truth self index x1 y1)) index x2 y2
  = CalibrationClickTool.add_ground_truth self index x2 y2.
Proof.
  intros self index point mx my x1 y1 x2 y2 Hi Hnth Hm.
  rewrite (add_ground_truth_valid self index point mx my x1 y1 Hi Hnth Hm). cbn [fst].
  rewrite (add_ground_truth_valid self index point mx my x2 y2 Hi Hnth Hm).
  assert (Hlt : (Z.to_nat index < length (CalibrationClickTool.clicked_points self))%nat)
    by lia.
  rewrite (add_ground_truth_valid _ index
             (fst (CalibrationClickTool.with_ground_truth point x1 y1)) mx my x2 y2).
  - cbn [CalibrationClickTool.clicked_points CalibrationClickTool.with_clicked_points].
    rewrite replace_nth_twice.
    rewrite (ground_truth_overwrites_point point mx my x1 y1 x2 y2 Hm).
    reflexivity.
  - cbn [CalibrationClickTool.clicked_points CalibrationClickTool.with_clicked_points].
    rewrite replace_nth_length. exact Hi.
  - cbn [CalibrationClickTool.clicked_points CalibrationClickTool.with_clicked_points].
    apply replace_nth_same. exact Hlt.
  - rewrite (with_ground_truth_measured point mx my x1 y1 Hm). cbn [fst].
    rewrite !assoc_setitem_other by reflexivity. exact Hm.
Qed.

Lemma ground_truth_last_wins_witness :
  (0 <= 1 < Z.of_nat (length (CalibrationClickTool.clicked_points example_clicked)))%Z /\
  CalibrationClickTool.add_ground_truth
    (fst (CalibrationClickTool.add_ground_truth example_clicked 1 30 0)) 1 34 5
  = CalibrationClickTool.add_ground_truth example_clicked 1 34 5.
Proof.
  assert (Hi : (0 <= 1 < Z.of_nat (length (CalibrationClickTool.clicked_points
                                            example_clicked)))%Z) by (cbn; lia).
  split; [exact Hi|].
  exact (ground_truth_last_wins example_clicked 1 _ (35 / 100 * 100) (5 / 100 * 100)
           30 0 34 5 Hi eq_refl eq_refl).
Defined.

(** ** How the operations of the calibrator compose *)

(** X22. Whatever the angles, the camera's own origin is sent to the camera
    position: asked in centimetres, the transform gives back the position
    and height exactly as they were entered (in centimetres); asked in
    metres, a hundredth of them. *)
Theorem camera_origin_is_position : forall self h x y tilt pan roll,
  let st := WorldFrameCalibrator.define_simple_overhead_calibration
              self h x y tilt pan roll in
  WorldFrameCalibrator.camera_to_world_coordinates st [0; 0; 0] true = Returned [x; y; h] /\
  WorldFrameCalibrator.camera_to_world_coordinates st [0; 0; 0] false
  = Returned [x / 100; y / 100; h / 100] /\
  WorldFrameCalibrator.camera_position_world st = Some [x / 100; y / 100; h / 100].
Proof.
  intros. subst st. rewrite !camera_to_world_define.
  unfold euler_flip, Np.dot, Np.scale, Np.sum. cbn.
  repeat split; repeat (f_equal; try field).
Qed.

(** The conversions read the intrinsics, the depth scale and the transform
    of the calibrator, and nothing else. *)
Lemma batch_depends_on_setup : forall self1 self2 frame subsample max_distance_cm,
  WorldFrameCalibrator.camera_intrinsics self1 = WorldFrameCalibrator.camera_intrinsics self2 ->
  WorldFrameCalibrator.depth_scale self1 = WorldFrameCalibrator.depth_scale self2 ->
  WorldFrameCalibrator.T_world_camera self1 = WorldFrameCalibrator.T_world_camera self2 ->
  WorldFrameCalibrator.depth_image_to_world_points self1 frame subsample max_distance_cm
  = WorldFrameCalibrator.depth_image_to_world_points self2 frame subsample max_distance_cm.
Proof.
  intros self1 self2 frame s mx Hi Hs HT.
  assert (Hstep : forall v u acc,
    WorldFrameCalibrator.pixel_step self1 frame mx v u acc
    = WorldFrameCalibrator.pixel_step self2 frame mx v u acc).
  { intros v u acc. unfold WorldFrameCalibrator.pixel_step,
      WorldFrameCalibrator.pixel_to_camera_coordinates,
      WorldFrameCalibrator.camera_to_world_coordinates.
    rewrite Hi, Hs, HT. reflexivity. }
  assert (Hscan : WorldFrameCalibrator.depth_image_scan self1 frame s mx
                  = WorldFrameCalibrator.depth_image_scan self2 frame s mx).
  { unfold WorldFrameCalibrator.depth_image_scan.
    destruct (Py.range 0 (Rs.rows frame) s) as [vs|e]; [|reflexivity].
    cbn [Py.bind]. apply for_each_ext. intros v acc.
    destruct (Py.range 0 (Rs.cols frame) s) as [us|e]; [|reflexivity].
    cbn [Py.bind]. apply for_each_ext. intros u acc'. apply Hstep. }
  unfold WorldFrameCalibrator.depth_image_to_world_points.
  rewrite Hscan. reflexivity.
Qed.

(** X23. A reloaded calibration converts as the saved one did. After a
    calibrator with a pose saved its record and a calibrator holding the
    same intrinsics loaded it, the two convert every camera-frame point, in
    either unit, and every depth frame to the same result. *)
Theorem reloaded_converts_alike : forall self self0 now p r tv T,
  pose_defined self p r tv T ->
  WorldFrameCalibrator.camera_intrinsics self0 = WorldFrameCalibrator.camera_intrinsics self ->
  exists data self' out,
    WorldFrameCalibrator.save_calibration self now = Returned data /\
    WorldFrameCalibrator.load_calibration self0 (json_roundtrip data) = Some (self', out) /\
    (forall point return_cm,
       WorldFrameCalibrator.camera_to_world_coordinates self' point return_cm
       = WorldFrameCalibrator.camera_to_world_coordinates self point return_cm) /\
    (forall frame subsample max_distance_cm,
       WorldFrameCalibrator.depth_image_to_world_points self' frame subsample max_distance_cm
       = WorldFrameCalibrator.depth_image_to_world_points self frame subsample
           max_distance_cm).
Proof.
  intros self self0 now p r tv T Hpose Hintr.
  pose proof Hpose as (Hp & (Hr & _) & (Htv & _) & (HT & _)).
  pose proof (save_defined self now p r tv T Hp Hr Htv HT) as Hsave.
  pose proof (load_saved self self0 now p r tv T _ Hpose Hsave) as Hload.
  eexists. eexists. eexists. split; [exact Hsave|]. split; [exact Hload|].
  split.
  - intros point cm. unfold WorldFrameCalibrator.camera_to_world_coordinates.
    cbn [WorldFrameCalibrator.T_world_camera]. rewrite HT. reflexivity.
  - intros frame s mx. apply batch_depends_on_setup;
      cbn [WorldFrameCalibrator.camera_intrinsics WorldFrameCalibrator.depth_scale
           WorldFrameCalibrator.T_world_camera]; [exact Hintr | reflexivity |].
    symmetry. exact HT.
Qed.

Lemma reloaded_converts_alike_witness :
  exists data self' out,
    WorldFrameCalibrator.save_calibration example_validated "t" = Returned data /\
    WorldFrameCalibrator.load_calibration
      (WorldFrameCalibrator.setup_camera WorldFrameCalibrator.init (1 / 1000)
         example_intrinsics) (json_roundtrip data) = Some (self', out) /\
    WorldFrameCalibrator.depth_image_to_world_points self' (constant_frame 10 2000) 2 300
    = WorldFrameCalibrator.depth_image_to_world_points example_validated
        (constant_frame 10 2000) 2 300.
Proof.
  destruct (reloaded_converts_alike example_validated
              (WorldFrameCalibrator.setup_camera WorldFrameCalibrator.init (1 / 1000)
                 example_intrinsics) "t" _ _ _ _ example_validated_defined eq_refl)
    as (data & self' & out & Hs & Hl & _ & Hb).
  exists data, self', out. split; [exact Hs|]. split; [exact Hl|]. apply Hb.
Defined.

(** A history that [add_calibration_point] built carries one non-negative
    float error per point. *)
Lemma history_errors : forall pts,
  Forall point_ok pts ->
  exists errors,
    Forall2 (fun pt e => exists v, getitem pt "error_cm" = Returned v /\
                                   WorldFrameCalibrator.as_float v = Some e) pts errors /\
    Forall (fun e => 0 <= e) errors.
Proof.
  induction 1 as [|pt pts (predicted & x & y & z & e & _ & _ & He & Hpos & _) _
                    (errors & Hall & Hnn)].
  - exists []. split; constructor.
  - exists (e :: errors). split; constructor; try assumption.
    exists (VFloat e). split; [exact He | reflexivity].
Qed.

(** X24. Adding then validating. On a calibrator whose history was built by
    [add_calibration_point], a call that returns an error is followed by a
    validation that returns metrics: they count one point more than the
    history had, the error just returned lies between the minimum and the
    maximum, and the minimum is not negative. *)
Theorem added_point_is_counted : forall self pixel depth x y z label error,
  history_ok self ->
  snd (WorldFrameCalibrator.add_calibration_point self pixel depth (x, y, z) label)
    = Returned error ->
  exists m,
    snd (WorldFrameCalibrator.validate_calibration
           (fst (WorldFrameCalibrator.add_calibration_point self pixel depth (x, y, z) label)))
      = Returned (Some m) /\
    WorldFrameCalibrator.num_points m
      = S (length (WorldFrameCalibrator.calibration_points self)) /\
    0 <= WorldFrameCalibrator.min_error_cm m /\
    WorldFrameCalibrator.min_error_cm m <= error <= WorldFrameCalibrator.max_error_cm m.
Proof.
  intros self pixel depth x y z label error Hok Hret.
  destruct (history_errors _ Hok) as (errors & Hall & Hnn).
  destruct (add_calibration_point_cases self pixel depth x y z label)
    as [(e & Hr) | (predicted & difference & Hd & Hr)];
    rewrite Hr in Hret |- *; cbn [fst snd] in Hret |- *; [discriminate Hret|].
  destruct (WorldFrameCalibrator.print_predicted predicted); [|discriminate Hret].
  cbn [Py.bind] in Hret. injection Hret as <-.
  set (p := WorldFrameCalibrator.calibration_point label pixel depth (x, y, z) predicted
              (Np.norm difference)).
  assert (Hne : errors ++ [Np.norm difference] <> [])
    by (intros Hnil; apply app_eq_nil in Hnil; destruct Hnil; discriminate).
  assert (Hall' : Forall2 (fun pt e => exists v, getitem pt "error_cm" = Returned v /\
                                                 WorldFrameCalibrator.as_float v = Some e)
                    (WorldFrameCalibrator.calibration_points self ++ [p])
                    (errors ++ [Np.norm difference])).
  { apply Forall2_app; [exact Hall|]. constructor; [|constructor].
    exists (VFloat (Np.norm difference)). destruct pixel. split; reflexivity. }
  rewrite (validate_nonempty
             (WorldFrameCalibrator.with_calibration_points self
                (WorldFrameCalibrator.calibration_points self ++ [p])) _ Hne Hall').
  eexists. split; [reflexivity|].
  cbn [WorldFrameCalibrator.num_points WorldFrameCalibrator.min_error_cm
       WorldFrameCalibrator.max_error_cm snd].
  destruct (amin_spec _ Hne) as [Hin Hmin]. destruct (amax_spec _ Hne) as [_ Hmax].
  rewrite Forall_forall in Hmin, Hmax.
  assert (Hlast : In (Np.norm difference) (errors ++ [Np.norm difference]))
    by (apply in_or_app; right; left; reflexivity).
  split; [|split; [|split; [apply Hmin | apply Hmax]; exact Hlast]].
  - rewrite length_app, (Forall2_length Hall). cbn. lia.
  - apply in_app_or in Hin. destruct Hin as [Hin | [<- | []]].
    + rewrite Forall_forall in Hnn. apply Hnn, Hin.
    + apply sqrt_pos.
Qed.

Lemma added_point_is_counted_witness :
  exists error m,
    snd (WorldFrameCalibrator.add_calibration_point example_one_point (700, 300)%Z 2
           (10, 10, 20) "second") = Returned error /\
    snd (WorldFrameCalibrator.validate_calibration
           (fst (WorldFrameCalibrator.add_calibration_point example_one_point (700, 300)%Z 2
                   (10, 10, 20) "second"))) = Returned (Some m) /\
    WorldFrameCalibrator.num_points m = 2%nat /\
    WorldFrameCalibrator.min_error_cm m <= error <= WorldFrameCalibrator.max_error_cm m.
Proof.
  assert (Hok : history_ok example_one_point).
  { unfold history_ok, example_one_point.
    destruct (add_calibration_point_cases example_calibrator (640, 360)%Z 2 0 0 20 "centre")
      as [(e & Hr) | (predicted & difference & Hd & Hr)]; rewrite Hr; cbn [fst].
    - constructor.
    - cbn [WorldFrameCalibrator.calibration_points WorldFrameCalibrator.with_calibration_points
           example_calibrator].
      apply Forall_app. split; [|constructor; [|constructor]].
      + unfold example_calibrator. cbn. constructor.
      + apply calibration_point_ok. exact Hd. }
  destruct (add_calibration_point_ready example_one_point example_intrinsics (1 / 1000)
              example_T (700, 300)%Z 2 10 10 20 "second")
    as (predicted & _ & _ & Hadd).
  { unfold example_one_point.
    destruct (add_calibration_point_cases example_calibrator (640, 360)%Z 2 0 0 20 "centre")
      as [(e & Hr) | (p' & d' & _ & Hr)]; rewrite Hr; cbn [fst]; apply example_ready. }
  { cbn. lia. }
  exists (euclidean_distance predicted [10; 10; 20]).
  destruct (added_point_is_counted example_one_point (700, 300)%Z 2 10 10 20 "second"
              (euclidean_distance predicted [10; 10; 20]) Hok)
    as (m & Hv & Hn & _ & Hb).
  { rewrite Hadd. reflexivity. }
  exists m. split; [rewrite Hadd; reflexivity|]. split; [exact Hv|]. split; [|exact Hb].
  rewrite Hn. unfold example_one_point.
  destruct (add_calibration_point_ready example_calibrator example_intrinsics (1 / 1000)
              example_T (640, 360)%Z 2 0 0 20 "centre" example_ready) as (q & _ & _ & H1).
  { cbn. lia. }
  rewrite H1. reflexivity.
Defined.
